(** * Retail sales ETL: the batch transformation and data-quality engine

    A shallow embedding of [etl_pipeline.py] (the tracker, [transform_data],
    the three loaders, the batch log, the two extractors and
    [run_etl_pipeline]) together with the properties the specification
    states about them.

    Conventions of the embedding.
    - A pandas [DataFrame] is a list of rows, each carrying its index label.
    - Text is a Rocq [string]: a sequence of 8-bit code points, which is
      what [read_csv(encoding='ISO-8859-1')] produces.
    - Python integers ([len], counters) are [Z]; float64 values are exact
      rationals [Q] (every finite float is one, and the code only compares
      them with constants); the rounding of [line_total] is not modelled.
      The numbers of a frame are finite: a file that holds [inf] or [-inf]
      in a numeric column has no counterpart here, and what is proved is
      proved of files without such values.  [int64] columns are [Z] with
      the range checked where the code converts into them.
    - [InvoiceNo], [StockCode], [Description] and [Country] are columns
      of text: a cell is a string or is missing.
    - The parsers of pandas for text ([to_datetime], [to_numeric] on
      strings) and the printing of a [Timestamp] are parameters of the
      development.
    - Wall-clock fields ([execution_timestamp], [quarantined_at],
      [loaded_at], [batch_start], [batch_end], the duration) are left out
      of the records; the [batch_id], which the code derives from the start
      time, is an argument.
    - The database is a record of four tables; whether PostgreSQL accepts a
      statement is decided by a parameter, and a rejected statement is
      rolled back ([run_sql_query] returns [False]). *)

From Stdlib Require Import List ZArith QArith Bool String Ascii Lia Arith
  Permutation Sorted.
Import ListNotations.
Local Open Scope string_scope.
Local Open Scope Z_scope.

(** ** Text helpers: [str.strip], [str.upper], [str.title], [str.startswith] *)

Module Text.

(** [str.isspace] on the code points below 256. *)
Definition isspace (c : ascii) : bool :=
  let n := nat_of_ascii c in
  (((9 <=? n) && (n <=? 13)) || ((28 <=? n) && (n <=? 32))
   || (n =? 133) || (n =? 160))%nat.

Fixpoint lstrip (s : string) : string :=
  match s with
  | EmptyString => EmptyString
  | String c s' => if isspace c then lstrip s' else s
  end.

Fixpoint rstrip (s : string) : string :=
  match s with
  | EmptyString => EmptyString
  | String c s' =>
      match rstrip s' with
      | EmptyString => if isspace c then EmptyString else String c EmptyString
      | t => String c t
      end
  end.

Definition strip (s : string) : string := rstrip (lstrip s).

Definition is_lower (n : nat) : bool :=
  (((97 <=? n) && (n <=? 122))
   || ((223 <=? n) && (n <=? 255) && negb (n =? 247))
   || (n =? 170) || (n =? 181) || (n =? 186))%nat.

Definition is_upper (n : nat) : bool :=
  (((65 <=? n) && (n <=? 90))
   || ((192 <=? n) && (n <=? 222) && negb (n =? 215)))%nat.

(** Upper case of one code point.  The sharp s becomes two letters; the
    micro sign and the y with diaeresis, whose upper-case forms lie
    outside the 8-bit range, are kept as they are. *)
Definition upper_char (c : ascii) : string :=
  let n := nat_of_ascii c in
  if ((97 <=? n) && (n <=? 122))%nat
  then String (ascii_of_nat (n - 32)) EmptyString
  else if (n =? 223)%nat then "SS"
  else if ((224 <=? n) && (n <=? 254) && negb (n =? 247))%nat
  then String (ascii_of_nat (n - 32)) EmptyString
  else String c EmptyString.

Definition lower_char (c : ascii) : ascii :=
  let n := nat_of_ascii c in
  if is_upper n then ascii_of_nat (n + 32) else c.

Fixpoint upper (s : string) : string :=
  match s with
  | EmptyString => EmptyString
  | String c s' => upper_char c ++ upper s'
  end.

(** Title case of the first letter of a word. *)
Definition title_char (c : ascii) : string :=
  if (nat_of_ascii c =? 223)%nat then "Ss" else upper_char c.

(** [str.title]: a cased letter that follows a cased letter is lowered,
    any other cased letter is raised. *)
Fixpoint title_from (previous_is_cased : bool) (s : string) : string :=
  match s with
  | EmptyString => EmptyString
  | String c s' =>
      let n := nat_of_ascii c in
      if is_lower n || is_upper n
      then (if previous_is_cased then String (lower_char c) EmptyString
            else title_char c) ++ title_from true s'
      else String c (title_from false s')
  end.

Definition title (s : string) : string := title_from false s.

Definition startswith (s pre : string) : bool := String.prefix pre s.

End Text.

(** ** Cells and rows *)

(** A cell of a numeric column as [read_csv] delivers it: missing, an
    integer, a float, or text when the column could not be typed. *)
Inductive cell : Type :=
| CNull
| CInt (z : Z)
| CDec (q : Q)
| CText (s : string).

(** A cell of the [InvoiceDate] column: text as read from the file, or a
    timestamp once [extract_data_incremental] has parsed the column. *)
Inductive date_cell : Type :=
| DNull
| DText (s : string)
| DStamp (t : Z).

(** The eight columns of the source file. *)
Record RawRecord : Type := mkRaw {
  InvoiceNo : option string;
  StockCode : option string;
  Description : option string;
  Quantity : cell;
  InvoiceDate : date_cell;
  UnitPrice : cell;
  CustomerID : cell;
  Country : option string
}.

(** A frame of raw rows; the first component is the index label. *)
Definition DataFrame : Type := list (nat * RawRecord).

(** What [pd.read_csv] builds: a [RangeIndex] over the records. *)
Definition read_csv (records : list RawRecord) : DataFrame :=
  combine (seq 0 (List.length records)) records.

(** A row of the working frame after type casting (sections 2.1 and 2.2 of
    [transform_data]): the raw columns and the five typed ones. *)
Record TRow : Type := mkTRow {
  index : nat;
  raw : RawRecord;
  invoice_date : option Z;
  quantity : Z;
  unit_price : Q;
  customer_id : option Z;
  line_total : Q
}.

(** A row of the frame [transform_data] returns. *)
Record CleanRow : Type := mkClean {
  typed : TRow;
  invoice_no : string;
  stock_code : string;
  description : string;
  country : string;
  is_cancellation : bool;
  is_adjustment : bool;
  is_guest_purchase : bool;
  is_valid_sale : bool;
  is_return : bool;
  row_batch_id : string;
  source_file : string
}.

(** ** The quality tracker *)

(** One row of [DataQualityTracker.metrics]. *)
Record Metric : Type := mkMetric {
  metric_batch_id : string;
  metric_rule_name : string;
  rule_category : string;
  rows_processed : Z;
  rows_passed : Z;
  rows_quarantined : Z;
  rows_dropped : Z;
  notes : string
}.

(** A value of the dictionary that [json.dumps] serialises. *)
Inductive json_value : Type :=
| JNull
| JStr (s : string)
| JInt (z : Z)
| JNum (q : Q)
| JTime (t : Z).

(** One row of [DataQualityTracker.quarantine_records].  [raw_row_json] is
    the dictionary handed to [json.dumps], column by column. *)
Record QuarantineEntry : Type := mkQuarantine {
  quarantine_batch_id : string;
  quarantine_rule_name : string;
  dq_reason : string;
  original_invoice_no : option string;
  original_stock_code : option string;
  original_description : option string;
  original_quantity : cell;
  original_invoice_date : string;
  original_unit_price : cell;
  original_customer_id : cell;
  original_country : option string;
  raw_row_json : list (string * json_value)
}.

Record DataQualityTracker : Type := mkTracker {
  batch_id : string;
  metrics : list Metric;
  quarantine_records : list QuarantineEntry
}.

(** [DataQualityTracker.__init__] *)
Definition new_tracker (batch : string) : DataQualityTracker :=
  mkTracker batch [] [].

(** [DataQualityTracker.add_metric] *)
Definition add_metric (self : DataQualityTracker) (rule_name category : string)
    (processed passed quarantined dropped : Z) (note : string)
  : DataQualityTracker :=
  mkTracker (batch_id self)
    (metrics self ++
       [mkMetric (batch_id self) rule_name category processed passed
          quarantined dropped note])
    (quarantine_records self).

(** Results of fallible code: a value, or the text of the exception. *)
Inductive result (A : Type) : Type :=
| Ok (a : A)
| Raise (message : string).

Arguments Ok {A} a.
Arguments Raise {A} message.

Definition bind {A B : Type} (r : result A) (k : A -> result B) : result B :=
  match r with
  | Ok a => k a
  | Raise m => Raise m
  end.

Notation "'do' x <- r ; k" := (bind r (fun x => k))
  (at level 10, x pattern, r at level 100, k at level 200).

Definition len {A : Type} (df : list A) : Z := Z.of_nat (List.length df).

(** [mask.sum()] for a boolean mask over the frame. *)
Definition mask_sum {A : Type} (mask : A -> bool) (df : list A) : Z :=
  len (filter mask df).

Definition Qlt_bool (x y : Q) : bool := negb (Qle_bool y x).

(** [pd.isna] on the column types of the frame. *)
Definition isna {A : Type} (o : option A) : bool :=
  match o with None => true | Some _ => false end.

Definition isna_cell (c : cell) : bool :=
  match c with CNull => true | _ => false end.

Definition isna_date (d : date_cell) : bool :=
  match d with DNull => true | _ => false end.

(** A column of dtype [int64], and a float column after [fillna], hold no
    missing value. *)
Definition isna_int64 (_ : Z) : bool := false.
Definition isna_filled (_ : Q) : bool := false.

(** ** Type casting, rules and classification: [transform_data] *)

Section Transform.

(** [pd.to_datetime(..., errors='coerce')] on a text cell: the timestamp,
    or [None] for [NaT]. *)
Variable to_datetime_text : string -> option Z.

(** [pd.to_numeric(..., errors='coerce')] on a text cell: the number, or
    [None] for [NaN]. *)
Variable to_numeric_text : string -> option Q.

(** [str] of a [Timestamp]. *)
Variable timestamp_str : Z -> string.

Definition to_datetime (d : date_cell) : option Z :=
  match d with
  | DNull => None
  | DText s => to_datetime_text s
  | DStamp t => Some t
  end.

Definition to_numeric (c : cell) : option Q :=
  match c with
  | CNull => None
  | CInt z => Some (inject_Z z)
  | CDec q => Some q
  | CText s => to_numeric_text s
  end.

(** [.fillna(0)] *)
Definition fillna (o : option Q) : Q :=
  match o with Some q => q | None => 0%Q end.

(** The range of [int64]. *)
Definition int64_min : Z := - 2 ^ 63.

Definition int64_max : Z := 2 ^ 63 - 1.

Definition in_int64 (z : Z) : bool := (int64_min <=? z) && (z <=? int64_max).

(** [.astype(int)] on a finite float: truncation towards zero.  A float
    beyond the range of [int64] does not make the cast raise; the
    conversion gives the least [int64] there (as it does on x86-64). *)
Definition astype_int (q : Q) : Z :=
  let z := Z.quot (Qnum q) (Zpos (Qden q)) in
  if in_int64 z then z else int64_min.

(** [Series.abs] on [int64]: the least [int64] has no positive counterpart
    and is left as it is. *)
Definition abs_int64 (z : Z) : Z :=
  if z =? int64_min then int64_min else Z.abs z.

(** [.astype('Int64')]: a missing value stays missing; a float is
    converted to [int64] and the cast raises unless the conversion gives
    the float back, that is, unless the float is integral and within the
    range of [int64]. *)
Definition astype_Int64 (o : option Q) : result (option Z) :=
  match o with
  | None => Ok None
  | Some q =>
      let z := Z.quot (Qnum q) (Zpos (Qden q)) in
      if (Z.rem (Qnum q) (Zpos (Qden q)) =? 0) && in_int64 z
      then Ok (Some z)
      else Raise "cannot safely cast non-equivalent float64 to int64"
  end.

(** [str(row.get('InvoiceDate'))] *)
Definition str_date (d : date_cell) : string :=
  match d with
  | DNull => "nan"
  | DText s => s
  | DStamp t => timestamp_str t
  end.

Definition json_text (o : option string) : json_value :=
  match o with Some s => JStr s | None => JNull end.

Definition json_cell (c : cell) : json_value :=
  match c with
  | CNull => JNull
  | CInt z => JInt z
  | CDec q => JNum q
  | CText s => JStr s
  end.

Definition json_date (d : date_cell) : json_value :=
  match d with
  | DNull => JNull
  | DText s => JStr s
  | DStamp t => JTime t
  end.

Definition json_Int64 (o : option Z) : json_value :=
  match o with Some z => JInt z | None => JNull end.

Definition json_time (o : option Z) : json_value :=
  match o with Some t => JTime t | None => JNull end.

(** [row.to_dict()] with every missing value replaced by [None]: all
    thirteen columns the frame has when the anomaly rules run. *)
Definition row_dict (row : TRow) : list (string * json_value) :=
  [ ("InvoiceNo", json_text (InvoiceNo (raw row)));
    ("StockCode", json_text (StockCode (raw row)));
    ("Description", json_text (Description (raw row)));
    ("Quantity", json_cell (Quantity (raw row)));
    ("InvoiceDate", json_date (InvoiceDate (raw row)));
    ("UnitPrice", json_cell (UnitPrice (raw row)));
    ("CustomerID", json_cell (CustomerID (raw row)));
    ("Country", json_text (Country (raw row)));
    ("invoice_date", json_time (invoice_date row));
    ("quantity", JInt (quantity row));
    ("unit_price", JNum (unit_price row));
    ("customer_id", json_Int64 (customer_id row));
    ("line_total", JNum (line_total row)) ].

(** The dictionary appended for one row by [quarantine_rows]. *)
Definition quarantine_entry (batch rule_name reason : string) (row : TRow)
  : QuarantineEntry :=
  {| quarantine_batch_id := batch;
     quarantine_rule_name := rule_name;
     dq_reason := reason;
     original_invoice_no := InvoiceNo (raw row);
     original_stock_code := StockCode (raw row);
     original_description := Description (raw row);
     original_quantity := Quantity (raw row);
     original_invoice_date := str_date (InvoiceDate (raw row));
     original_unit_price := UnitPrice (raw row);
     original_customer_id := CustomerID (raw row);
     original_country := Country (raw row);
     raw_row_json := row_dict row |}.

(** [DataQualityTracker.quarantine_rows]: one append per row of the
    frame, in frame order. *)
Definition quarantine_rows (self : DataQualityTracker)
    (df_quarantine : list TRow) (rule_name reason : string)
  : DataQualityTracker :=
  fold_left
    (fun tracker row =>
       mkTracker (batch_id tracker) (metrics tracker)
         (quarantine_records tracker ++
            [quarantine_entry (batch_id tracker) rule_name reason row]))
    df_quarantine self.

(** The numeric casts of section 2.1 and the product of section 2.2, for
    one row that kept a parsed date. *)
Definition cast_row (r : nat * RawRecord * option Z) : result TRow :=
  let '(i, rec, date) := r in
  let quantity := astype_int (fillna (to_numeric (Quantity rec))) in
  let unit_price := fillna (to_numeric (UnitPrice rec)) in
  do customer_id <- astype_Int64 (to_numeric (CustomerID rec));
  Ok (mkTRow i rec date quantity unit_price customer_id
        (inject_Z quantity * unit_price)%Q).

(** The casts are column operations: one bad cell fails the whole frame. *)
Fixpoint cast_frame (df : list (nat * RawRecord * option Z))
  : result (list TRow) :=
  match df with
  | [] => Ok []
  | r :: rest =>
      do row <- cast_row r;
      do rows <- cast_frame rest;
      Ok (row :: rows)
  end.

(** *** The rule predicates *)

(** AN001 *)
Definition suspicious_price_mask (r : TRow) : bool :=
  Qlt_bool 10000 (unit_price r) && (abs_int64 (quantity r) <? 100).

(** AN002 *)
Definition zero_qty_mask (r : TRow) : bool := quantity r =? 0.

(** AN003 *)
Definition neg_price_mask (r : TRow) : bool := Qlt_bool (unit_price r) 0.

(** A row that [dropna(how='all')] removes: every one of the thirteen
    columns is missing. *)
Definition all_null (r : TRow) : bool :=
  isna (InvoiceNo (raw r)) && isna (StockCode (raw r))
  && isna (Description (raw r)) && isna_cell (Quantity (raw r))
  && isna_date (InvoiceDate (raw r)) && isna_cell (UnitPrice (raw r))
  && isna_cell (CustomerID (raw r)) && isna (Country (raw r))
  && isna (invoice_date r) && isna_int64 (quantity r)
  && isna_filled (unit_price r) && isna (customer_id r)
  && isna_filled (line_total r).

(** A row that [dropna(subset=critical_fields)] removes. *)
Definition missing_critical (r : TRow) : bool :=
  isna (InvoiceNo (raw r)) || isna (StockCode (raw r))
  || isna (invoice_date r) || isna_int64 (quantity r)
  || isna_filled (unit_price r).

(** Equality of two cells as [drop_duplicates] sees it: two missing
    values are equal, numbers are compared by value. *)
Definition option_eqb {A : Type} (eqb : A -> A -> bool) (x y : option A)
  : bool :=
  match x, y with
  | None, None => true
  | Some a, Some b => eqb a b
  | _, _ => false
  end.

Definition cell_eqb (x y : cell) : bool :=
  match x, y with
  | CNull, CNull => true
  | CInt a, CInt b => a =? b
  | CDec p, CDec q => Qeq_bool p q
  | CInt a, CDec q => Qeq_bool (inject_Z a) q
  | CDec p, CInt b => Qeq_bool p (inject_Z b)
  | CText s, CText t => String.eqb s t
  | _, _ => false
  end.

Definition date_cell_eqb (x y : date_cell) : bool :=
  match x, y with
  | DNull, DNull => true
  | DText s, DText t => String.eqb s t
  | DStamp a, DStamp b => a =? b
  | _, _ => false
  end.

(** Two rows agree on every column (the index is not a column). *)
Definition row_eqb (x y : TRow) : bool :=
  option_eqb String.eqb (InvoiceNo (raw x)) (InvoiceNo (raw y))
  && option_eqb String.eqb (StockCode (raw x)) (StockCode (raw y))
  && option_eqb String.eqb (Description (raw x)) (Description (raw y))
  && cell_eqb (Quantity (raw x)) (Quantity (raw y))
  && date_cell_eqb (InvoiceDate (raw x)) (InvoiceDate (raw y))
  && cell_eqb (UnitPrice (raw x)) (UnitPrice (raw y))
  && cell_eqb (CustomerID (raw x)) (CustomerID (raw y))
  && option_eqb String.eqb (Country (raw x)) (Country (raw y))
  && option_eqb Z.eqb (invoice_date x) (invoice_date y)
  && (quantity x =? quantity y)
  && Qeq_bool (unit_price x) (unit_price y)
  && option_eqb Z.eqb (customer_id x) (customer_id y)
  && Qeq_bool (line_total x) (line_total y).

(** [df.drop_duplicates()]: a row is kept unless an earlier row of the
    frame agrees with it on every column. *)
Fixpoint drop_duplicates_from (seen df : list TRow) : list TRow :=
  match df with
  | [] => []
  | r :: rest =>
      if existsb (row_eqb r) seen
      then drop_duplicates_from (r :: seen) rest
      else r :: drop_duplicates_from (r :: seen) rest
  end.

Definition drop_duplicates (df : list TRow) : list TRow :=
  drop_duplicates_from [] df.

(** *** The two shapes of a rule stage *)

(** A removal stage: apply the frame operation, and when rows went
    missing record one metric with them counted as dropped. *)
Definition drop_block {A : Type} (operation : list A -> list A)
    (rule_name category note : string)
    (df : list A) (dq_tracker : DataQualityTracker)
  : list A * DataQualityTracker :=
  let before := len df in
  let df' := operation df in
  let removed := before - len df' in
  if removed >? 0
  then (df', add_metric dq_tracker rule_name category
               before (len df') 0 removed note)
  else (df', dq_tracker).

(** An anomaly stage: when the mask selects rows, hand them to the
    tracker, keep the others and record one metric with the selected
    rows counted as quarantined. *)
Definition quarantine_block (mask : TRow -> bool)
    (rule_name reason category note : string)
    (df : list TRow) (dq_tracker : DataQualityTracker)
  : list TRow * DataQualityTracker :=
  if mask_sum mask df >? 0
  then
    let df_quar := filter mask df in
    let dq_tracker := quarantine_rows dq_tracker df_quar rule_name reason in
    let df' := filter (fun r => negb (mask r)) df in
    (df', add_metric dq_tracker rule_name category
            (len df' + mask_sum mask df) (len df') (mask_sum mask df) 0
            note)
  else (df, dq_tracker).

(** *** Standardisation and business flags (sections 2.5 to 2.7) *)

(** [.astype(str)] on a text column: a missing value prints as [nan]. *)
Definition astype_str (o : option string) : string :=
  match o with Some s => s | None => "nan" end.

Definition fillna_text (o : option string) (default : string) : string :=
  match o with Some s => s | None => default end.

Definition finish_row (batch : string) (r : TRow) : CleanRow :=
  let invoice_no := Text.upper (Text.strip (astype_str (InvoiceNo (raw r)))) in
  let stock_code := Text.upper (Text.strip (astype_str (StockCode (raw r)))) in
  let description :=
    Text.strip (fillna_text (Description (raw r)) "UNKNOWN PRODUCT") in
  let country :=
    Text.title (Text.strip (fillna_text (Country (raw r)) "UNKNOWN")) in
  let is_cancellation := Text.startswith invoice_no "C" in
  let is_adjustment :=
    (quantity r <? 0) && negb is_cancellation
    && Qeq_bool (unit_price r) 0 && isna (customer_id r) in
  let is_guest_purchase := isna (customer_id r) in
  let is_valid_sale :=
    (quantity r >? 0) && Qlt_bool 0 (unit_price r) && negb is_cancellation in
  let is_return := (quantity r <? 0) && negb is_adjustment in
  mkClean r invoice_no stock_code description country
    is_cancellation is_adjustment is_guest_purchase is_valid_sale is_return
    batch "online_retail.csv".

(** *** [transform_data] *)

Definition transform_data (df : DataFrame) (dq_tracker : DataQualityTracker)
  : result (list CleanRow * DataQualityTracker) :=
  let initial_count := len df in
  (* 2.1 type casting *)
  let df := map (fun r => (r, to_datetime (InvoiceDate (snd r)))) df in
  let '(df, dq_tracker) :=
    drop_block (filter (fun r => negb (isna (snd r))))
      "remove_unparseable_dates" "data_integrity"
      "DQ004: Unparseable InvoiceDate" df dq_tracker in
  do df <- cast_frame df;
  (* 2.3 anomaly detection *)
  let '(df, dq_tracker) :=
    quarantine_block suspicious_price_mask
      "quarantine_suspicious_unit_price"
      "AN001: Unit price >$10K with low quantity"
      "anomaly_detection" "AN001: Potential pricing errors"
      df dq_tracker in
  let '(df, dq_tracker) :=
    quarantine_block zero_qty_mask
      "quarantine_zero_quantity" "AN002: Quantity = 0"
      "anomaly_detection" "AN002: Invalid zero quantity"
      df dq_tracker in
  let '(df, dq_tracker) :=
    quarantine_block neg_price_mask
      "quarantine_negative_unit_price" "AN003: Negative unit price"
      "anomaly_detection" "AN003: Invalid negative price"
      df dq_tracker in
  (* 2.4 data cleaning *)
  let '(df, dq_tracker) :=
    drop_block (filter (fun r => negb (all_null r)))
      "remove_all_null_rows" "data_integrity"
      "DQ001: Completely empty rows" df dq_tracker in
  let '(df, dq_tracker) :=
    drop_block drop_duplicates
      "remove_exact_duplicates" "data_integrity"
      "DQ002: Exact duplicate rows" df dq_tracker in
  let '(df, dq_tracker) :=
    drop_block (filter (fun r => negb (missing_critical r)))
      "remove_missing_critical" "data_integrity"
      "DQ003: Missing InvoiceNo/StockCode/Date/Qty/Price" df dq_tracker in
  (* 2.5 to 2.7 *)
  let df := map (finish_row (batch_id dq_tracker)) df in
  (* the retention rate of the closing report divides by the initial count *)
  if initial_count =? 0 then Raise "division by zero"
  else Ok (df, dq_tracker).

End Transform.

(** ** The warehouse tables and the loaders *)

(** The columns [load_to_staging] selects for [stg_retail_sales]. *)
Record StagedRow : Type := mkStaged {
  stg_invoice_no : string;
  stg_stock_code : string;
  stg_description : string;
  stg_quantity : Z;
  stg_invoice_date : option Z;
  stg_unit_price : Q;
  stg_customer_id : option Z;
  stg_country : string;
  stg_line_total : Q;
  stg_is_cancellation : bool;
  stg_is_adjustment : bool;
  stg_is_guest_purchase : bool;
  stg_is_valid_sale : bool;
  stg_is_return : bool;
  stg_batch_id : string;
  stg_source_file : string
}.

(** A row of [meta_etl_batch_log]. *)
Record BatchRecord : Type := mkBatch {
  log_batch_id : string;
  status : string;
  rows_extracted : Z;
  rows_loaded_staging : Z;
  log_rows_quarantined : Z;
  error_message : option string
}.

Record Database : Type := mkDatabase {
  stg_retail_sales : list StagedRow;
  dq_quarantine_sales : list QuarantineEntry;
  dq_metrics : list Metric;
  meta_etl_batch_log : list BatchRecord
}.

(** The statements the pipeline sends. *)
Inductive statement : Type :=
| SetupSchema
| RecreateStaging
| RecreateQuarantine
| RecreateMetrics
| RecreateBatchLog
| InsertStaging (rows : list StagedRow)
| InsertQuarantine (entry : QuarantineEntry)
| InsertMetric (metric : Metric)
| InsertBatchLog (record : BatchRecord).

(** The effect of a statement the database executes.  The schema set-up
    touches none of the four tables; [DROP TABLE IF EXISTS] followed by
    [CREATE TABLE] leaves the table empty. *)
Definition execute (s : statement) (db : Database) : Database :=
  match s with
  | SetupSchema => db
  | RecreateStaging =>
      mkDatabase [] (dq_quarantine_sales db) (dq_metrics db)
        (meta_etl_batch_log db)
  | RecreateQuarantine =>
      mkDatabase (stg_retail_sales db) [] (dq_metrics db)
        (meta_etl_batch_log db)
  | RecreateMetrics =>
      mkDatabase (stg_retail_sales db) (dq_quarantine_sales db) []
        (meta_etl_batch_log db)
  | RecreateBatchLog =>
      mkDatabase (stg_retail_sales db) (dq_quarantine_sales db)
        (dq_metrics db) []
  | InsertStaging rows =>
      mkDatabase (stg_retail_sales db ++ rows) (dq_quarantine_sales db)
        (dq_metrics db) (meta_etl_batch_log db)
  | InsertQuarantine entry =>
      mkDatabase (stg_retail_sales db) (dq_quarantine_sales db ++ [entry])
        (dq_metrics db) (meta_etl_batch_log db)
  | InsertMetric metric =>
      mkDatabase (stg_retail_sales db) (dq_quarantine_sales db)
        (dq_metrics db ++ [metric]) (meta_etl_batch_log db)
  | InsertBatchLog record =>
      mkDatabase (stg_retail_sales db) (dq_quarantine_sales db)
        (dq_metrics db) (meta_etl_batch_log db ++ [record])
  end.

Definition staging_columns (r : CleanRow) : StagedRow :=
  {| stg_invoice_no := invoice_no r;
     stg_stock_code := stock_code r;
     stg_description := description r;
     stg_quantity := quantity (typed r);
     stg_invoice_date := invoice_date (typed r);
     stg_unit_price := unit_price (typed r);
     stg_customer_id := customer_id (typed r);
     stg_country := country r;
     stg_line_total := line_total (typed r);
     stg_is_cancellation := is_cancellation r;
     stg_is_adjustment := is_adjustment r;
     stg_is_guest_purchase := is_guest_purchase r;
     stg_is_valid_sale := is_valid_sale r;
     stg_is_return := is_return r;
     stg_batch_id := row_batch_id r;
     stg_source_file := source_file r |}.

Definition chunk_size : nat := 5000.

Section Pipeline.

Variable to_datetime_text : string -> option Z.
Variable to_numeric_text : string -> option Q.
Variable timestamp_str : Z -> string.

(** Whether the database, in a given state, executes a statement or
    answers with an error. *)
Variable accepts : Database -> statement -> bool.

(** [run_sql_query]: execute and commit, or roll back and return
    [False]. *)
Definition run_sql_query (db : Database) (s : statement) : Database * bool :=
  if accepts db s then (execute s db, true) else (db, false).

Definition create_retail_dwh_schema (db : Database) := run_sql_query db SetupSchema.
Definition create_staging_table (db : Database) := run_sql_query db RecreateStaging.
Definition create_dq_quarantine_table (db : Database) := run_sql_query db RecreateQuarantine.
Definition create_dq_metrics_table (db : Database) := run_sql_query db RecreateMetrics.
Definition create_meta_batch_log_table (db : Database) := run_sql_query db RecreateBatchLog.

(** The loop of [load_to_staging] over the chunk numbers. *)
Fixpoint load_chunks (df_load : list StagedRow) (chunks : list nat)
    (db : Database) : Database * bool :=
  match chunks with
  | [] => (db, true)
  | i :: rest =>
      let start_idx := (i * chunk_size)%nat in
      let end_idx := Nat.min (start_idx + chunk_size) (List.length df_load) in
      let chunk_df := firstn (end_idx - start_idx) (skipn start_idx df_load) in
      let '(db, success) := run_sql_query db (InsertStaging chunk_df) in
      if success then load_chunks df_load rest db else (db, false)
  end.

Definition load_to_staging (df : list CleanRow) (db : Database)
  : Database * bool :=
  let df_load := map staging_columns df in
  let total_chunks :=
    ((List.length df_load + chunk_size - 1) / chunk_size)%nat in
  load_chunks df_load (seq 0 total_chunks) db.

(** One [INSERT] per row, stopping at the first rejected one. *)
Fixpoint insert_each {A : Type} (stmt : A -> statement) (rows : list A)
    (db : Database) : Database * bool :=
  match rows with
  | [] => (db, true)
  | row :: rest =>
      let '(db, success) := run_sql_query db (stmt row) in
      if success then insert_each stmt rest db else (db, false)
  end.

(** [load_quarantine]; on an empty collection nothing is sent and the
    result is [True]. *)
Definition load_quarantine (dq_tracker : DataQualityTracker) (db : Database)
  : Database * bool :=
  insert_each InsertQuarantine (quarantine_records dq_tracker) db.

(** [load_dq_metrics], likewise. *)
Definition load_dq_metrics (dq_tracker : DataQualityTracker) (db : Database)
  : Database * bool :=
  insert_each InsertMetric (metrics dq_tracker) db.

(** [log_batch_execution]: an empty or absent message is written as
    [NULL]. *)
Definition log_batch_execution (batch status : string)
    (rows_extracted rows_loaded rows_quarantined : Z)
    (error_msg : option string) (db : Database) : Database * bool :=
  run_sql_query db
    (InsertBatchLog
       (mkBatch batch status rows_extracted rows_loaded rows_quarantined
          (match error_msg with
           | Some "" => None
           | other => other
           end))).

(** [MAX] of a column, ignoring [NULL]. *)
Fixpoint sql_max (values : list (option Z)) : option Z :=
  match values with
  | [] => None
  | v :: rest =>
      match v, sql_max rest with
      | Some a, Some b => Some (Z.max a b)
      | Some a, None => Some a
      | None, m => m
      end
  end.

(** [get_last_successful_batch_timestamp]: the largest [invoice_date] of
    the staged rows whose batch is logged with status [SUCCESS]. *)
Definition get_last_successful_batch_timestamp (db : Database) : option Z :=
  sql_max
    (map stg_invoice_date
       (filter
          (fun stg =>
             existsb
               (fun entry =>
                  String.eqb (stg_batch_id stg) (log_batch_id entry)
                  && String.eqb (status entry) "SUCCESS")
               (meta_etl_batch_log db))
          (stg_retail_sales db))).

(** [extract_data]; [None] stands for a file that is absent or cannot be
    read. *)
Definition extract_data (csv : option (list RawRecord)) : option DataFrame :=
  match csv with
  | None => None
  | Some records => Some (read_csv records)
  end.

Definition with_InvoiceDate (r : RawRecord) (d : date_cell) : RawRecord :=
  mkRaw (InvoiceNo r) (StockCode r) (Description r) (Quantity r) d
    (UnitPrice r) (CustomerID r) (Country r).

Definition stamp (o : option Z) : date_cell :=
  match o with Some t => DStamp t | None => DNull end.

Definition newer_than (last_batch_date : Z) (d : date_cell) : bool :=
  match d with
  | DStamp t => t >? last_batch_date
  | _ => false
  end.

(** [extract_data_incremental] *)
Definition extract_data_incremental (csv : option (list RawRecord))
    (last_batch_date : option Z) : option DataFrame :=
  match csv with
  | None => None
  | Some records =>
      let df := read_csv records in
      match last_batch_date with
      | None => Some df
      | Some last_batch_date =>
          let df :=
            map (fun r =>
                   (fst r,
                    with_InvoiceDate (snd r)
                      (stamp (to_datetime to_datetime_text
                                (InvoiceDate (snd r))))))
                df in
          Some (filter
                  (fun r => newer_than last_batch_date (InvoiceDate (snd r)))
                  df)
      end
  end.

(** *** [run_etl_pipeline] *)

(** The five set-up calls that open the [try] block; their results are
    not looked at. *)
Definition recreate_tables (db : Database) : Database :=
  let '(db, _) := create_retail_dwh_schema db in
  let '(db, _) := create_staging_table db in
  let '(db, _) := create_dq_quarantine_table db in
  let '(db, _) := create_dq_metrics_table db in
  let '(db, _) := create_meta_batch_log_table db in
  db.

(** The [try] block once the connection is open: the database it leaves
    behind, and either the value it returns or the exception it lets
    escape. *)
Definition try_block (csv : option (list RawRecord)) (mode batch : string)
    (db : Database) : Database * result bool :=
  let dq_tracker := new_tracker batch in
  let db := recreate_tables db in
  let df :=
    if String.eqb mode "incremental"
    then
      let last_batch_date := get_last_successful_batch_timestamp db in
      extract_data_incremental csv last_batch_date
    else extract_data csv in
  match df with
  | None => (db, Raise "Extraction failed")
  | Some df =>
      if len df =? 0
      then
        let '(db, _) :=
          log_batch_execution batch "SUCCESS_NO_DATA" 0 0 0
            (Some "No new data to process") db in
        (db, Ok true)
      else
        let rows_extracted := len df in
        match transform_data to_datetime_text to_numeric_text timestamp_str
                df dq_tracker with
        | Raise e => (db, Raise e)
        | Ok (df_clean, dq_tracker) =>
            let '(db, success_staging) := load_to_staging df_clean db in
            let '(db, success_quarantine) := load_quarantine dq_tracker db in
            let '(db, success_metrics) := load_dq_metrics dq_tracker db in
            if negb (success_staging && success_quarantine && success_metrics)
            then (db, Raise "Loading failed")
            else
              let '(db, _) :=
                log_batch_execution batch "SUCCESS" rows_extracted
                  (len df_clean) (len (quarantine_records dq_tracker))
                  None db in
              (db, Ok true)
        end
  end.

(** [run_etl_pipeline].  [connects] tells whether
    [create_database_connection] returns a connection or raises; in the
    second case the handler finds [connection] unset and logs no batch. *)
Definition run_etl_pipeline (connects : bool) (csv : option (list RawRecord))
    (mode batch : string) (db : Database) : bool * Database :=
  if connects
  then
    match try_block csv mode batch db with
    | (db, Ok returned) => (returned, db)
    | (db, Raise e) =>
        let '(db, _) :=
          log_batch_execution batch "FAILED" 0 0 0 (Some e) db in
        (false, db)
    end
  else (false, db).

(** The script entry of [etl_pipeline.py]: the arguments are parsed, the
    pipeline is run, its result is not used, and the interpreter leaves
    with status 0. *)
Definition etl_pipeline_main (connects : bool) (csv : option (list RawRecord))
    (args_mode batch : string) (db : Database) : Z * Database :=
  let '(_, db) := run_etl_pipeline connects csv args_mode batch db in
  (0, db).

End Pipeline.

(** [run_full_pipeline.py]: [run_command] starts a child process with
    [check=True] and reports whether it left with status 0; the script
    itself ends with [sys.exit(0 if success else 1)]. *)
Definition run_command (child_exit_status : Z) : bool := child_exit_status =? 0.

Definition sys_exit_status (success : bool) : Z := if success then 0 else 1.

(** ** The rule stages of a transformation, spelled out

    The working frames between the rule stages and, for every stage, the
    sizes and the rejection count the specification speaks of.  These
    definitions restate the specification; the theorems below relate them
    to [transform_data]. *)

Inductive disposition : Type := Quarantine | Drop.

Record Stage : Type := mkStage {
  stage_rule : string;
  stage_category : string;
  stage_note : string;
  stage_disposition : disposition;
  pre_size : Z;
  post_size : Z;
  rejected : Z
}.

Definition stage_quarantined (st : Stage) : Z :=
  match stage_disposition st with Quarantine => rejected st | Drop => 0 end.

Definition stage_dropped (st : Stage) : Z :=
  match stage_disposition st with Quarantine => 0 | Drop => rejected st end.

(** The metric rows a stage owes: one when it rejected rows, none
    otherwise. *)
Definition stage_metric (batch : string) (st : Stage) : list Metric :=
  if rejected st >? 0
  then [mkMetric batch (stage_rule st) (stage_category st)
          (pre_size st) (post_size st)
          (stage_quarantined st) (stage_dropped st) (stage_note st)]
  else [].

Definition total_dropped (ms : list Metric) : Z :=
  fold_right (fun m acc => rows_dropped m + acc) 0 ms.

Definition total_quarantined (ms : list Metric) : Z :=
  fold_right (fun m acc => rows_quarantined m + acc) 0 ms.

(** The rows a frame keeps when a rule rejects those its mask selects. *)
Definition keep {A : Type} (mask : A -> bool) (df : list A) : list A :=
  filter (fun r => negb (mask r)) df.

(** The rows [drop_duplicates] removes. *)
Fixpoint duplicated_from (seen df : list TRow) : list TRow :=
  match df with
  | [] => []
  | r :: rest =>
      if existsb (row_eqb r) seen
      then r :: duplicated_from (r :: seen) rest
      else duplicated_from (r :: seen) rest
  end.

Section Trace.

Variable to_datetime_text : string -> option Z.

(** The frame with its parsed [invoice_date] column. *)
Definition dated (df : DataFrame) : list (nat * RawRecord * option Z) :=
  map (fun r => (r, to_datetime to_datetime_text (InvoiceDate (snd r)))) df.

Definition unparseable (r : nat * RawRecord * option Z) : bool :=
  isna (snd r).

(** The rows whose date parsed: the input of the casts. *)
Definition parsed (df : DataFrame) : list (nat * RawRecord * option Z) :=
  keep unparseable (dated df).

(** The working frame after each rule, from the cast frame on. *)
Definition after_suspicious (cast : list TRow) : list TRow :=
  keep suspicious_price_mask cast.
Definition after_zero (cast : list TRow) : list TRow :=
  keep zero_qty_mask (after_suspicious cast).
Definition after_negative (cast : list TRow) : list TRow :=
  keep neg_price_mask (after_zero cast).
Definition after_all_null (cast : list TRow) : list TRow :=
  keep all_null (after_negative cast).
Definition after_duplicates (cast : list TRow) : list TRow :=
  drop_duplicates (after_all_null cast).
Definition after_critical (cast : list TRow) : list TRow :=
  keep missing_critical (after_duplicates cast).

(** The seven rule invocations of a batch, in order. *)
Definition rule_stages (df : DataFrame) (cast : list TRow) : list Stage :=
  [ mkStage "remove_unparseable_dates" "data_integrity"
      "DQ004: Unparseable InvoiceDate" Drop
      (len (dated df)) (len (parsed df))
      (mask_sum unparseable (dated df));
    mkStage "quarantine_suspicious_unit_price" "anomaly_detection"
      "AN001: Potential pricing errors" Quarantine
      (len cast) (len (after_suspicious cast))
      (mask_sum suspicious_price_mask cast);
    mkStage "quarantine_zero_quantity" "anomaly_detection"
      "AN002: Invalid zero quantity" Quarantine
      (len (after_suspicious cast)) (len (after_zero cast))
      (mask_sum zero_qty_mask (after_suspicious cast));
    mkStage "quarantine_negative_unit_price" "anomaly_detection"
      "AN003: Invalid negative price" Quarantine
      (len (after_zero cast)) (len (after_negative cast))
      (mask_sum neg_price_mask (after_zero cast));
    mkStage "remove_all_null_rows" "data_integrity"
      "DQ001: Completely empty rows" Drop
      (len (after_negative cast)) (len (after_all_null cast))
      (mask_sum all_null (after_negative cast));
    mkStage "remove_exact_duplicates" "data_integrity"
      "DQ002: Exact duplicate rows" Drop
      (len (after_all_null cast)) (len (after_duplicates cast))
      (len (duplicated_from [] (after_all_null cast)));
    mkStage "remove_missing_critical" "data_integrity"
      "DQ003: Missing InvoiceNo/StockCode/Date/Qty/Price" Drop
      (len (after_duplicates cast)) (len (after_critical cast))
      (mask_sum missing_critical (after_duplicates cast)) ].

(** The rows the three anomaly rules reject, each with the name and the
    reason of the rule that rejected it, in the order of rejection. *)
Definition quarantined_rows (cast : list TRow)
  : list (string * string * TRow) :=
  map (fun r => ("quarantine_suspicious_unit_price",
                 "AN001: Unit price >$10K with low quantity", r))
      (filter suspicious_price_mask cast)
  ++ map (fun r => ("quarantine_zero_quantity", "AN002: Quantity = 0", r))
       (filter zero_qty_mask (after_suspicious cast))
  ++ map (fun r => ("quarantine_negative_unit_price",
                    "AN003: Negative unit price", r))
       (filter neg_price_mask (after_zero cast)).


End Trace.

Section Outcome.

Variable to_datetime_text : string -> option Z.
Variable timestamp_str : Z -> string.

(** The quarantine entry of a rejected row. *)
Definition entry_of (batch : string) (q : string * string * TRow)
  : QuarantineEntry :=
  let '(rule, reason, r) := q in
  quarantine_entry timestamp_str batch rule reason r.

(** What a transformation that completes hands back, in terms of the
    stages: the classified survivors, and the tracker grown by the
    owed metrics and by the entries of the quarantined rows. *)
Definition transform_outcome (df : DataFrame) (t : DataQualityTracker)
    (cast : list TRow) : list CleanRow * DataQualityTracker :=
  (map (finish_row (batch_id t)) (after_critical cast),
   mkTracker (batch_id t)
     (metrics t
        ++ flat_map (stage_metric (batch_id t))
             (rule_stages to_datetime_text df cast))
     (quarantine_records t
        ++ map (entry_of (batch_id t)) (quarantined_rows cast))).

End Outcome.

(** The stages form a chain from one size to another: each starts from
    the size the previous one left. *)
Fixpoint chained (first : Z) (stages : list Stage) (last : Z) : Prop :=
  match stages with
  | [] => first = last
  | st :: rest => pre_size st = first /\ chained (post_size st) rest last
  end.

(** The statements that touch the batch log. *)
Definition on_batch_log (s : statement) : bool :=
  match s with
  | RecreateBatchLog | InsertBatchLog _ => true
  | _ => false
  end.

Definition empty_database : Database := mkDatabase [] [] [] [].

Section Run.

Variable to_datetime_text : string -> option Z.
Variable to_numeric_text : string -> option Q.
Variable timestamp_str : Z -> string.
Variable accepts : Database -> statement -> bool.

(** The frame a run extracts, given the database as the set-up calls
    left it. *)
Definition extraction (csv : option (list RawRecord)) (mode : string)
    (db : Database) : option DataFrame :=
  if String.eqb mode "incremental"
  then extract_data_incremental to_datetime_text csv
         (get_last_successful_batch_timestamp db)
  else extract_data csv.

(** The three loaders in sequence: the database they leave and whether
    all of them succeeded. *)
Definition loading (df_clean : list CleanRow) (dq_tracker : DataQualityTracker)
    (db : Database) : Database * bool :=
  let '(db, success_staging) := load_to_staging accepts df_clean db in
  let '(db, success_quarantine) := load_quarantine accepts dq_tracker db in
  let '(db, success_metrics) := load_dq_metrics accepts dq_tracker db in
  (db, success_staging && success_quarantine && success_metrics).

(** The exception, if any, that leaves the [try] block of a run. *)
Definition escapes (csv : option (list RawRecord)) (mode batch : string)
    (db : Database) (e : string) : Prop :=
  snd (try_block to_datetime_text to_numeric_text timestamp_str accepts
         csv mode batch db) = Raise e.

End Run.

(** What the specification asks of the metrics of one stage: none when the
    stage rejected nothing; otherwise one row, with the size of the working
    set before and after the rule, and with the rejection count in one of
    the two counters and zero in the other. *)
Definition metric_contract (batch : string) (st : Stage) (ms : list Metric)
  : Prop :=
  (rejected st = 0 /\ ms = [])
  \/ (0 < rejected st
      /\ exists m,
          ms = [m]
          /\ metric_batch_id m = batch
          /\ metric_rule_name m = stage_rule st
          /\ rows_processed m = pre_size st
          /\ rows_passed m = post_size st
          /\ ((rows_quarantined m = rejected st /\ rows_dropped m = 0)
              \/ (rows_quarantined m = 0 /\ rows_dropped m = rejected st))).





Section Carries.

Variable timestamp_str : Z -> string.


End Carries.

(** ** Sample data

    Stand-ins for the parsers of pandas that know a handful of texts, a
    database that executes whatever it is sent, and a few records. *)

Module Sample.

Definition dates (s : string) : option Z :=
  if String.eqb s "2010-12-01 08:26:00" then Some 1291191960
  else if String.eqb s "2011-12-09 12:50:00" then Some 1323435000
  else None.

Definition numbers (s : string) : option Q :=
  if String.eqb s "12" then Some (12 # 1)
  else if String.eqb s "2.55" then Some (255 # 100)
  else None.

Definition print_time (t : Z) : string :=
  if t =? 1291191960 then "2010-12-01 08:26:00"
  else if t =? 1323435000 then "2011-12-09 12:50:00"
  else "NaT".

Definition always (_ : Database) (_ : statement) : bool := true.

(** The cancellation of the specification's first scenario. *)
Definition cancellation : RawRecord :=
  mkRaw (Some "C100") (Some "A1") (Some "WHITE METAL LANTERN")
    (CInt (-3)) (DText "2010-12-01 08:26:00") (CDec (5 # 1)) CNull
    (Some "United Kingdom").

(** A plain sale to a known customer. *)
Definition sale : RawRecord :=
  mkRaw (Some "536365") (Some "85123A") (Some "CREAM CUPID HEARTS COAT HANGER")
    (CInt 6) (DText "2010-12-01 08:26:00") (CDec (255 # 100))
    (CDec (17850 # 1)) (Some "United Kingdom").

(** The zero quantity of the second scenario. *)
Definition zero_quantity : RawRecord :=
  mkRaw (Some "100") (Some "A1") None
    (CInt 0) (DText "2010-12-01 08:26:00") (CDec (5 # 1)) CNull
    (Some "France").

(** The price of the third scenario. *)
Definition overpriced : RawRecord :=
  mkRaw (Some "536370") (Some "M") (Some "Manual")
    (CInt 5) (DText "2011-12-09 12:50:00") (CDec (15000 # 1))
    (CDec (12583 # 1)) (Some "France").

Definition undated : RawRecord :=
  mkRaw (Some "536371") (Some "22086") (Some "PAPER CHAIN KIT")
    (CInt 2) (DText "soon") (CDec (255 # 100)) CNull (Some "EIRE").

Definition frame : DataFrame :=
  read_csv [cancellation; sale; zero_quantity; overpriced; undated; sale].

(** The state an earlier successful batch left behind: one staged sale,
    logged under [SUCCESS]. *)
Definition earlier : Database :=
  mkDatabase
    [ staging_columns
        (finish_row "20240101_080000"
           (mkTRow 0 sale (Some 1291191960) 6 (255 # 100) (Some 17850)
              (1530 # 100))) ]
    [] []
    [ mkBatch "20240101_080000" "SUCCESS" 1 1 0 None ].

Definition batch : string := "20240102_080000".

(** The transformation of the sample frame. *)
Definition transformed : result (list CleanRow * DataQualityTracker) :=
  transform_data dates numbers print_time frame (new_tracker batch).

(** A full run on the database the earlier batch left. *)
Definition full_run : bool * Database :=
  run_etl_pipeline dates numbers print_time always true
    (Some [cancellation; sale; zero_quantity; overpriced; undated; sale])
    "full" batch earlier.

(** An incremental run over a file that holds only the sale the earlier
    batch has loaded. *)
Definition incremental_rerun : bool * Database :=
  run_etl_pipeline dates numbers print_time always true
    (Some [sale]) "incremental" batch earlier.

(** The script started while the source file is absent. *)
Definition script_without_file : Z * Database :=
  etl_pipeline_main dates numbers print_time always true
    None "full" batch empty_database.

End Sample.

(** ** Further definitions: casts, trimmed text, migrations *)

Section Castable.

Variable to_numeric_text : string -> option Q.

(** Whether the [Int64] cast of section 2.1 goes through on the customer
    cell of a record: the cell is missing, unparseable, or an integral
    number within the range of [int64]. *)
Definition customer_castable (x : RawRecord) : bool :=
  match to_numeric to_numeric_text (CustomerID x) with
  | None => true
  | Some q =>
      (Z.rem (Qnum q) (Zpos (Qden q)) =? 0)
      && in_int64 (Z.quot (Qnum q) (Zpos (Qden q)))
  end.

End Castable.

(** Text that neither begins nor ends with white space. *)
Definition clean_head (s : string) : bool :=
  match s with
  | EmptyString => true
  | String c _ => negb (Text.isspace c)
  end.

Fixpoint clean_last (s : string) : bool :=
  match s with
  | EmptyString => true
  | String c EmptyString => negb (Text.isspace c)
  | String _ s' => clean_last s'
  end.

Definition trimmed (s : string) : Prop :=
  clean_head s = true /\ clean_last s = true.

(** [run_full_pipeline.py].  A migration folder is absent, or holds its
    [V*.sql] files in the order [sorted] gives them, each with whether the
    database executes it. *)
Module RunFullPipeline.

Definition folder : Type := option (list (string * bool)).

(** The inner loop of [run_sql_migrations]: execute and commit file after
    file; the first file that fails is rolled back and its exception
    re-raised.  The result is the list of committed files and whether the
    loop ended without exception. *)
Fixpoint run_files (sql_files : list (string * bool)) (committed : list string)
  : list string * bool :=
  match sql_files with
  | [] => (committed, true)
  | (sql_file, executes) :: rest =>
      if executes then run_files rest (committed ++ [sql_file])
      else (committed, false)
  end.

(** The outer loop over the migration folders; a folder that does not
    exist is skipped. *)
Fixpoint run_folders (migration_folders : list folder) (committed : list string)
  : list string * bool :=
  match migration_folders with
  | [] => (committed, true)
  | None :: rest => run_folders rest committed
  | Some sql_files :: rest =>
      let '(committed, finished) := run_files sql_files committed in
      if finished then run_folders rest committed else (committed, false)
  end.

(** [run_sql_migrations] over the three folders the script names. *)
Definition run_sql_migrations (dim_tables fact_tables materialized_views : folder)
  : list string * bool :=
  run_folders [dim_tables; fact_tables; materialized_views] [].

(** [main]: the staging load as a child process, the connection and a
    first [check_database_status], the migrations, a second
    [check_database_status], the test suite as a second child process.  An
    exception anywhere makes it return [False]; a failing test suite only
    raises a warning.  [connects], [status_before] and [status_after] tell
    whether the connection and the two status checks go through.  The
    result is the value returned and the migration files committed. *)
Definition main (etl_exit_status : Z) (connects status_before : bool)
    (dim_tables fact_tables materialized_views : folder)
    (status_after : bool) (tests_exit_status : Z) : bool * list string :=
  if negb (run_command etl_exit_status) then (false, [])
  else if negb connects then (false, [])
  else if negb status_before then (false, [])
  else
    let '(committed, finished) :=
      run_sql_migrations dim_tables fact_tables materialized_views in
    if negb finished then (false, committed)
    else if negb status_after then (false, committed)
    else
      let _ := run_command tests_exit_status in
      (true, committed).

End RunFullPipeline.

(** The migration files of the folders that exist, in the order in which
    [run_sql_migrations] comes to them. *)
Definition migration_files (folders : list RunFullPipeline.folder)
  : list (string * bool) :=
  flat_map (fun f => match f with Some sql_files => sql_files | None => [] end)
    folders.

(** A staged row belongs to a batch that the batch log records under
    [SUCCESS]. *)
Definition logged_as_success (db : Database) (stg : StagedRow) : Prop :=
  exists entry,
    In entry (meta_etl_batch_log db)
    /\ log_batch_id entry = stg_batch_id stg
    /\ status entry = "SUCCESS".

(** Row conservation for a whole batch run, as the specification words
    it, read on the tables the run leaves: the rows extracted are the rows
    staged, the rows quarantined and the rows the metrics count as
    dropped. *)
Definition conserves_rows (extracted : Z) (db : Database) : Prop :=
  extracted
  = len (stg_retail_sales db) + len (dq_quarantine_sales db)
    + total_dropped (dq_metrics db).

(** The same, read on the counts of the record the run writes to the
    batch log. *)
Definition record_conserves_rows (b : BatchRecord) (db : Database) : Prop :=
  rows_extracted b
  = rows_loaded_staging b + log_rows_quarantined b
    + total_dropped (dq_metrics db).

(** ** Further sample data *)

Module Scenario.

(** A database that executes everything but the insertions into the
    staging table. *)
Definition rejects_staging (_ : Database) (s : statement) : bool :=
  match s with
  | InsertStaging _ => false
  | _ => true
  end.

(** A sale a year after the one the earlier batch loaded. *)
Definition newer_sale : RawRecord :=
  mkRaw (Some "581587") (Some "22138") (Some " baking set 9 piece ")
    (CInt 3) (DText "2011-12-09 12:50:00") (CDec (255 # 100))
    (CDec (12680 # 1)) None.

Definition file : list RawRecord := [Sample.sale; newer_sale].

(** What the incremental extractor takes from that file after the earlier
    batch. *)
Definition newer_frame : DataFrame :=
  [(1%nat, with_InvoiceDate newer_sale (DStamp 1323435000))].

(** Three migration folders, the second one with a file that fails. *)
Definition dim_tables : RunFullPipeline.folder :=
  Some [("V001__dim_date.sql", true); ("V002__dim_customer.sql", true)].

Definition fact_tables : RunFullPipeline.folder :=
  Some [("V010__fct_retail_sales.sql", false)].

Definition materialized_views : RunFullPipeline.folder := None.

End Scenario.

(** * Properties *)

(** ** Frames and counts *)

Lemma len_nonneg {A : Type} (df : list A) : 0 <= len df.
Proof. unfold len. lia. Qed.

Lemma len_app {A : Type} (l1 l2 : list A) : len (l1 ++ l2) = len l1 + len l2.
Proof. unfold len. rewrite length_app. lia. Qed.

Lemma len_map {A B : Type} (f : A -> B) (l : list A) : len (map f l) = len l.
Proof. unfold len. now rewrite length_map. Qed.

Lemma len_cons {A : Type} (r : A) (l : list A) : len (r :: l) = 1 + len l.
Proof. unfold len. cbn [List.length]. lia. Qed.

Lemma len_zero_nil {A : Type} (l : list A) : len l = 0 -> l = [].
Proof.
  destruct l as [|r l]; [reflexivity|].
  rewrite len_cons. pose proof (len_nonneg l). lia.
Qed.

(** A mask splits a frame: the kept rows and the selected rows add up. *)
Lemma keep_split {A : Type} (mask : A -> bool) (df : list A) :
  len df = len (keep mask df) + mask_sum mask df.
Proof.
  unfold keep, mask_sum, len.
  rewrite <- (filter_length mask df). lia.
Qed.

Lemma mask_sum_zero_filter {A : Type} (mask : A -> bool) (df : list A) :
  mask_sum mask df = 0 -> filter mask df = [].
Proof. apply len_zero_nil. Qed.

Lemma mask_sum_zero_keep {A : Type} (mask : A -> bool) (df : list A) :
  mask_sum mask df = 0 -> keep mask df = df.
Proof.
  intros H. apply mask_sum_zero_filter in H.
  unfold keep. induction df as [|r df IH]; simpl in *; [reflexivity|].
  destruct (mask r); simpl; [discriminate | now rewrite IH].
Qed.

(** [drop_duplicates] and [duplicated_from] split a frame as well. *)
Lemma duplicates_split (df seen : list TRow) :
  len df = len (drop_duplicates_from seen df) + len (duplicated_from seen df).
Proof.
  revert seen. induction df as [|r df IH]; intros seen; simpl.
  - reflexivity.
  - destruct (existsb (row_eqb r) seen); specialize (IH (r :: seen));
      rewrite !len_cons; lia.
Qed.

Lemma total_dropped_app (l1 l2 : list Metric) :
  total_dropped (l1 ++ l2) = total_dropped l1 + total_dropped l2.
Proof.
  induction l1 as [|m l1 IH]; simpl; [reflexivity | rewrite IH; lia].
Qed.

Lemma total_quarantined_app (l1 l2 : list Metric) :
  total_quarantined (l1 ++ l2) = total_quarantined l1 + total_quarantined l2.
Proof.
  induction l1 as [|m l1 IH]; simpl; [reflexivity | rewrite IH; lia].
Qed.

(** ** The tracker *)

Lemma tracker_eta (t : DataQualityTracker) :
  t = mkTracker (batch_id t) (metrics t ++ []) (quarantine_records t ++ []).
Proof. destruct t; simpl. now rewrite !app_nil_r. Qed.

Section TrackerFacts.

Variable timestamp_str : Z -> string.

(** The loop of [quarantine_rows] appends one entry per row, in order. *)
Lemma quarantine_rows_spec (rows : list TRow) (rule reason : string)
    (t : DataQualityTracker) :
  quarantine_rows timestamp_str t rows rule reason
  = mkTracker (batch_id t) (metrics t)
      (quarantine_records t
         ++ map (quarantine_entry timestamp_str (batch_id t) rule reason) rows).
Proof.
  unfold quarantine_rows. revert t.
  induction rows as [|r rows IH]; intros t; simpl.
  - destruct t; simpl. now rewrite app_nil_r.
  - rewrite IH. simpl. now rewrite <- app_assoc.
Qed.

(** A removal stage whose operation is [keep mask]. *)
Lemma drop_block_keep {A : Type} (mask : A -> bool)
    (rule category note : string) (df : list A) (t : DataQualityTracker) :
  drop_block (keep mask) rule category note df t
  = (keep mask df,
     mkTracker (batch_id t)
       (metrics t ++
          stage_metric (batch_id t)
            (mkStage rule category note Drop (len df) (len (keep mask df))
               (mask_sum mask df)))
       (quarantine_records t)).
Proof.
  unfold drop_block, stage_metric, stage_quarantined, stage_dropped; simpl.
  replace (len df - len (keep mask df)) with (mask_sum mask df)
    by (rewrite (keep_split mask df); lia).
  destruct (mask_sum mask df >? 0); unfold add_metric.
  - reflexivity.
  - destruct t; simpl. now rewrite app_nil_r.
Qed.

(** The removal stage of [drop_duplicates]. *)
Lemma drop_block_duplicates (rule category note : string) (df : list TRow)
    (t : DataQualityTracker) :
  drop_block drop_duplicates rule category note df t
  = (drop_duplicates df,
     mkTracker (batch_id t)
       (metrics t ++
          stage_metric (batch_id t)
            (mkStage rule category note Drop (len df)
               (len (drop_duplicates df)) (len (duplicated_from [] df))))
       (quarantine_records t)).
Proof.
  unfold drop_block, stage_metric, stage_quarantined, stage_dropped; simpl.
  replace (len df - len (drop_duplicates df))
    with (len (duplicated_from [] df))
    by (unfold drop_duplicates; rewrite (duplicates_split df []); lia).
  destruct (len (duplicated_from [] df) >? 0); unfold add_metric.
  - reflexivity.
  - destruct t; simpl. now rewrite app_nil_r.
Qed.

(** An anomaly stage: the frame keeps the rows the mask does not select,
    the selected rows are quarantined in order, and the stage owes its
    metric. *)
Lemma quarantine_block_spec (mask : TRow -> bool)
    (rule reason category note : string) (df : list TRow)
    (t : DataQualityTracker) :
  quarantine_block timestamp_str mask rule reason category note df t
  = (keep mask df,
     mkTracker (batch_id t)
       (metrics t ++
          stage_metric (batch_id t)
            (mkStage rule category note Quarantine (len df)
               (len (keep mask df)) (mask_sum mask df)))
       (quarantine_records t
          ++ map (quarantine_entry timestamp_str (batch_id t) rule reason)
               (filter mask df))).
Proof.
  unfold quarantine_block, stage_metric, stage_quarantined, stage_dropped;
    simpl.
  destruct (mask_sum mask df >? 0) eqn:E.
  - rewrite quarantine_rows_spec. unfold add_metric; simpl.
    fold (keep mask df).
    replace (len (keep mask df) + mask_sum mask df) with (len df)
      by apply keep_split.
    reflexivity.
  - assert (H0 : mask_sum mask df = 0).
    { pose proof (len_nonneg (filter mask df)). unfold mask_sum in *. lia. }
    rewrite (mask_sum_zero_keep _ _ H0), (mask_sum_zero_filter _ _ H0).
    destruct t; simpl. now rewrite !app_nil_r.
Qed.

End TrackerFacts.

(** ** [transform_data] in terms of its stages *)

Section TransformFacts.

Variable to_datetime_text : string -> option Z.
Variable to_numeric_text : string -> option Q.
Variable timestamp_str : Z -> string.

Local Notation "'transform'" :=
  (transform_data to_datetime_text to_numeric_text timestamp_str).
Local Notation "'casts'" := (cast_frame to_numeric_text).
Local Notation "'parsed_rows'" := (parsed to_datetime_text).
Local Notation "'outcome'" := (transform_outcome to_datetime_text timestamp_str).

(** The function is its seven stages in sequence: it raises when a cast
    raises or when the frame is empty, and otherwise returns the outcome
    the stages describe. *)
Lemma transform_data_stages (df : DataFrame) (t : DataQualityTracker) :
  transform df t
  = do cast <- casts (parsed_rows df);
    if len df =? 0 then Raise "division by zero"
    else Ok (outcome df t cast).
Proof.
  unfold transform_data.
  rewrite (drop_block_keep unparseable).
  fold (dated to_datetime_text df). fold (parsed_rows df).
  destruct (casts (parsed_rows df)) as [cast|e]; simpl; [|reflexivity].
  rewrite !quarantine_block_spec; simpl.
  rewrite (drop_block_keep all_null); simpl.
  rewrite drop_block_duplicates; simpl.
  rewrite (drop_block_keep missing_critical); simpl.
  destruct (len df =? 0); [reflexivity|].
  unfold transform_outcome, rule_stages, quarantined_rows, entry_of.
  unfold after_critical, after_duplicates, after_all_null, after_negative,
    after_zero, after_suspicious.
  rewrite !map_app, !map_map. simpl flat_map.
  rewrite <- !app_assoc, !app_nil_r. simpl.
  reflexivity.
Qed.

Lemma transform_data_Ok (df : DataFrame) (t t' : DataQualityTracker)
    (clean : list CleanRow) :
  transform df t = Ok (clean, t') ->
  exists cast,
    casts (parsed_rows df) = Ok cast /\ len df <> 0
    /\ (clean, t') = outcome df t cast.
Proof.
  rewrite transform_data_stages.
  destruct (casts (parsed_rows df)) as [cast|e]; simpl; [|discriminate].
  destruct (len df =? 0) eqn:E; [discriminate|].
  intros H. exists cast.
  split; [reflexivity|]. split; [lia | congruence].
Qed.

(** The function does return whenever the casts go through on a
    non-empty frame. *)
Lemma transform_data_returns (df : DataFrame) (t : DataQualityTracker)
    (cast : list TRow) :
  casts (parsed_rows df) = Ok cast -> df <> [] ->
  transform df t = Ok (outcome df t cast).
Proof.
  intros Hc Hne. rewrite transform_data_stages, Hc. simpl.
  destruct df as [|r df]; [congruence|].
  rewrite len_cons. pose proof (len_nonneg df).
  destruct (1 + len df =? 0) eqn:E; [lia | reflexivity].
Qed.

(** The casts work row by row and keep the order. *)
Lemma cast_frame_rows (l : list (nat * RawRecord * option Z))
    (cast : list TRow) :
  casts l = Ok cast ->
  Forall2 (fun r row => cast_row to_numeric_text r = Ok row) l cast.
Proof.
  revert cast. induction l as [|r l IH]; intros cast; simpl.
  - intros H. injection H as <-. constructor.
  - destruct (cast_row to_numeric_text r) as [row|e] eqn:Er; simpl;
      [|discriminate].
    destruct (casts l) as [rows|e]; simpl; [|discriminate].
    intros H. injection H as <-. constructor; auto.
Qed.

Lemma cast_row_columns (r : nat * RawRecord * option Z) (row : TRow) :
  cast_row to_numeric_text r = Ok row ->
  index row = fst (fst r) /\ raw row = snd (fst r)
  /\ invoice_date row = snd r.
Proof.
  destruct r as [[i rec] d]. unfold cast_row.
  destruct (astype_Int64 _) as [c|e]; simpl; [|discriminate].
  intros H. injection H as <-. simpl. auto.
Qed.

Lemma cast_frame_len (l : list (nat * RawRecord * option Z))
    (cast : list TRow) :
  casts l = Ok cast -> len cast = len l.
Proof.
  intros H. apply cast_frame_rows in H. unfold len.
  now rewrite (Forall2_length H).
Qed.

Lemma cast_frame_index (l : list (nat * RawRecord * option Z))
    (cast : list TRow) :
  casts l = Ok cast -> map index cast = map (fun r => fst (fst r)) l.
Proof.
  intros H. apply cast_frame_rows in H.
  induction H as [|r row l cast Hr _ IH]; simpl; [reflexivity|].
  apply cast_row_columns in Hr. destruct Hr as [-> _]. now rewrite IH.
Qed.

(** Every stage conserves rows: what it received is what it passed on
    plus what it rejected. *)
Lemma stages_conserve (df : DataFrame) (cast : list TRow) :
  Forall (fun st => pre_size st = post_size st + rejected st)
    (rule_stages to_datetime_text df cast).
Proof.
  unfold rule_stages.
  repeat constructor; simpl;
    try apply keep_split.
  unfold after_duplicates, drop_duplicates. apply duplicates_split.
Qed.

Lemma stages_rejected_nonneg (df : DataFrame) (cast : list TRow) :
  Forall (fun st => 0 <= rejected st) (rule_stages to_datetime_text df cast).
Proof.
  unfold rule_stages. repeat constructor; simpl; apply len_nonneg.
Qed.

(** The stages are chained from the size of the input to the size of the
    frame that is classified. *)
Lemma stages_chained (df : DataFrame) (cast : list TRow) :
  casts (parsed_rows df) = Ok cast ->
  chained (len df) (rule_stages to_datetime_text df cast)
    (len (after_critical cast)).
Proof.
  intros Hc. apply cast_frame_len in Hc.
  unfold rule_stages; simpl. unfold dated. rewrite len_map.
  repeat split; auto.
Qed.

Lemma stage_metric_dropped (batch : string) (st : Stage) :
  0 <= rejected st ->
  total_dropped (stage_metric batch st) = stage_dropped st.
Proof.
  intros H. unfold stage_metric, stage_dropped.
  destruct (rejected st >? 0) eqn:E; simpl; [lia|].
  destruct (stage_disposition st); lia.
Qed.

Lemma stage_metric_quarantined (batch : string) (st : Stage) :
  0 <= rejected st ->
  total_quarantined (stage_metric batch st) = stage_quarantined st.
Proof.
  intros H. unfold stage_metric, stage_quarantined.
  destruct (rejected st >? 0) eqn:E; simpl; [lia|].
  destruct (stage_disposition st); lia.
Qed.

Lemma quarantined_rows_len (cast : list TRow) :
  len (quarantined_rows cast)
  = mask_sum suspicious_price_mask cast
    + mask_sum zero_qty_mask (after_suspicious cast)
    + mask_sum neg_price_mask (after_zero cast).
Proof.
  unfold quarantined_rows. rewrite !len_app, !len_map.
  unfold mask_sum. lia.
Qed.

(** Conservation over a whole transformation, in the counts the tracker
    holds: the rows received are the rows returned, plus the entries
    added to the quarantine, plus the rows the added metrics report as
    dropped. *)
Lemma outcome_conserves (df : DataFrame) (t : DataQualityTracker)
    (cast : list TRow) :
  casts (parsed_rows df) = Ok cast ->
  let ms := flat_map (stage_metric (batch_id t))
              (rule_stages to_datetime_text df cast) in
  let qs := map (entry_of timestamp_str (batch_id t))
              (quarantined_rows cast) in
  len df = len (after_critical cast) + len qs + total_dropped ms
  /\ len qs = total_quarantined ms.
Proof.
  intros Hc ms qs.
  assert (Hq : len qs = len (quarantined_rows cast))
    by (unfold qs; apply len_map).
  rewrite Hq, quarantined_rows_len.
  pose proof (stages_conserve df cast) as Hs.
  pose proof (stages_rejected_nonneg df cast) as Hn.
  pose proof (stages_chained df cast Hc) as Hch.
  unfold ms. clear ms qs Hq.
  unfold rule_stages in *. simpl flat_map.
  repeat match goal with
         | H : Forall _ (_ :: _) |- _ => inversion H; subst; clear H
         end.
  rewrite !total_dropped_app, !total_quarantined_app.
  rewrite !stage_metric_dropped, !stage_metric_quarantined by assumption.
  unfold stage_dropped, stage_quarantined. simpl in *.
  unfold total_dropped, total_quarantined; simpl.
  intuition lia.
Qed.

End TransformFacts.

(** ** The loaders and the batch log *)

Section PipelineFacts.

Variable to_datetime_text : string -> option Z.
Variable to_numeric_text : string -> option Q.
Variable timestamp_str : Z -> string.
Variable accepts : Database -> statement -> bool.

Local Notation "'transform'" :=
  (transform_data to_datetime_text to_numeric_text timestamp_str).
Local Notation "'run'" :=
  (run_etl_pipeline to_datetime_text to_numeric_text timestamp_str accepts).
Local Notation "'attempt'" :=
  (try_block to_datetime_text to_numeric_text timestamp_str accepts).
Local Notation "'query'" := (run_sql_query accepts).
Local Notation "'setup'" := (recreate_tables accepts).
Local Notation "'extracted'" := (extraction to_datetime_text).
Local Notation "'load'" := (loading accepts).

Lemma query_batch_log (db : Database) (s : statement) :
  on_batch_log s = false ->
  meta_etl_batch_log (fst (query db s)) = meta_etl_batch_log db.
Proof.
  unfold run_sql_query. destruct (accepts db s); [|reflexivity].
  destruct s; simpl; intros H; reflexivity || discriminate.
Qed.

Lemma load_chunks_batch_log (df_load : list StagedRow) (chunks : list nat)
    (db : Database) :
  meta_etl_batch_log (fst (load_chunks accepts df_load chunks db))
  = meta_etl_batch_log db.
Proof.
  revert db. induction chunks as [|i chunks IH]; intros db; simpl;
    [reflexivity|].
  match goal with
  | |- context [query db ?s] =>
      pose proof (query_batch_log db s eq_refl) as Hq;
      destruct (query db s) as [db1 ok]
  end.
  simpl in Hq. destruct ok; [rewrite IH|]; exact Hq.
Qed.

Lemma insert_each_batch_log {A : Type} (stmt : A -> statement)
    (rows : list A) (db : Database) :
  (forall row, on_batch_log (stmt row) = false) ->
  meta_etl_batch_log (fst (insert_each accepts stmt rows db))
  = meta_etl_batch_log db.
Proof.
  intros Hs. revert db. induction rows as [|row rows IH]; intros db; simpl;
    [reflexivity|].
  pose proof (query_batch_log db (stmt row) (Hs row)) as Hq.
  destruct (query db (stmt row)) as [db1 ok].
  simpl in Hq. destruct ok; [rewrite IH|]; exact Hq.
Qed.

(** Loading leaves the batch log as it found it. *)
Lemma loading_batch_log (clean : list CleanRow) (t : DataQualityTracker)
    (db : Database) :
  meta_etl_batch_log (fst (load clean t db)) = meta_etl_batch_log db.
Proof.
  unfold loading, load_to_staging, load_quarantine, load_dq_metrics.
  match goal with
  | |- context [load_chunks accepts ?l ?c db] =>
      pose proof (load_chunks_batch_log l c db) as H1;
      destruct (load_chunks accepts l c db) as [db1 s1]
  end.
  pose proof (insert_each_batch_log InsertQuarantine (quarantine_records t)
                db1 (fun _ => eq_refl)) as H2.
  destruct (insert_each accepts InsertQuarantine _ db1) as [db2 s2].
  pose proof (insert_each_batch_log InsertMetric (metrics t)
                db2 (fun _ => eq_refl)) as H3.
  destruct (insert_each accepts InsertMetric _ db2) as [db3 s3].
  simpl in *. congruence.
Qed.

(** The [try] block, phase by phase. *)
Lemma try_block_phases (csv : option (list RawRecord)) (mode batch : string)
    (db : Database) :
  attempt csv mode batch db
  = match extracted csv mode (setup db) with
    | None => (setup db, Raise "Extraction failed")
    | Some df =>
        if len df =? 0
        then (fst (log_batch_execution accepts batch "SUCCESS_NO_DATA"
                     0 0 0 (Some "No new data to process") (setup db)),
              Ok true)
        else
          match transform df (new_tracker batch) with
          | Raise e => (setup db, Raise e)
          | Ok (clean, t) =>
              if snd (load clean t (setup db))
              then (fst (log_batch_execution accepts batch "SUCCESS"
                           (len df) (len clean)
                           (len (quarantine_records t)) None
                           (fst (load clean t (setup db)))),
                    Ok true)
              else (fst (load clean t (setup db)), Raise "Loading failed")
          end
    end.
Proof.
  unfold try_block, extraction.
  destruct (if String.eqb mode "incremental" then _ else _) as [df|];
    [|reflexivity].
  destruct (len df =? 0).
  - now destruct (log_batch_execution _ _ _ _ _ _ _ _).
  - destruct (transform df (new_tracker batch)) as [[clean t]|e];
      [|reflexivity].
    unfold loading.
    destruct (load_to_staging accepts clean _) as [db1 s1].
    destruct (load_quarantine accepts t db1) as [db2 s2].
    destruct (load_dq_metrics accepts t db2) as [db3 s3].
    simpl.
    destruct (s1 && s2 && s3); simpl; [|reflexivity].
    now destruct (log_batch_execution _ _ _ _ _ _ _ _).
Qed.

(** The text of an exception [transform_data] raises. *)
Lemma transform_raise_message (df : DataFrame) (t : DataQualityTracker)
    (e : string) :
  transform df t = Raise e ->
  e = "cannot safely cast non-equivalent float64 to int64"
  \/ e = "division by zero".
Proof.
  rewrite transform_data_stages.
  destruct (cast_frame to_numeric_text (parsed to_datetime_text df))
    as [cast|e'] eqn:Hc; simpl.
  - destruct (len df =? 0); [|discriminate].
    intros H. injection H as <-. now right.
  - intros H. injection H as <-. left.
    clear -Hc. revert Hc.
    generalize (parsed to_datetime_text df) as l.
    induction l as [|r l IH]; simpl; [discriminate|].
    destruct r as [[i rec] d]. unfold cast_row at 1.
    destruct (to_numeric to_numeric_text (CustomerID rec)) as [q|]; simpl.
    + destruct ((Z.rem (Qnum q) (Z.pos (Qden q)) =? 0) && in_int64 _); simpl.
      * destruct (cast_frame to_numeric_text l); simpl;
          [discriminate | intros H; injection H as <-; auto].
      * intros H. now injection H as <-.
    + destruct (cast_frame to_numeric_text l); simpl;
        [discriminate | intros H; injection H as <-; auto].
Qed.

(** What escapes the [try] block is never the empty text. *)
Lemma escapes_message (csv : option (list RawRecord)) (mode batch : string)
    (db : Database) (e : string) :
  escapes to_datetime_text to_numeric_text timestamp_str accepts
    csv mode batch db e ->
  e <> "".
Proof.
  unfold escapes. rewrite try_block_phases.
  destruct (extracted csv mode (setup db)) as [df|]; simpl.
  - destruct (len df =? 0); simpl; [discriminate|].
    destruct (transform df (new_tracker batch)) as [[clean t]|e'] eqn:Ht;
      simpl.
    + destruct (snd (load clean t (setup db))); simpl; [discriminate|].
      intros H. injection H as <-. discriminate.
    + intros H. injection H as <-.
      apply transform_raise_message in Ht.
      destruct Ht as [-> | ->]; discriminate.
  - intros H. injection H as <-. discriminate.
Qed.

Lemma log_batch_execution_query (batch st : string) (a b c : Z)
    (msg : option string) (db : Database) :
  log_batch_execution accepts batch st a b c msg db
  = query db
      (InsertBatchLog
         (mkBatch batch st a b c
            (match msg with Some "" => None | other => other end))).
Proof. reflexivity. Qed.

(** A run that has its connection ends by sending one record to the
    batch log, on a database whose batch log is still the one the set-up
    left; the record is that of a batch without data, of a successful
    batch with the counts of the transformation, or of a failed batch
    with the text of the exception. *)
Lemma run_connected (csv : option (list RawRecord)) (mode batch : string)
    (db : Database) :
  exists (b : BatchRecord) (db1 : Database),
    snd (run true csv mode batch db) = fst (query db1 (InsertBatchLog b))
    /\ meta_etl_batch_log db1 = meta_etl_batch_log (setup db)
    /\ log_batch_id b = batch
    /\ ((fst (run true csv mode batch db) = true
         /\ status b = "SUCCESS_NO_DATA"
         /\ rows_extracted b = 0 /\ rows_loaded_staging b = 0
         /\ log_rows_quarantined b = 0
         /\ exists df, extracted csv mode (setup db) = Some df /\ len df = 0)
        \/ (fst (run true csv mode batch db) = true
            /\ status b = "SUCCESS" /\ error_message b = None
            /\ exists df clean t,
                extracted csv mode (setup db) = Some df /\ len df <> 0
                /\ transform df (new_tracker batch) = Ok (clean, t)
                /\ snd (load clean t (setup db)) = true
                /\ rows_extracted b = len df
                /\ rows_loaded_staging b = len clean
                /\ log_rows_quarantined b = len (quarantine_records t))
        \/ (fst (run true csv mode batch db) = false
            /\ status b = "FAILED"
            /\ rows_extracted b = 0 /\ rows_loaded_staging b = 0
            /\ log_rows_quarantined b = 0
            /\ exists e,
                escapes to_datetime_text to_numeric_text timestamp_str
                  accepts csv mode batch db e
                /\ error_message b = Some e)).
Proof.
  pose proof (@escapes_message csv mode batch db) as Hne.
  unfold run_etl_pipeline, escapes in *.
  rewrite try_block_phases in *.
  destruct (extracted csv mode (setup db)) as [df|] eqn:Hx.
  - destruct (len df =? 0) eqn:Hl.
    + eexists; exists (setup db). rewrite log_batch_execution_query.
      simpl. split; [reflexivity|]. split; [reflexivity|].
      split; [reflexivity|]. left.
      repeat split. exists df. split; [reflexivity | lia].
    + destruct (transform df (new_tracker batch)) as [[clean t]|e] eqn:Ht.
      * destruct (snd (load clean t (setup db))) eqn:Hs.
        -- eexists; exists (fst (load clean t (setup db))).
           rewrite log_batch_execution_query. simpl.
           split; [reflexivity|]. split; [apply loading_batch_log|].
           split; [reflexivity|]. right; left.
           repeat split. exists df, clean, t.
           repeat split; auto. lia.
        -- eexists; exists (fst (load clean t (setup db))).
           rewrite log_batch_execution_query.
           destruct (query _ _) as [db2 ok] eqn:Hq. simpl.
           split; [now rewrite Hq|]. split; [apply loading_batch_log|].
           split; [reflexivity|]. right; right.
           repeat split. exists "Loading failed". split; reflexivity.
      * specialize (Hne e eq_refl).
        eexists; exists (setup db).
        rewrite log_batch_execution_query.
        destruct (query _ _) as [db2 ok] eqn:Hq. simpl.
        split; [now rewrite Hq|]. split; [reflexivity|].
        split; [reflexivity|]. right; right.
        repeat split. exists e. split; [reflexivity|].
        destruct e; [congruence | reflexivity].
  - eexists; exists (setup db).
    rewrite log_batch_execution_query.
    destruct (query _ _) as [db2 ok] eqn:Hq. simpl.
    split; [now rewrite Hq|]. split; [reflexivity|].
    split; [reflexivity|]. right; right.
    repeat split. exists "Extraction failed". split; reflexivity.
Qed.

End PipelineFacts.

(** ** Equality of rows and [drop_duplicates] *)













Lemma drop_duplicates_from_subset (df seen : list TRow) (r : TRow) :
  In r (drop_duplicates_from seen df) -> In r df.
Proof.
  revert seen. induction df as [|r0 df IH]; intros seen; simpl; [auto|].
  destruct (existsb (row_eqb r0) seen); simpl; intuition eauto.
Qed.



(** No row is missing in every column: the typed quantity never is. *)
Lemma all_null_never (r : TRow) : all_null r = false.
Proof.
  unfold all_null, isna_int64, isna_filled.
  now rewrite !andb_false_r.
Qed.

(** ** The business classifier *)

Section Classifier.

Variable to_datetime_text : string -> option Z.
Variable to_numeric_text : string -> option Q.
Variable timestamp_str : Z -> string.

Local Notation "'transform'" :=
  (transform_data to_datetime_text to_numeric_text timestamp_str).

(** Every row [transform_data] returns is a surviving row with its
    standardised fields and flags. *)
Lemma clean_rows_finished (df : DataFrame) (t t' : DataQualityTracker)
    (clean : list CleanRow) (row : CleanRow) :
  transform df t = Ok (clean, t') -> In row clean ->
  exists r, row = finish_row (batch_id t) r.
Proof.
  intros H Hin. apply transform_data_Ok in H.
  destruct H as (cast & _ & _ & H). injection H as -> _.
  apply in_map_iff in Hin. destruct Hin as (r & <- & _). now exists r.
Qed.

(** C5. The example scenario of the specification: a batch made of the
    single record (invoice C100, stock A1, quantity -3, price 5.00, no
    customer), whatever its description, country and (parseable) date,
    is staged as one row flagged as a cancellation, not an adjustment, a
    guest purchase, not a valid sale, and a return. *)
Theorem classifier_example_scenario (t : DataQualityTracker)
    (description0 country0 : option string) (date : date_cell) (when : Z) :
  to_datetime to_datetime_text date = Some when ->
  exists row t',
    transform
      (read_csv [mkRaw (Some "C100") (Some "A1") description0 (CInt (-3))
                   date (CDec (5 # 1)) CNull country0]) t
    = Ok ([row], t')
    /\ invoice_no row = "C100" /\ stock_code row = "A1"
    /\ quantity (typed row) = -3 /\ unit_price (typed row) = (5 # 1)%Q
    /\ customer_id (typed row) = None
    /\ is_cancellation row = true
    /\ is_adjustment row = false
    /\ is_guest_purchase row = true
    /\ is_valid_sale row = false
    /\ is_return row = true.
Proof.
  intros Hd. rewrite transform_data_stages.
  unfold parsed, dated, keep, read_csv. simpl. rewrite Hd. simpl.
  eexists. eexists. split; [reflexivity|].
  simpl. repeat split.
Qed.

(** C6, as the code has it.  For every row [transform_data] returns
    whose invoice number begins with the cancellation marker and whose
    quantity is negative, the row is flagged as a cancellation, is not
    an adjustment, and is flagged as a return: the two flags hold
    together. *)
Theorem cancellation_and_return_together (df : DataFrame)
    (t t' : DataQualityTracker) (clean : list CleanRow) (row : CleanRow) :
  transform df t = Ok (clean, t') -> In row clean ->
  Text.startswith (invoice_no row) "C" = true ->
  quantity (typed row) < 0 ->
  is_cancellation row = true /\ is_adjustment row = false
  /\ is_return row = true.
Proof.
  intros H Hin Hc Hq.
  destruct (clean_rows_finished _ _ _ _ _ H Hin) as (r & ->).
  unfold finish_row in *; simpl in *.
  rewrite Hc. simpl. rewrite andb_false_r. simpl.
  assert (E : (quantity r <? 0) = true) by now apply Z.ltb_lt.
  rewrite E. auto.
Qed.

End Classifier.

(** C5, on the sample parsers. *)
Lemma classifier_example_scenario_witness :
  to_datetime Sample.dates (DText "2010-12-01 08:26:00") = Some 1291191960
  /\ exists row t',
      transform_data Sample.dates Sample.numbers Sample.print_time
        (read_csv [Sample.cancellation]) (new_tracker "20240102_080000")
      = Ok ([row], t')
      /\ is_cancellation row = true /\ is_return row = true.
Proof.
  split; [reflexivity|].
  destruct (classifier_example_scenario Sample.dates Sample.numbers
              Sample.print_time (new_tracker "20240102_080000")
              (Some "WHITE METAL LANTERN") (Some "United Kingdom")
              (DText "2010-12-01 08:26:00") 1291191960 eq_refl)
    as (row & t' & H & _ & _ & _ & _ & _ & Hc & _ & _ & _ & Hr).
  exists row, t'. auto.
Defined.

(** C6, as the specification words it, fails: the cancellation of the
    sample is staged with a negative quantity and is flagged as a
    return. *)
Lemma rule_independence_counterexample :
  ~ (forall (df : DataFrame) (t t' : DataQualityTracker)
       (clean : list CleanRow) (row : CleanRow),
        transform_data Sample.dates Sample.numbers Sample.print_time df t
        = Ok (clean, t') ->
        In row clean ->
        Text.startswith (invoice_no row) "C" = true ->
        quantity (typed row) < 0 ->
        is_cancellation row = true /\ is_return row = false).
Proof.
  intros H.
  specialize (H (read_csv [Sample.cancellation])
                (new_tracker "20240102_080000")).
  specialize (H _ _ _ eq_refl (or_introl eq_refl) eq_refl eq_refl).
  destruct H as [_ H]. discriminate H.
Qed.

Lemma cancellation_and_return_together_witness :
  exists row,
    In row
      [finish_row "20240102_080000"
         (mkTRow 0 Sample.cancellation (Some 1291191960) (-3) (5 # 1) None
            (-15 # 1))]
    /\ Text.startswith (invoice_no row) "C" = true
    /\ quantity (typed row) < 0
    /\ is_cancellation row = true /\ is_adjustment row = false
    /\ is_return row = true.
Proof.
  eexists. split; [left; reflexivity|].
  split; [reflexivity|]. split; [reflexivity|].
  eapply (cancellation_and_return_together Sample.dates Sample.numbers
            Sample.print_time (read_csv [Sample.cancellation])
            (new_tracker "20240102_080000")).
  - reflexivity.
  - left; reflexivity.
  - reflexivity.
  - reflexivity.
Defined.

(** ** Guest purchases *)

Section Guests.

Variable to_datetime_text : string -> option Z.
Variable to_numeric_text : string -> option Q.
Variable timestamp_str : Z -> string.

Local Notation "'transform'" :=
  (transform_data to_datetime_text to_numeric_text timestamp_str).

Lemma parsed_In (df : DataFrame) (i : nat) (x : RawRecord) (when : Z) :
  In (i, x) df ->
  to_datetime to_datetime_text (InvoiceDate x) = Some when ->
  In (i, x, Some when) (parsed to_datetime_text df).
Proof.
  intros Hin Hd. unfold parsed, keep, dated.
  apply filter_In. split; [|reflexivity].
  apply in_map_iff. exists (i, x). simpl. now rewrite Hd.
Qed.




End Guests.


(** ** Metrics and row conservation *)

Section Bookkeeping.

Variable to_datetime_text : string -> option Z.
Variable to_numeric_text : string -> option Q.
Variable timestamp_str : Z -> string.
Variable accepts : Database -> statement -> bool.

Local Notation "'transform'" :=
  (transform_data to_datetime_text to_numeric_text timestamp_str).
Local Notation "'run'" :=
  (run_etl_pipeline to_datetime_text to_numeric_text timestamp_str accepts).
Local Notation "'stages'" := (rule_stages to_datetime_text).

Lemma stage_metric_contract (batch : string) (st : Stage) :
  0 <= rejected st -> metric_contract batch st (stage_metric batch st).
Proof.
  intros Hn. unfold metric_contract, stage_metric.
  destruct (rejected st >? 0) eqn:E.
  - right. split; [lia|]. eexists. split; [reflexivity|]. simpl.
    repeat split.
    unfold stage_quarantined, stage_dropped.
    destruct (stage_disposition st); auto.
  - left. split; [lia | reflexivity].
Qed.

(** C3. The metrics a transformation adds are, stage by stage and in
    order, those of its seven rule invocations: a stage that rejected no
    row adds none; a stage that rejected rows adds exactly one, whose
    [rows_processed] and [rows_passed] are the sizes of the working set
    before and after the rule and whose rejection count sits in exactly
    one of [rows_quarantined] and [rows_dropped], the other being 0. *)
Theorem metric_emission_contract (df : DataFrame)
    (t t' : DataQualityTracker) (clean : list CleanRow) :
  transform df t = Ok (clean, t') ->
  exists cast,
    cast_frame to_numeric_text (parsed to_datetime_text df) = Ok cast
    /\ chained (len df) (stages df cast) (len clean)
    /\ Forall (fun st => pre_size st = post_size st + rejected st)
         (stages df cast)
    /\ metrics t'
       = (metrics t
            ++ flat_map (stage_metric (batch_id t)) (stages df cast))%list
    /\ Forall (fun st => metric_contract (batch_id t) st
                           (stage_metric (batch_id t) st))
         (stages df cast).
Proof.
  intros H. apply transform_data_Ok in H.
  destruct H as (cast & Hc & _ & Ho). injection Ho as -> ->.
  exists cast. split; [exact Hc|]. split.
  { rewrite len_map. exact (stages_chained _ _ _ _ Hc). }
  split; [apply stages_conserve|]. split; [reflexivity|].
  pose proof (stages_rejected_nonneg to_datetime_text df cast) as Hn.
  induction Hn as [|st l Hst _ IH]; constructor;
    auto using stage_metric_contract.
Qed.

Lemma setup_batch_log (db : Database) (b : BatchRecord) :
  In b (meta_etl_batch_log (recreate_tables accepts db)) ->
  In b (meta_etl_batch_log db).
Proof.
  unfold recreate_tables, create_retail_dwh_schema, create_staging_table,
    create_dq_quarantine_table, create_dq_metrics_table,
    create_meta_batch_log_table, run_sql_query.
  repeat match goal with
         | |- context [accepts ?d ?s] => destruct (accepts d s)
         end; simpl; tauto.
Qed.

(** C1, with the batch part amended.  Row conservation.  In a
    transformation that returns, every rule stage hands on what it
    received less what it rejected, the stages are chained from the input
    to the rows returned, and the rows received are the rows returned plus
    the quarantine entries added plus the rows the added metrics count as
    dropped.  In a run, the record added to the batch log has status
    [SUCCESS] and carries the counts of the transformation of the
    extracted frame, so that extracted = staged + quarantined + dropped,
    or else (a batch that failed or found no data) it reports zero rows
    throughout, whatever the run extracted or had loaded by then. *)
Theorem row_conservation :
  (forall (df : DataFrame) (t t' : DataQualityTracker)
          (clean : list CleanRow),
      transform df t = Ok (clean, t') ->
      exists cast ms qs,
        cast_frame to_numeric_text (parsed to_datetime_text df) = Ok cast
        /\ Forall (fun st => pre_size st = post_size st + rejected st)
             (stages df cast)
        /\ chained (len df) (stages df cast) (len clean)
        /\ metrics t' = (metrics t ++ ms)%list
        /\ quarantine_records t' = (quarantine_records t ++ qs)%list
        /\ len df = len clean + len qs + total_dropped ms
        /\ len qs = total_quarantined ms)
  /\ (forall (connects : bool) (csv : option (list RawRecord))
             (mode batch : string) (db : Database) (b : BatchRecord),
         In b (meta_etl_batch_log (snd (run connects csv mode batch db))) ->
         ~ In b (meta_etl_batch_log db) ->
         (status b = "SUCCESS"
          /\ exists df clean t',
              extraction to_datetime_text csv mode
                (recreate_tables accepts db) = Some df
              /\ transform df (new_tracker batch) = Ok (clean, t')
              /\ rows_extracted b = len df
              /\ rows_loaded_staging b = len clean
              /\ log_rows_quarantined b = len (quarantine_records t')
              /\ rows_extracted b
                 = rows_loaded_staging b + log_rows_quarantined b
                   + total_dropped (metrics t'))
         \/ (status b <> "SUCCESS"
             /\ rows_extracted b = 0 /\ rows_loaded_staging b = 0
             /\ log_rows_quarantined b = 0)).
Proof.
  assert (A : forall df t t' clean,
             transform df t = Ok (clean, t') ->
             exists cast ms qs,
               cast_frame to_numeric_text (parsed to_datetime_text df)
               = Ok cast
               /\ Forall (fun st => pre_size st = post_size st + rejected st)
                    (stages df cast)
               /\ chained (len df) (stages df cast) (len clean)
               /\ metrics t' = (metrics t ++ ms)%list
               /\ quarantine_records t' = (quarantine_records t ++ qs)%list
               /\ len df = len clean + len qs + total_dropped ms
               /\ len qs = total_quarantined ms).
  { intros df t t' clean H. apply transform_data_Ok in H.
    destruct H as (cast & Hc & _ & Ho). injection Ho as -> ->.
    destruct (outcome_conserves to_datetime_text to_numeric_text
                timestamp_str df t cast Hc) as [H1 H2].
    exists cast. eexists. eexists.
    split; [exact Hc|]. split; [apply stages_conserve|].
    split; [rewrite len_map; exact (stages_chained _ _ _ _ Hc)|].
    split; [reflexivity|]. split; [reflexivity|].
    rewrite len_map. split; assumption. }
  split; [exact A|].
  intros connects csv mode batch db b Hin Hnew.
  destruct connects; [|simpl in Hin; contradiction].
  destruct (run_connected to_datetime_text to_numeric_text timestamp_str
              accepts csv mode batch db)
    as (b0 & db1 & Hdb & Hlog & _ & Hcases).
  assert (Hb : b = b0).
  { rewrite Hdb in Hin. unfold run_sql_query in Hin.
    destruct (accepts db1 (InsertBatchLog b0)); simpl in Hin.
    - apply in_app_or in Hin. destruct Hin as [Hin | [Hin | []]].
      + rewrite Hlog in Hin. apply setup_batch_log in Hin. contradiction.
      + now symmetry.
    - rewrite Hlog in Hin. apply setup_batch_log in Hin. contradiction. }
  subst b0.
  destruct Hcases as [(_ & Hs & H1 & H2 & H3 & _)
                     | [(_ & Hs & _ & df & clean & t' & Hx & _ & Ht & _
                         & H1 & H2 & H3)
                       | (_ & Hs & H1 & H2 & H3 & _)]].
  - right. rewrite Hs. repeat split; auto. discriminate.
  - left. split; [exact Hs|]. exists df, clean, t'.
    repeat split; auto.
    destruct (A df (new_tracker batch) t' clean Ht)
      as (cast & ms & qs & _ & _ & _ & Hm & Hq & Hsum & _).
    simpl in Hm, Hq. rewrite H1, H2, H3, Hm, Hq. exact Hsum.
  - right. rewrite Hs. repeat split; auto. discriminate.
Qed.

End Bookkeeping.

(** C3, on the sample frame: four of the seven stages reject rows, and
    four metrics are added. *)
Lemma metric_emission_contract_witness :
  exists clean t',
    Sample.transformed = Ok (clean, t')
    /\ exists cast,
        metrics t'
        = flat_map (stage_metric Sample.batch)
            (rule_stages Sample.dates Sample.frame cast)
        /\ List.length (metrics t') = 4%nat.
Proof.
  eexists. eexists. split; [vm_compute; reflexivity|].
  match goal with
  | |- exists cast, metrics ?t' = _ /\ _ =>
      destruct (metric_emission_contract Sample.dates Sample.numbers
                  Sample.print_time Sample.frame (new_tracker Sample.batch)
                  t' _ eq_refl)
        as (cast & _ & _ & _ & Hm & _)
  end.
  exists cast. split; [exact Hm | reflexivity].
Defined.

(** C1, on the sample frame and on the sample run: six rows are
    extracted, two are staged, two quarantined and two dropped. *)
Lemma row_conservation_witness :
  (exists clean t',
      Sample.transformed = Ok (clean, t')
      /\ exists ms qs,
          metrics t' = ms /\ quarantine_records t' = qs
          /\ len Sample.frame = len clean + len qs + total_dropped ms)
  /\ (let b := mkBatch Sample.batch "SUCCESS" 6 2 2 None in
      In b (meta_etl_batch_log (snd Sample.full_run))
      /\ ~ In b (meta_etl_batch_log Sample.earlier)
      /\ status b = "SUCCESS"
      /\ exists dropped,
          rows_extracted b
          = rows_loaded_staging b + log_rows_quarantined b + dropped).
Proof.
  pose proof (row_conservation Sample.dates Sample.numbers Sample.print_time
                Sample.always) as [A B].
  split.
  - eexists. eexists. split; [vm_compute; reflexivity|].
    match goal with
    | |- exists ms qs, metrics ?t' = _ /\ _ =>
        destruct (A Sample.frame (new_tracker Sample.batch) t' _ eq_refl)
          as (cast & ms & qs & _ & _ & _ & Hm & Hq & Hsum & _)
    end.
    exists ms, qs. repeat split; assumption.
  - intros b.
    assert (Hin : In b (meta_etl_batch_log (snd Sample.full_run)))
      by (vm_compute; left; reflexivity).
    assert (Hnew : ~ In b (meta_etl_batch_log Sample.earlier))
      by (intros [H | []]; discriminate H).
    split; [exact Hin|]. split; [exact Hnew|]. split; [reflexivity|].
    destruct (B true _ "full" Sample.batch Sample.earlier b Hin Hnew)
      as [(_ & df & clean & t' & _ & _ & _ & _ & _ & Hsum)
         | (Hs & _)].
    + eexists. exact Hsum.
    + exfalso. now apply Hs.
Defined.

(** C1, as the specification words it ("for every batch run"), fails.
    On a database that rejects the insertions into the staging table the
    sample run extracts six rows, stages none, and has by then written two
    quarantine entries and metrics that count two dropped rows; the record
    it logs is [FAILED] with zero counts.  Neither the tables nor the
    record satisfy the equation. *)
Lemma row_conservation_counterexample :
  ~ (forall (accepts : Database -> statement -> bool)
            (csv : option (list RawRecord)) (mode batch : string)
            (db : Database) (df : DataFrame),
        extraction Sample.dates csv mode (recreate_tables accepts db)
        = Some df ->
        conserves_rows (len df)
          (snd (run_etl_pipeline Sample.dates Sample.numbers
                  Sample.print_time accepts true csv mode batch db)))
  /\ ~ (forall (accepts : Database -> statement -> bool)
               (csv : option (list RawRecord)) (mode batch : string)
               (db : Database) (b : BatchRecord),
           In b (meta_etl_batch_log
                   (snd (run_etl_pipeline Sample.dates Sample.numbers
                           Sample.print_time accepts true csv mode batch db)))
           ->
           ~ In b (meta_etl_batch_log db) ->
           record_conserves_rows b
             (snd (run_etl_pipeline Sample.dates Sample.numbers
                     Sample.print_time accepts true csv mode batch db))).
Proof.
  split.
  - intros H.
    specialize (H Scenario.rejects_staging
                  (Some [Sample.cancellation; Sample.sale;
                         Sample.zero_quantity; Sample.overpriced;
                         Sample.undated; Sample.sale])
                  "full" Sample.batch Sample.earlier Sample.frame eq_refl).
    vm_compute in H. discriminate H.
  - intros H.
    specialize (H Scenario.rejects_staging
                  (Some [Sample.cancellation; Sample.sale;
                         Sample.zero_quantity; Sample.overpriced;
                         Sample.undated; Sample.sale])
                  "full" Sample.batch Sample.earlier
                  (mkBatch Sample.batch "FAILED" 0 0 0
                     (Some "Loading failed"))).
    assert (Hin : In (mkBatch Sample.batch "FAILED" 0 0 0
                        (Some "Loading failed"))
                    (meta_etl_batch_log
                       (snd (run_etl_pipeline Sample.dates Sample.numbers
                               Sample.print_time Scenario.rejects_staging true
                               (Some [Sample.cancellation; Sample.sale;
                                      Sample.zero_quantity; Sample.overpriced;
                                      Sample.undated; Sample.sale])
                               "full" Sample.batch Sample.earlier))))
      by (vm_compute; left; reflexivity).
    assert (Hnew : ~ In (mkBatch Sample.batch "FAILED" 0 0 0
                           (Some "Loading failed"))
                       (meta_etl_batch_log Sample.earlier))
      by (intros [E | []]; discriminate E).
    specialize (H Hin Hnew). vm_compute in H. discriminate H.
Qed.

(** ** Quarantine *)

Section QuarantineFacts.

Variable to_datetime_text : string -> option Z.
Variable to_numeric_text : string -> option Q.
Variable timestamp_str : Z -> string.

Local Notation "'transform'" :=
  (transform_data to_datetime_text to_numeric_text timestamp_str).

Lemma keep_In {A : Type} (mask : A -> bool) (df : list A) (r : A) :
  In r (keep mask df) <-> In r df /\ mask r = false.
Proof.
  unfold keep. rewrite filter_In. now rewrite negb_true_iff.
Qed.

(** A mask sorts the rows of a frame into two lists. *)
Lemma mask_Permutation {A : Type} (mask : A -> bool) (df : list A) :
  Permutation df (filter mask df ++ keep mask df).
Proof.
  unfold keep. induction df as [|r df IH]; simpl; [constructor|].
  destruct (mask r); simpl.
  - now constructor.
  - now apply Permutation_cons_app.
Qed.

(** Index labels stay distinct in the rows a mask selects. *)
Lemma selected_labels_distinct {A : Type} (label : A -> nat)
    (mask : A -> bool) (df : list A) :
  NoDup (map label df) -> NoDup (map label (filter mask df)).
Proof.
  intros Hd.
  pose proof (Permutation_map label (mask_Permutation mask df)) as P.
  apply (Permutation_NoDup P) in Hd. rewrite map_app in Hd.
  exact (NoDup_app_remove_r _ _ Hd).
Qed.



(** A row of the cast frame is a row of the input, index and fields. *)
Lemma cast_from_input (df : DataFrame) (cast : list TRow) (r : TRow) :
  cast_frame to_numeric_text (parsed to_datetime_text df) = Ok cast ->
  In r cast -> In (index r, raw r) df.
Proof.
  intros Hc Hin. apply cast_frame_rows in Hc.
  assert (H : exists a, In a (parsed to_datetime_text df)
                        /\ cast_row to_numeric_text a = Ok r).
  { clear -Hc Hin. induction Hc as [|a r0 l cast Ha _ IH]; simpl in *;
      [tauto|].
    destruct Hin as [-> | Hin]; [eauto|].
    destruct (IH Hin) as (a' & H1 & H2). eauto. }
  destruct H as (a & Ha & Hr).
  apply cast_row_columns in Hr. destruct Hr as (-> & -> & _).
  unfold parsed, dated in Ha. apply keep_In in Ha. destruct Ha as [Ha _].
  apply in_map_iff in Ha. destruct Ha as (x & <- & Hx). simpl.
  now destruct x.
Qed.

(** The frames shrink along the pipeline. *)
Lemma after_suspicious_In (cast : list TRow) (r : TRow) :
  In r (after_suspicious cast)
  <-> In r cast /\ suspicious_price_mask r = false.
Proof. apply keep_In. Qed.

Lemma after_zero_In (cast : list TRow) (r : TRow) :
  In r (after_zero cast)
  <-> In r (after_suspicious cast) /\ zero_qty_mask r = false.
Proof. apply keep_In. Qed.

Lemma after_negative_In (cast : list TRow) (r : TRow) :
  In r (after_negative cast)
  <-> In r (after_zero cast) /\ neg_price_mask r = false.
Proof. apply keep_In. Qed.

Lemma after_all_null_In (cast : list TRow) (r : TRow) :
  In r (after_all_null cast) -> In r (after_negative cast).
Proof. intros H. now apply keep_In in H. Qed.

Lemma after_duplicates_In (cast : list TRow) (r : TRow) :
  In r (after_duplicates cast) -> In r (after_all_null cast).
Proof. apply drop_duplicates_from_subset. Qed.








(** The frames a run extracts have distinct index labels. *)
Lemma read_csv_index (records : list RawRecord) :
  map fst (read_csv records) = seq 0 (List.length records).
Proof.
  unfold read_csv. generalize 0%nat.
  induction records as [|r records IH]; intros n; simpl;
    [reflexivity | now rewrite IH].
Qed.

Lemma extraction_index_NoDup (csv : option (list RawRecord))
    (mode : string) (db : Database) (df : DataFrame) :
  extraction to_datetime_text csv mode db = Some df -> NoDup (map fst df).
Proof.
  unfold extraction, extract_data_incremental, extract_data.
  destruct csv as [records|];
    [|destruct (String.eqb mode "incremental"); discriminate].
  assert (Hn : NoDup (map fst (read_csv records)))
    by (rewrite read_csv_index; apply seq_NoDup).
  destruct (String.eqb mode "incremental");
    [destruct (get_last_successful_batch_timestamp db)|];
    intros H; injection H as <-; try exact Hn.
  apply selected_labels_distinct. rewrite map_map. simpl. exact Hn.
Qed.


End QuarantineFacts.


(** ** The batch log and the refresh of the tables *)

Section Batches.

Variable to_datetime_text : string -> option Z.
Variable to_numeric_text : string -> option Q.
Variable timestamp_str : Z -> string.
Variable accepts : Database -> statement -> bool.

Local Notation "'transform'" :=
  (transform_data to_datetime_text to_numeric_text timestamp_str).
Local Notation "'run'" :=
  (run_etl_pipeline to_datetime_text to_numeric_text timestamp_str accepts).
Local Notation "'attempt'" :=
  (try_block to_datetime_text to_numeric_text timestamp_str accepts).
Local Notation "'setup'" := (recreate_tables accepts).
Local Notation "'extracted'" := (extraction to_datetime_text).
Local Notation "'raised'" :=
  (escapes to_datetime_text to_numeric_text timestamp_str accepts).

(** Without a connection nothing is sent: the run fails and the
    database is as it was. *)
Lemma run_without_connection (csv : option (list RawRecord))
    (mode batch : string) (db : Database) :
  run false csv mode batch db = (false, db).
Proof. reflexivity. Qed.

Lemma raised_run_fails (csv : option (list RawRecord)) (mode batch : string)
    (db : Database) (e : string) :
  raised csv mode batch db e -> fst (run true csv mode batch db) = false.
Proof.
  unfold escapes, run_etl_pipeline.
  destruct (attempt csv mode batch db) as [db1 [r|e']]; simpl;
    [discriminate|].
  intros _. now destruct (log_batch_execution _ _ _ _ _ _ _ _).
Qed.

(** The three kinds of failure and what escapes the [try] block. *)
Lemma extraction_failure_raised (csv : option (list RawRecord))
    (mode batch : string) (db : Database) :
  extracted csv mode (setup db) = None ->
  raised csv mode batch db "Extraction failed".
Proof.
  intros H. unfold escapes. now rewrite try_block_phases, H.
Qed.

Lemma transformation_failure_raised (csv : option (list RawRecord))
    (mode batch : string) (db : Database) (df : DataFrame) (e : string) :
  extracted csv mode (setup db) = Some df -> len df <> 0 ->
  transform df (new_tracker batch) = Raise e ->
  raised csv mode batch db e.
Proof.
  intros Hx Hl Ht. unfold escapes. rewrite try_block_phases, Hx.
  destruct (len df =? 0) eqn:E; [lia|]. now rewrite Ht.
Qed.

Lemma loading_failure_raised (csv : option (list RawRecord))
    (mode batch : string) (db : Database) (df : DataFrame)
    (clean : list CleanRow) (t : DataQualityTracker) :
  extracted csv mode (setup db) = Some df -> len df <> 0 ->
  transform df (new_tracker batch) = Ok (clean, t) ->
  snd (loading accepts clean t (setup db)) = false ->
  raised csv mode batch db "Loading failed".
Proof.
  intros Hx Hl Ht Hs. unfold escapes. rewrite try_block_phases, Hx.
  destruct (len df =? 0) eqn:E; [lia|]. now rewrite Ht, Hs.
Qed.

(** C8, as the code has it.  A run that obtains its connection, on a
    database that executes the insertions into the batch log, adds
    exactly one record to the batch log, under the id of the batch and
    with status [SUCCESS], [SUCCESS_NO_DATA] or [FAILED]; the run
    returns [True] exactly when the status is not [FAILED].  Whatever
    exception leaves the [try] block, be it the failed extraction, an
    exception of the transformation or the failed loading, the record
    is [FAILED], reports no rows and holds the text of that exception.
    A run that obtains no connection fails and sends nothing. *)
Theorem batch_finalization (csv : option (list RawRecord))
    (mode batch : string) (db : Database) :
  (forall d b, accepts d (InsertBatchLog b) = true) ->
  (exists b,
      meta_etl_batch_log (snd (run true csv mode batch db))
      = (meta_etl_batch_log (setup db) ++ [b])%list
      /\ log_batch_id b = batch
      /\ (status b = "SUCCESS" \/ status b = "SUCCESS_NO_DATA"
          \/ status b = "FAILED")
      /\ (fst (run true csv mode batch db) = true <-> status b <> "FAILED")
      /\ (forall e, raised csv mode batch db e ->
                    fst (run true csv mode batch db) = false
                    /\ status b = "FAILED"
                    /\ error_message b = Some e
                    /\ rows_extracted b = 0 /\ rows_loaded_staging b = 0
                    /\ log_rows_quarantined b = 0))
  /\ (extracted csv mode (setup db) = None ->
      raised csv mode batch db "Extraction failed")
  /\ (forall df e,
        extracted csv mode (setup db) = Some df -> len df <> 0 ->
        transform df (new_tracker batch) = Raise e ->
        raised csv mode batch db e)
  /\ (forall df clean t,
        extracted csv mode (setup db) = Some df -> len df <> 0 ->
        transform df (new_tracker batch) = Ok (clean, t) ->
        snd (loading accepts clean t (setup db)) = false ->
        raised csv mode batch db "Loading failed")
  /\ run false csv mode batch db = (false, db).
Proof.
  intros Hlog.
  split; [|split; [apply extraction_failure_raised
                  |split; [apply transformation_failure_raised
                          |split; [apply loading_failure_raised
                                  |reflexivity]]]].
  destruct (run_connected to_datetime_text to_numeric_text timestamp_str
              accepts csv mode batch db)
    as (b & db1 & Hdb & Hl & Hid & Hcases).
  exists b. split.
  { rewrite Hdb. unfold run_sql_query. rewrite Hlog. simpl.
    now rewrite Hl. }
  split; [exact Hid|].
  destruct Hcases as [(Hr & Hs & _)
                     | [(Hr & Hs & _)
                       | (Hr & Hs & H1 & H2 & H3 & e0 & He0 & Hm)]].
  - split; [auto|]. split.
    + rewrite Hr, Hs. split; [discriminate | reflexivity].
    + intros e He. apply raised_run_fails in He. congruence.
  - split; [auto|]. split.
    + rewrite Hr, Hs. split; [discriminate | reflexivity].
    + intros e He. apply raised_run_fails in He. congruence.
  - split; [auto|]. split.
    + rewrite Hr, Hs. split; [discriminate | intros H; now elim H].
    + intros e He. unfold escapes in *.
      assert (e = e0) by congruence. subst e0.
      repeat split; assumption.
Qed.

(** The set-up calls leave the four tables empty once the database
    executes the four [DROP]/[CREATE] statements. *)
Lemma setup_empties (db : Database) :
  (forall d, accepts d RecreateStaging = true) ->
  (forall d, accepts d RecreateQuarantine = true) ->
  (forall d, accepts d RecreateMetrics = true) ->
  (forall d, accepts d RecreateBatchLog = true) ->
  setup db = empty_database.
Proof.
  intros H1 H2 H3 H4.
  unfold recreate_tables, create_retail_dwh_schema, create_staging_table,
    create_dq_quarantine_table, create_dq_metrics_table,
    create_meta_batch_log_table, run_sql_query.
  destruct (accepts db SetupSchema); simpl;
    rewrite H1; simpl; rewrite H2; simpl; rewrite H3; simpl;
    rewrite H4; reflexivity.
Qed.

(** C10.  On a database that executes the four [DROP]/[CREATE]
    statements, every run with a connection, whatever its mode, starts
    by emptying the staging, quarantine, metrics and batch-log tables:
    the set-up calls leave the empty database, the query for the last
    loaded timestamp finds nothing, and the run ends as it would have
    on a database that never held a batch. *)
Theorem destructive_refresh (csv : option (list RawRecord))
    (mode batch : string) (db : Database) :
  (forall d, accepts d RecreateStaging = true) ->
  (forall d, accepts d RecreateQuarantine = true) ->
  (forall d, accepts d RecreateMetrics = true) ->
  (forall d, accepts d RecreateBatchLog = true) ->
  setup db = empty_database
  /\ get_last_successful_batch_timestamp (setup db) = None
  /\ attempt csv mode batch db = attempt csv mode batch empty_database
  /\ run true csv mode batch db = run true csv mode batch empty_database.
Proof.
  intros H1 H2 H3 H4.
  pose proof (fun d => setup_empties d H1 H2 H3 H4) as E.
  assert (A : attempt csv mode batch db
              = attempt csv mode batch empty_database)
    by (rewrite !try_block_phases, !E; reflexivity).
  split; [apply E|]. split; [now rewrite E|]. split; [exact A|].
  unfold run_etl_pipeline. now rewrite A.
Qed.

(** With the tables emptied first, the incremental mode has no earlier
    timestamp to go by and extracts what the full mode extracts. *)
Lemma incremental_runs_as_full (csv : option (list RawRecord))
    (batch : string) (db : Database) :
  (forall d, accepts d RecreateStaging = true) ->
  (forall d, accepts d RecreateQuarantine = true) ->
  (forall d, accepts d RecreateMetrics = true) ->
  (forall d, accepts d RecreateBatchLog = true) ->
  run true csv "incremental" batch db = run true csv "full" batch db.
Proof.
  intros H1 H2 H3 H4.
  unfold run_etl_pipeline. rewrite !try_block_phases.
  rewrite (setup_empties db H1 H2 H3 H4).
  unfold extraction. simpl.
  now destruct csv.
Qed.

(** What the incremental extractor does once it is given a timestamp:
    every row it returns carries a parsed date strictly after it. *)
Lemma extract_data_incremental_newer (csv : option (list RawRecord))
    (last : Z) (df : DataFrame) :
  extract_data_incremental to_datetime_text csv (Some last) = Some df ->
  Forall (fun r => exists when,
              InvoiceDate (snd r) = DStamp when /\ last < when) df.
Proof.
  unfold extract_data_incremental. destruct csv as [records|];
    [|discriminate].
  intros H. injection H as <-. apply Forall_forall.
  intros r Hin. apply filter_In in Hin. destruct Hin as [_ Hn].
  unfold newer_than in Hn.
  destruct (InvoiceDate (snd r)) as [| |when]; try discriminate.
  exists when. split; [reflexivity | lia].
Qed.

End Batches.

(** C8, as the specification words it, fails: a run that cannot connect
    ends in failure and leaves the batch log without any record. *)
Lemma batch_finalization_counterexample :
  ~ (forall (connects : bool) (csv : option (list RawRecord))
       (mode batch : string) (db : Database),
        exists b,
          meta_etl_batch_log
            (snd (run_etl_pipeline Sample.dates Sample.numbers
                    Sample.print_time Sample.always
                    connects csv mode batch db))
          = (meta_etl_batch_log (recreate_tables Sample.always db)
               ++ [b])%list).
Proof.
  intros H.
  destruct (H false None "full" Sample.batch empty_database) as (b & Hb).
  discriminate Hb.
Qed.

(** C8, on the sample run. *)
Lemma batch_finalization_witness :
  (forall d b, Sample.always d (InsertBatchLog b) = true)
  /\ exists b,
      meta_etl_batch_log (snd Sample.full_run)
      = (meta_etl_batch_log (recreate_tables Sample.always Sample.earlier)
           ++ [b])%list
      /\ log_batch_id b = Sample.batch
      /\ (fst Sample.full_run = true <-> status b <> "FAILED").
Proof.
  assert (Hlog : forall d b, Sample.always d (InsertBatchLog b) = true)
    by (intros d b; reflexivity).
  split; [exact Hlog|].
  destruct (batch_finalization Sample.dates Sample.numbers Sample.print_time
              Sample.always
              (Some [Sample.cancellation; Sample.sale; Sample.zero_quantity;
                     Sample.overpriced; Sample.undated; Sample.sale])
              "full" Sample.batch Sample.earlier Hlog)
    as [(b & H1 & H2 & _ & H3 & _) _].
  exists b. split; [exact H1|]. split; [exact H2 | exact H3].
Defined.

(** C10, on the sample run: the batch the earlier run left is gone before
    anything is extracted. *)
Lemma destructive_refresh_witness :
  ((forall d, Sample.always d RecreateStaging = true)
   /\ (forall d, Sample.always d RecreateQuarantine = true)
   /\ (forall d, Sample.always d RecreateMetrics = true)
   /\ (forall d, Sample.always d RecreateBatchLog = true))
  /\ recreate_tables Sample.always Sample.earlier = empty_database
  /\ get_last_successful_batch_timestamp
       (recreate_tables Sample.always Sample.earlier) = None
  /\ Sample.incremental_rerun
     = run_etl_pipeline Sample.dates Sample.numbers Sample.print_time
         Sample.always true (Some [Sample.sale]) "incremental" Sample.batch
         empty_database.
Proof.
  assert (H1 : forall d, Sample.always d RecreateStaging = true)
    by (intros d; reflexivity).
  assert (H2 : forall d, Sample.always d RecreateQuarantine = true)
    by (intros d; reflexivity).
  assert (H3 : forall d, Sample.always d RecreateMetrics = true)
    by (intros d; reflexivity).
  assert (H4 : forall d, Sample.always d RecreateBatchLog = true)
    by (intros d; reflexivity).
  split; [auto|].
  destruct (destructive_refresh Sample.dates Sample.numbers Sample.print_time
              Sample.always (Some [Sample.sale]) "incremental" Sample.batch
              Sample.earlier H1 H2 H3 H4)
    as (E1 & E2 & _ & E3).
  split; [exact E1|]. split; [exact E2 | exact E3].
Defined.

(** C2 at a concrete run.  The earlier batch is logged as [SUCCESS] and
    its largest staged timestamp is that of the sale; the extractor, given
    that timestamp, returns no row for a file holding only that sale; yet
    the incremental run over that file extracts the sale, stages it again
    and logs [SUCCESS] with one row extracted, because the tables were
    emptied before the timestamp was looked up. *)
Theorem incremental_run_reloads_loaded_records :
  get_last_successful_batch_timestamp Sample.earlier = Some 1291191960
  /\ to_datetime Sample.dates (InvoiceDate Sample.sale) = Some 1291191960
  /\ extract_data_incremental Sample.dates (Some [Sample.sale])
       (Some 1291191960) = Some []
  /\ fst Sample.incremental_rerun = true
  /\ meta_etl_batch_log (snd Sample.incremental_rerun)
     = [mkBatch Sample.batch "SUCCESS" 1 1 0 None]
  /\ map stg_invoice_date (stg_retail_sales (snd Sample.incremental_rerun))
     = [Some 1291191960].
Proof. vm_compute. repeat split. Qed.

(** C9 at a concrete run.  With the source file absent the pipeline
    returns [False] and logs a failed batch, and the script still leaves
    with status 0, which [run_command] of [run_full_pipeline.py] takes
    for success. *)
Theorem exit_status_ignores_failure :
  fst (run_etl_pipeline Sample.dates Sample.numbers Sample.print_time
         Sample.always true None "full" Sample.batch empty_database) = false
  /\ map status (meta_etl_batch_log (snd Sample.script_without_file))
     = ["FAILED"]
  /\ fst Sample.script_without_file = 0
  /\ run_command (fst Sample.script_without_file) = true
  /\ sys_exit_status false = 1.
Proof. vm_compute. repeat split. Qed.


(** * Further properties of the transformation *)

Section SurvivorFacts.

Variable to_datetime_text : string -> option Z.
Variable to_numeric_text : string -> option Q.
Variable timestamp_str : Z -> string.

Local Notation "'transform'" :=
  (transform_data to_datetime_text to_numeric_text timestamp_str).
Local Notation "'casts'" := (cast_frame to_numeric_text).
Local Notation "'parsed_rows'" := (parsed to_datetime_text).

(** The rows returned are the rows of the last working frame, finished. *)
Lemma clean_rows_origin (df : DataFrame) (t t' : DataQualityTracker)
    (clean : list CleanRow) :
  transform df t = Ok (clean, t') ->
  exists cast,
    casts (parsed_rows df) = Ok cast
    /\ clean = map (finish_row (batch_id t)) (after_critical cast)
    /\ t' = snd (transform_outcome to_datetime_text timestamp_str df t cast).
Proof.
  intros H. apply transform_data_Ok in H.
  destruct H as (cast & Hc & _ & Ho). exists cast.
  split; [exact Hc|]. unfold transform_outcome in *.
  injection Ho as -> ->. split; reflexivity.
Qed.

(** A row of the last working frame is a row of the cast frame that every
    rule let through. *)
Lemma after_critical_member (cast : list TRow) (r : TRow) :
  In r (after_critical cast) ->
  In r cast /\ suspicious_price_mask r = false /\ zero_qty_mask r = false
  /\ neg_price_mask r = false /\ missing_critical r = false.
Proof.
  intros H. apply keep_In in H. destruct H as [H Hm].
  apply after_duplicates_In, after_all_null_In, after_negative_In in H.
  destruct H as [H Hn]. apply after_zero_In in H. destruct H as [H Hz].
  apply after_suspicious_In in H. tauto.
Qed.

Lemma cast_rows_origin (l : list (nat * RawRecord * option Z))
    (cast : list TRow) (r : TRow) :
  casts l = Ok cast -> In r cast ->
  exists a, In a l /\ cast_row to_numeric_text a = Ok r.
Proof.
  intros Hc. apply cast_frame_rows in Hc.
  induction Hc as [|a r0 l cast Ha _ IH]; simpl; [tauto|].
  intros [<- | Hin]; [eauto|].
  destruct (IH Hin) as (a' & H1 & H2). eauto.
Qed.

(** What the casts put into the typed columns of a row. *)
Lemma cast_row_typed (a : nat * RawRecord * option Z) (r : TRow) :
  cast_row to_numeric_text a = Ok r ->
  quantity r
  = astype_int (fillna (to_numeric to_numeric_text (Quantity (raw r))))
  /\ unit_price r = fillna (to_numeric to_numeric_text (UnitPrice (raw r)))
  /\ astype_Int64 (to_numeric to_numeric_text (CustomerID (raw r)))
     = Ok (customer_id r)
  /\ line_total r = (inject_Z (quantity r) * unit_price r)%Q.
Proof.
  destruct a as [[i rec] d]. unfold cast_row.
  destruct (astype_Int64 _) as [c|e] eqn:E; simpl; [|discriminate].
  intros H. injection H as <-. simpl. auto.
Qed.

(** X1. Every row [transform_data] returns has passed every rule: its
    date parsed, its invoice number and stock code are present, its
    quantity is not zero, its unit price is not negative, it is not a
    price above 10000 on fewer than 100 units, and its line total is the
    quantity times the unit price. *)
Theorem returned_rows_pass_every_rule (df : DataFrame)
    (t t' : DataQualityTracker) (clean : list CleanRow) :
  transform df t = Ok (clean, t') ->
  Forall (fun row =>
            (exists when, invoice_date (typed row) = Some when)
            /\ InvoiceNo (raw (typed row)) <> None
            /\ StockCode (raw (typed row)) <> None
            /\ quantity (typed row) <> 0
            /\ (0 <= unit_price (typed row))%Q
            /\ ((unit_price (typed row) <= 10000)%Q
                \/ 100 <= Z.abs (quantity (typed row)))
            /\ line_total (typed row)
               = (inject_Z (quantity (typed row)) * unit_price (typed row))%Q)
    clean.
Proof.
  intros H. destruct (clean_rows_origin _ _ _ _ H) as (cast & Hc & -> & _).
  apply Forall_forall. intros row Hin. apply in_map_iff in Hin.
  destruct Hin as (r & <- & Hr). simpl.
  apply after_critical_member in Hr.
  destruct Hr as (Hin & Hs & Hz & Hn & Hm).
  destruct (cast_rows_origin _ _ _ Hc Hin) as (a & _ & Ha).
  apply cast_row_typed in Ha. destruct Ha as (_ & _ & _ & Hl).
  unfold missing_critical, isna_int64, isna_filled in Hm.
  rewrite !orb_false_r in Hm. apply orb_false_iff in Hm.
  destruct Hm as [Hm Hd]. apply orb_false_iff in Hm. destruct Hm as [Hi Hk].
  split; [destruct (invoice_date r) as [when|]; [eauto | discriminate]|].
  split; [destruct (InvoiceNo (raw r)); [discriminate | discriminate]|].
  split; [destruct (StockCode (raw r)); [discriminate | discriminate]|].
  split; [unfold zero_qty_mask in Hz; now apply Z.eqb_neq|].
  split.
  { unfold neg_price_mask, Qlt_bool in Hn. apply negb_false_iff in Hn.
    now apply Qle_bool_iff. }
  split; [|exact Hl].
  unfold suspicious_price_mask, Qlt_bool in Hs.
  apply andb_false_iff in Hs. destruct Hs as [Hs | Hs].
  - left. apply negb_false_iff in Hs. now apply Qle_bool_iff.
  - right. apply Z.ltb_ge in Hs. unfold abs_int64 in Hs.
    destruct (quantity r =? int64_min); [|exact Hs].
    exfalso. revert Hs. vm_compute. intros Hle. apply Hle. reflexivity.
Qed.

End SurvivorFacts.

(** ** Duplicates and order *)

Lemma option_eqb_sym {A : Type} (eqb : A -> A -> bool) (x y : option A) :
  (forall a b, eqb a b = eqb b a) -> option_eqb eqb x y = option_eqb eqb y x.
Proof. intros H. destruct x, y; simpl; auto. Qed.

Lemma cell_eqb_sym (x y : cell) : cell_eqb x y = cell_eqb y x.
Proof.
  destruct x, y; simpl;
    auto using Z.eqb_sym, Qeq_bool_comm, String.eqb_sym.
Qed.

Lemma date_cell_eqb_sym (x y : date_cell) :
  date_cell_eqb x y = date_cell_eqb y x.
Proof. destruct x, y; simpl; auto using Z.eqb_sym, String.eqb_sym. Qed.

Lemma row_eqb_sym (x y : TRow) : row_eqb x y = row_eqb y x.
Proof.
  unfold row_eqb.
  rewrite (option_eqb_sym String.eqb (InvoiceNo (raw x))) by apply String.eqb_sym.
  rewrite (option_eqb_sym String.eqb (StockCode (raw x))) by apply String.eqb_sym.
  rewrite (option_eqb_sym String.eqb (Description (raw x)))
    by apply String.eqb_sym.
  rewrite (option_eqb_sym String.eqb (Country (raw x))) by apply String.eqb_sym.
  rewrite (option_eqb_sym Z.eqb (invoice_date x)) by apply Z.eqb_sym.
  rewrite (option_eqb_sym Z.eqb (customer_id x)) by apply Z.eqb_sym.
  rewrite (cell_eqb_sym (Quantity (raw x))), (cell_eqb_sym (UnitPrice (raw x))),
    (cell_eqb_sym (CustomerID (raw x))),
    (date_cell_eqb_sym (InvoiceDate (raw x))),
    (Z.eqb_sym (quantity x)), (Qeq_bool_comm (unit_price x)),
    (Qeq_bool_comm (line_total x)).
  reflexivity.
Qed.

(** What [drop_duplicates] keeps differs, in some column, from every row
    seen before it and from every other row kept. *)
Lemma drop_duplicates_from_distinct (df seen : list TRow) :
  Forall (fun k => forall s, In s seen -> row_eqb k s = false)
    (drop_duplicates_from seen df)
  /\ ForallOrdPairs (fun x y => row_eqb x y = false)
       (drop_duplicates_from seen df).
Proof.
  revert seen. induction df as [|r df IH]; intros seen; simpl.
  - split; constructor.
  - destruct (IH (r :: seen)) as [Hs Hp].
    assert (Hs' : Forall (fun k => forall s, In s seen -> row_eqb k s = false)
                    (drop_duplicates_from (r :: seen) df)).
    { eapply Forall_impl; [|exact Hs]. intros k Hk s Hin.
      apply Hk. now right. }
    destruct (existsb (row_eqb r) seen) eqn:E.
    + split; assumption.
    + split.
      * constructor; [|exact Hs'].
        intros s Hin.
        destruct (row_eqb r s) eqn:Ers; [|reflexivity].
        assert (existsb (row_eqb r) seen = true)
          by (apply existsb_exists; eauto).
        congruence.
      * constructor; [|exact Hp].
        eapply Forall_impl; [|exact Hs]. intros k Hk.
        rewrite row_eqb_sym. apply Hk. now left.
Qed.

Lemma ForallOrdPairs_filter {A : Type} (R : A -> A -> Prop) (p : A -> bool)
    (l : list A) :
  ForallOrdPairs R l -> ForallOrdPairs R (filter p l).
Proof.
  induction 1 as [|a l Ha _ IH]; simpl; [constructor|].
  destruct (p a); [|exact IH]. constructor; [|exact IH].
  apply Forall_forall. intros x Hx. apply filter_In in Hx.
  rewrite Forall_forall in Ha. now apply Ha.
Qed.

Lemma ForallOrdPairs_map {A B : Type} (R : B -> B -> Prop) (f : A -> B)
    (l : list A) :
  ForallOrdPairs (fun x y => R (f x) (f y)) l -> ForallOrdPairs R (map f l).
Proof.
  induction 1 as [|a l Ha _ IH]; simpl; constructor; [|exact IH].
  apply Forall_forall. intros y Hy. apply in_map_iff in Hy.
  destruct Hy as (x & <- & Hx). rewrite Forall_forall in Ha. now apply Ha.
Qed.

(** Selection keeps rows in the order of their index labels. *)
Lemma sorted_filter {A : Type} (label : A -> nat) (p : A -> bool)
    (l : list A) :
  StronglySorted lt (map label l) ->
  StronglySorted lt (map label (filter p l)).
Proof.
  induction l as [|a l IH]; simpl; [auto|].
  intros H. apply StronglySorted_inv in H. destruct H as [Hs Hf].
  destruct (p a); simpl; [constructor|]; auto.
  rewrite Forall_forall in *. intros n Hn. apply Hf.
  apply in_map_iff in Hn. destruct Hn as (x & <- & Hx).
  apply filter_In in Hx. apply in_map. tauto.
Qed.

Lemma sorted_drop_duplicates (df seen : list TRow) :
  StronglySorted lt (map index df) ->
  StronglySorted lt (map index (drop_duplicates_from seen df)).
Proof.
  revert seen. induction df as [|r df IH]; intros seen; simpl; [auto|].
  intros H. apply StronglySorted_inv in H. destruct H as [Hs Hf].
  destruct (existsb (row_eqb r) seen); simpl; [auto|].
  constructor; [auto|].
  rewrite Forall_forall in *. intros n Hn. apply Hf.
  apply in_map_iff in Hn. destruct Hn as (x & <- & Hx).
  apply drop_duplicates_from_subset in Hx. now apply in_map.
Qed.

Lemma sorted_seq (start n : nat) : StronglySorted lt (seq start n).
Proof.
  revert start. induction n as [|n IH]; intros start; simpl; constructor;
    [apply IH|].
  apply Forall_forall. intros x Hx. apply in_seq in Hx. lia.
Qed.

Section OrderFacts.

Variable to_datetime_text : string -> option Z.
Variable to_numeric_text : string -> option Q.
Variable timestamp_str : Z -> string.

Local Notation "'transform'" :=
  (transform_data to_datetime_text to_numeric_text timestamp_str).

(** X2. Exact duplicates only: no two rows [transform_data] returns
    agree on all thirteen columns. *)
Theorem returned_rows_differ (df : DataFrame) (t t' : DataQualityTracker)
    (clean : list CleanRow) :
  transform df t = Ok (clean, t') ->
  ForallOrdPairs (fun a b => row_eqb (typed a) (typed b) = false) clean.
Proof.
  intros H. destruct (clean_rows_origin _ _ _ _ _ _ _ H) as (cast & _ & -> & _).
  apply ForallOrdPairs_map. simpl.
  unfold after_critical, keep. apply ForallOrdPairs_filter.
  apply drop_duplicates_from_distinct.
Qed.

(** X3. The rows returned follow the input: when the index labels of
    the frame increase, as they do in every frame read from the file, so
    do the labels of the rows returned, and each row returned holds,
    untouched, the eight fields of the input record with its label. *)
Theorem returned_rows_follow_input (df : DataFrame)
    (t t' : DataQualityTracker) (clean : list CleanRow) :
  StronglySorted lt (map fst df) ->
  transform df t = Ok (clean, t') ->
  StronglySorted lt (map (fun row => index (typed row)) clean)
  /\ Forall (fun row => In (index (typed row), raw (typed row)) df) clean.
Proof.
  intros Hs H.
  destruct (clean_rows_origin _ _ _ _ _ _ _ H) as (cast & Hc & -> & _).
  split.
  - rewrite map_map. simpl.
    unfold after_critical, after_duplicates, after_all_null, after_negative,
      after_zero, after_suspicious, keep, drop_duplicates.
    apply sorted_filter, sorted_drop_duplicates.
    do 4 apply sorted_filter.
    rewrite (cast_frame_index _ _ _ Hc). unfold parsed, keep.
    apply sorted_filter. unfold dated. rewrite map_map. exact Hs.
  - apply Forall_forall. intros row Hin. apply in_map_iff in Hin.
    destruct Hin as (r & <- & Hr). simpl.
    apply after_critical_member in Hr. destruct Hr as [Hr _].
    exact (cast_from_input _ _ _ _ _ Hc Hr).
Qed.

(** X4. The all-null rule cannot fire: once the quantity is cast to an
    integer no row is missing in every column, so the rule removes
    nothing and [transform_data] never adds a metric under its name. *)
Theorem all_null_rule_never_fires (df : DataFrame)
    (t t' : DataQualityTracker) (clean : list CleanRow) :
  transform df t = Ok (clean, t') ->
  exists cast ms,
    cast_frame to_numeric_text (parsed to_datetime_text df) = Ok cast
    /\ after_all_null cast = after_negative cast
    /\ metrics t' = (metrics t ++ ms)%list
    /\ Forall (fun m => metric_rule_name m <> "remove_all_null_rows") ms.
Proof.
  intros H. destruct (clean_rows_origin _ _ _ _ _ _ _ H) as (cast & Hc & _ & ->).
  assert (Hz : mask_sum all_null (after_negative cast) = 0).
  { unfold mask_sum.
    replace (filter all_null (after_negative cast)) with (@nil TRow);
      [reflexivity|].
    symmetry. induction (after_negative cast) as [|r l IH]; simpl;
      [reflexivity|].
    now rewrite all_null_never. }
  exists cast. eexists. split; [exact Hc|]. split.
  { unfold after_all_null. now apply mask_sum_zero_keep. }
  split; [reflexivity|].
  unfold rule_stages. simpl flat_map. unfold stage_metric at 5. simpl rejected.
  rewrite Hz. simpl.
  repeat (apply Forall_app; split);
    try (unfold stage_metric;
         match goal with
         | |- context [if ?b then _ else _] => destruct b
         end; repeat constructor; simpl; discriminate).
  constructor.
Qed.

End OrderFacts.

(** ** Trimmed text *)

Lemma lstrip_clean_head (s : string) : clean_head (Text.lstrip s) = true.
Proof.
  induction s as [|c s IH]; simpl; [reflexivity|].
  destruct (Text.isspace c) eqn:E; [exact IH | simpl; now rewrite E].
Qed.

Lemma rstrip_clean_last (s : string) : clean_last (Text.rstrip s) = true.
Proof.
  induction s as [|c s IH]; simpl; [reflexivity|].
  destruct (Text.rstrip s) as [|d u].
  - destruct (Text.isspace c) eqn:E; simpl; [reflexivity | now rewrite E].
  - exact IH.
Qed.

Lemma rstrip_clean_head (s : string) :
  clean_head s = true -> clean_head (Text.rstrip s) = true.
Proof.
  destruct s as [|c s]; simpl; [auto|].
  intros H. destruct (Text.rstrip s); [|exact H].
  apply negb_true_iff in H. rewrite H. simpl. now rewrite H.
Qed.

(** What [str.strip] returns is trimmed. *)
Lemma strip_trimmed (s : string) : trimmed (Text.strip s).
Proof.
  unfold trimmed, Text.strip. split.
  - apply rstrip_clean_head, lstrip_clean_head.
  - apply rstrip_clean_last.
Qed.

Lemma clean_last_rstrip_fixed (s : string) :
  clean_last s = true -> Text.rstrip s = s.
Proof.
  induction s as [|c s IH]; simpl; [reflexivity|].
  destruct s as [|d u].
  - simpl. intros H. apply negb_true_iff in H. now rewrite H.
  - intros H. rewrite (IH H). reflexivity.
Qed.

(** And [str.strip] leaves a trimmed text as it is. *)
Lemma trimmed_strip_fixed (s : string) : trimmed s -> Text.strip s = s.
Proof.
  intros [Hh Hl]. unfold Text.strip.
  assert (E : Text.lstrip s = s).
  { destruct s as [|c s]; simpl in *; [reflexivity|].
    apply negb_true_iff in Hh. now rewrite Hh. }
  rewrite E. now apply clean_last_rstrip_fixed.
Qed.

Lemma append_nonempty (a b : string) : a <> "" -> (a ++ b)%string <> "".
Proof. destruct a; simpl; [congruence | discriminate]. Qed.

Lemma clean_head_append (a b : string) :
  a <> "" -> clean_head (a ++ b) = clean_head a.
Proof. destruct a; simpl; [congruence | reflexivity]. Qed.

Lemma clean_last_append_nonempty (a b : string) :
  b <> "" -> clean_last (a ++ b) = clean_last b.
Proof.
  intros Hb. induction a as [|c a IH]; simpl; [reflexivity|].
  destruct (a ++ b)%string eqn:E; [|exact IH].
  destruct a; simpl in E; congruence.
Qed.

Lemma clean_last_append_empty (a : string) :
  clean_last (a ++ "") = clean_last a.
Proof.
  induction a as [|c a IH]; simpl; [reflexivity|].
  rewrite IH. destruct a; reflexivity.
Qed.

(** The case conversions of one code point never yield the empty text,
    and never white space from a code point that is none. *)
Lemma upper_char_nonempty (c : ascii) : Text.upper_char c <> "".
Proof.
  destruct c as [[] [] [] [] [] [] [] []]; vm_compute; discriminate.
Qed.

Lemma upper_char_clean (c : ascii) :
  Text.isspace c = false ->
  clean_head (Text.upper_char c) = true
  /\ clean_last (Text.upper_char c) = true.
Proof.
  destruct c as [[] [] [] [] [] [] [] []]; vm_compute; intros H;
    (discriminate H || (split; reflexivity)).
Qed.

Lemma title_piece_nonempty (c : ascii) (previous : bool) :
  (if previous then String (Text.lower_char c) "" else Text.title_char c)
  <> "".
Proof.
  destruct previous; [discriminate|].
  destruct c as [[] [] [] [] [] [] [] []]; vm_compute; discriminate.
Qed.

Lemma title_piece_clean (c : ascii) (previous : bool) :
  Text.isspace c = false ->
  clean_head
    (if previous then String (Text.lower_char c) "" else Text.title_char c)
  = true
  /\ clean_last
       (if previous then String (Text.lower_char c) "" else Text.title_char c)
     = true.
Proof.
  destruct previous;
    destruct c as [[] [] [] [] [] [] [] []]; vm_compute; intros H;
    (discriminate H || (split; reflexivity)).
Qed.

Lemma upper_nonempty (s : string) : s <> "" -> Text.upper s <> "".
Proof.
  destruct s as [|c s]; [congruence|]. intros _. simpl.
  apply append_nonempty, upper_char_nonempty.
Qed.

(** [str.upper] keeps a trimmed text trimmed. *)
Lemma upper_trimmed (s : string) : trimmed s -> trimmed (Text.upper s).
Proof.
  intros [Hh Hl]. split.
  - destruct s as [|c s]; simpl in *; [reflexivity|].
    rewrite clean_head_append by apply upper_char_nonempty.
    apply upper_char_clean. now apply negb_true_iff.
  - clear Hh. induction s as [|c s IH]; simpl; [reflexivity|].
    destruct s as [|d u].
    + simpl in Hl. simpl Text.upper. rewrite clean_last_append_empty.
      apply upper_char_clean. now apply negb_true_iff.
    + rewrite clean_last_append_nonempty
        by (apply upper_nonempty; discriminate).
      apply IH. exact Hl.
Qed.

Lemma title_from_nonempty (s : string) (previous : bool) :
  s <> "" -> Text.title_from previous s <> "".
Proof.
  destruct s as [|c s]; [congruence|]. intros _. simpl.
  destruct (Text.is_lower _ || Text.is_upper _); [|discriminate].
  apply append_nonempty, title_piece_nonempty.
Qed.

(** [str.title] keeps a trimmed text trimmed. *)
Lemma title_trimmed (s : string) : trimmed s -> trimmed (Text.title s).
Proof.
  intros [Hh Hl]. unfold Text.title. split.
  - destruct s as [|c s]; simpl in *; [reflexivity|].
    apply negb_true_iff in Hh.
    destruct (Text.is_lower _ || Text.is_upper _).
    + rewrite clean_head_append by exact (title_piece_nonempty c false).
      exact (proj1 (title_piece_clean c false Hh)).
    + simpl. now rewrite Hh.
  - clear Hh. generalize false as previous.
    induction s as [|c s IH]; intros previous; simpl; [reflexivity|].
    destruct s as [|d u].
    + simpl in Hl. apply negb_true_iff in Hl.
      destruct (Text.is_lower _ || Text.is_upper _).
      * simpl Text.title_from. rewrite clean_last_append_empty.
        now apply title_piece_clean.
      * simpl. now rewrite Hl.
    + destruct (Text.is_lower _ || Text.is_upper _).
      * rewrite clean_last_append_nonempty
          by (apply title_from_nonempty; discriminate).
        apply IH. exact Hl.
      * change (clean_last (String c (Text.title_from false (String d u))))
          with (match Text.title_from false (String d u) with
                | EmptyString => negb (Text.isspace c)
                | String _ _ =>
                    clean_last (Text.title_from false (String d u))
                end).
        pose proof (title_from_nonempty (String d u) false) as Hne.
        destruct (Text.title_from false (String d u)) eqn:E.
        -- exfalso. apply Hne; [discriminate | reflexivity].
        -- rewrite <- E. apply IH. exact Hl.
Qed.

(** ** Failures, flags, stamps and text of a transformation *)

Section OutcomeFacts.

Variable to_datetime_text : string -> option Z.
Variable to_numeric_text : string -> option Q.
Variable timestamp_str : Z -> string.

Local Notation "'transform'" :=
  (transform_data to_datetime_text to_numeric_text timestamp_str).
Local Notation "'casts'" := (cast_frame to_numeric_text).
Local Notation "'castable'" := (customer_castable to_numeric_text).

Lemma cast_row_castable (a : nat * RawRecord * option Z) :
  castable (snd (fst a)) = true ->
  exists r, cast_row to_numeric_text a = Ok r.
Proof.
  destruct a as [[i rec] d]. unfold customer_castable, cast_row, astype_Int64.
  simpl. destruct (to_numeric to_numeric_text (CustomerID rec)) as [q|];
    [intros ->|intros _]; simpl; eauto.
Qed.

Lemma cast_row_not_castable (a : nat * RawRecord * option Z) :
  castable (snd (fst a)) = false ->
  cast_row to_numeric_text a
  = Raise "cannot safely cast non-equivalent float64 to int64".
Proof.
  destruct a as [[i rec] d]. unfold customer_castable, cast_row, astype_Int64.
  simpl. destruct (to_numeric to_numeric_text (CustomerID rec)) as [q|];
    [intros ->; reflexivity | discriminate].
Qed.

Lemma cast_frame_castable (l : list (nat * RawRecord * option Z)) :
  Forall (fun a => castable (snd (fst a)) = true) l ->
  exists cast, casts l = Ok cast.
Proof.
  induction 1 as [|a l Ha _ [cast IH]]; simpl; [eauto|].
  destruct (cast_row_castable a Ha) as [r ->]. simpl. rewrite IH. simpl. eauto.
Qed.

Lemma cast_frame_not_castable (l : list (nat * RawRecord * option Z))
    (a : nat * RawRecord * option Z) :
  In a l -> castable (snd (fst a)) = false ->
  casts l = Raise "cannot safely cast non-equivalent float64 to int64".
Proof.
  intros Hin Ha. induction l as [|a0 l IH]; simpl in *; [tauto|].
  destruct (castable (snd (fst a0))) eqn:E.
  - destruct (cast_row_castable a0 E) as [r ->]. simpl.
    destruct Hin as [-> | Hin]; [congruence|].
    now rewrite (IH Hin).
  - now rewrite (cast_row_not_castable a0 E).
Qed.

(** X5. When [transform_data] raises and when it returns, on a frame
    whose numbers are finite.  On the empty frame it raises the division
    by zero of its closing report.  On a frame where some record with a
    parseable date has a customer id that is a number but not a whole one
    within the range of [int64], it raises the error of the [Int64] cast.
    It returns on every other frame whose description and country columns
    hold some text (a column without any text is not read as a column of
    text, and the string operations of section 2.5 are then not defined on
    it); in particular a quantity beyond the range of [int64] does not
    make it raise, and a customer id that cannot be cast does no harm on a
    record whose date does not parse, the record being dropped before the
    cast. *)
Theorem transform_data_raises_or_returns (df : DataFrame)
    (t : DataQualityTracker) :
  (df = [] -> transform df t = Raise "division by zero")
  /\ (forall i x when,
        In (i, x) df ->
        to_datetime to_datetime_text (InvoiceDate x) = Some when ->
        castable x = false ->
        transform df t
        = Raise "cannot safely cast non-equivalent float64 to int64")
  /\ (df <> [] ->
      (exists i x text, In (i, x) df /\ Description x = Some text) ->
      (exists i x text, In (i, x) df /\ Country x = Some text) ->
      (forall i x when,
          In (i, x) df ->
          to_datetime to_datetime_text (InvoiceDate x) = Some when ->
          castable x = true) ->
      exists clean t', transform df t = Ok (clean, t')).
Proof.
  split; [|split].
  - intros ->. reflexivity.
  - intros i x when Hin Hd Hc. rewrite transform_data_stages.
    rewrite (cast_frame_not_castable _ (i, x, Some when));
      [reflexivity | now apply parsed_In | exact Hc].
  - intros Hne _ _ Hall.
    destruct (cast_frame_castable (parsed to_datetime_text df)) as [cast Hc].
    { apply Forall_forall. intros [[i x] d] Hin.
      unfold parsed, dated in Hin. apply keep_In in Hin.
      destruct Hin as [Hin Hu]. apply in_map_iff in Hin.
      destruct Hin as ([i' x'] & E & Hin). injection E as -> -> <-.
      unfold unparseable in Hu. simpl in *.
      destruct (to_datetime to_datetime_text (InvoiceDate x)) as [when|] eqn:Ed;
        [eauto | discriminate]. }
    eexists. eexists.
    rewrite (transform_data_returns _ _ _ df t cast Hc Hne).
    unfold transform_outcome. reflexivity.
Qed.

(** What [finish_row] computes satisfies the exclusions between flags. *)
Lemma finish_row_flags (batch : string) (r : TRow) :
  let row := finish_row batch r in
  (is_valid_sale row = true ->
   is_cancellation row = false /\ is_return row = false
   /\ is_adjustment row = false /\ 0 < quantity r)
  /\ (is_adjustment row = true ->
      is_guest_purchase row = true /\ is_cancellation row = false
      /\ is_return row = false /\ (unit_price r == 0)%Q /\ quantity r < 0)
  /\ (quantity r < 0 <-> is_return row = true \/ is_adjustment row = true)
  /\ (is_return row = true -> is_adjustment row = false).
Proof.
  unfold finish_row. simpl.
  destruct (Text.startswith _ "C") eqn:Ec;
    destruct (quantity r <? 0) eqn:Eneg;
    destruct (quantity r >? 0) eqn:Epos;
    destruct (Qeq_bool (unit_price r) 0) eqn:Ez;
    destruct (Qlt_bool 0 (unit_price r)) eqn:Ep;
    destruct (isna (customer_id r)) eqn:Eg; simpl;
    try apply Qeq_bool_iff in Ez;
    repeat split; try intros; try discriminate; auto;
    try lia;
    try (match goal with
         | H : _ \/ _ |- _ => destruct H; discriminate
         end).
Qed.

(** X6. The flags of a returned row exclude one another as follows: a
    valid sale is no cancellation, return or adjustment and has a positive
    quantity; an adjustment is a guest purchase with price 0 and negative
    quantity and is no cancellation or return; a row has a negative
    quantity exactly when it is a return or an adjustment, and never
    both. *)
Theorem flags_exclude_one_another (df : DataFrame)
    (t t' : DataQualityTracker) (clean : list CleanRow) :
  transform df t = Ok (clean, t') ->
  Forall (fun row =>
            (is_valid_sale row = true ->
             is_cancellation row = false /\ is_return row = false
             /\ is_adjustment row = false /\ 0 < quantity (typed row))
            /\ (is_adjustment row = true ->
                is_guest_purchase row = true /\ is_cancellation row = false
                /\ is_return row = false
                /\ (unit_price (typed row) == 0)%Q
                /\ quantity (typed row) < 0)
            /\ (quantity (typed row) < 0
                <-> is_return row = true \/ is_adjustment row = true)
            /\ (is_return row = true -> is_adjustment row = false))
    clean.
Proof.
  intros H. apply Forall_forall. intros row Hin.
  destruct (clean_rows_finished _ _ _ _ _ _ _ _ H Hin) as (r & ->).
  exact (finish_row_flags (batch_id t) r).
Qed.

(** X7. Everything a transformation produces is stamped with the batch
    of the tracker: the rows returned (with the fixed source name), the
    metrics added and the quarantine entries added; the tracker keeps its
    batch id and what it held before. *)
Theorem outputs_carry_the_batch (df : DataFrame)
    (t t' : DataQualityTracker) (clean : list CleanRow) :
  transform df t = Ok (clean, t') ->
  batch_id t' = batch_id t
  /\ Forall (fun row => row_batch_id row = batch_id t
                        /\ source_file row = "online_retail.csv") clean
  /\ exists ms qs,
      metrics t' = (metrics t ++ ms)%list
      /\ quarantine_records t' = (quarantine_records t ++ qs)%list
      /\ Forall (fun m => metric_batch_id m = batch_id t) ms
      /\ Forall (fun e => quarantine_batch_id e = batch_id t) qs.
Proof.
  intros H.
  destruct (clean_rows_origin _ _ _ _ _ _ _ H) as (cast & _ & -> & ->).
  split; [reflexivity|]. split.
  - apply Forall_forall. intros row Hin. apply in_map_iff in Hin.
    destruct Hin as (r & <- & _). split; reflexivity.
  - eexists. eexists. split; [reflexivity|]. split; [reflexivity|]. split.
    + apply Forall_forall. intros m Hm. apply in_flat_map in Hm.
      destruct Hm as (st & _ & Hm). unfold stage_metric in Hm.
      destruct (rejected st >? 0); [|destruct Hm].
      destruct Hm as [<- | []]. reflexivity.
    + apply Forall_forall. intros e He. apply in_map_iff in He.
      destruct He as ([[rule reason] r] & <- & _). reflexivity.
Qed.

(** X8. The four text fields of a returned row neither begin nor end
    with white space: [str.upper] and [str.title] do not undo
    [str.strip]. *)
Theorem returned_text_is_trimmed (df : DataFrame)
    (t t' : DataQualityTracker) (clean : list CleanRow) :
  transform df t = Ok (clean, t') ->
  Forall (fun row =>
            trimmed (invoice_no row) /\ trimmed (stock_code row)
            /\ trimmed (description row) /\ trimmed (country row))
    clean.
Proof.
  intros H. apply Forall_forall. intros row Hin.
  destruct (clean_rows_finished _ _ _ _ _ _ _ _ H Hin) as (r & ->).
  unfold finish_row; simpl.
  repeat split;
    try apply upper_trimmed; try apply title_trimmed; apply strip_trimmed.
Qed.

(** X9. A returned row whose description is missing is given the
    description UNKNOWN PRODUCT; one whose country is missing is given
    the country Unknown, the placeholder UNKNOWN being title-cased with the
    other countries. *)
Theorem missing_text_is_replaced (df : DataFrame)
    (t t' : DataQualityTracker) (clean : list CleanRow) :
  transform df t = Ok (clean, t') ->
  Forall (fun row =>
            (Description (raw (typed row)) = None ->
             description row = "UNKNOWN PRODUCT")
            /\ (Country (raw (typed row)) = None -> country row = "Unknown"))
    clean.
Proof.
  intros H. apply Forall_forall. intros row Hin.
  destruct (clean_rows_finished _ _ _ _ _ _ _ _ H Hin) as (r & ->).
  unfold finish_row; simpl. split; intros ->; reflexivity.
Qed.

End OutcomeFacts.

(** * Further properties of the loaders *)

Lemma chunk_size_positive : (0 < chunk_size)%nat.
Proof. unfold chunk_size. apply Nat.lt_0_succ. Qed.

(** The rows of one chunk, [iloc[start_idx:end_idx]], are the next
    [chunk_size] rows of the frame, or what is left of it. *)
Lemma chunk_rows {A : Type} (l : list A) (i : nat) :
  firstn (Nat.min (i * chunk_size + chunk_size) (List.length l)
          - i * chunk_size)
    (skipn (i * chunk_size) l)
  = firstn chunk_size (skipn (i * chunk_size) l).
Proof.
  destruct (Nat.le_gt_cases (i * chunk_size + chunk_size) (List.length l))
    as [H | H].
  - rewrite Nat.min_l by exact H. f_equal. lia.
  - rewrite Nat.min_r by lia.
    rewrite !firstn_all2; [reflexivity | |]; rewrite length_skipn; lia.
Qed.

Lemma chunks_join {A : Type} (l : list A) (k x : nat) :
  (firstn chunk_size (skipn (k * chunk_size) l)
   ++ firstn x (skipn (S k * chunk_size) l))%list
  = firstn (chunk_size + x) (skipn (k * chunk_size) l).
Proof.
  replace (S k * chunk_size)%nat with (chunk_size + k * chunk_size)%nat
    by (simpl; lia).
  rewrite <- skipn_skipn.
  generalize (skipn (k * chunk_size) l) as rest. generalize chunk_size as c.
  induction c as [|c IH]; intros rest; simpl; [reflexivity|].
  destruct rest as [|a rest]; simpl.
  - now rewrite firstn_nil.
  - now rewrite IH.
Qed.

Section LoaderFacts.

Variable accepts : Database -> statement -> bool.

Local Notation "'query'" := (run_sql_query accepts).

(** A statement on the staging table changes that table only. *)
Lemma insert_staging_effect (db : Database) (rows : list StagedRow) :
  let res := query db (InsertStaging rows) in
  stg_retail_sales (fst res)
  = (stg_retail_sales db ++ (if snd res then rows else []))%list
  /\ dq_quarantine_sales (fst res) = dq_quarantine_sales db
  /\ dq_metrics (fst res) = dq_metrics db
  /\ meta_etl_batch_log (fst res) = meta_etl_batch_log db
  /\ snd res = accepts db (InsertStaging rows).
Proof.
  unfold run_sql_query.
  destruct (accepts db (InsertStaging rows)); simpl;
    rewrite ?app_nil_r; repeat split.
Qed.

(** The chunk loop from chunk [k] on: the table gains a whole number of
    chunks, nothing else changes, and the loop reports success only when
    it went through all its chunks. *)
Lemma load_chunks_progress (df_load : list StagedRow) (m k : nat)
    (db : Database) :
  let res := load_chunks accepts df_load (seq k m) db in
  exists j,
    (k <= j <= k + m)%nat
    /\ stg_retail_sales (fst res)
       = (stg_retail_sales db
            ++ firstn (j * chunk_size - k * chunk_size)
                 (skipn (k * chunk_size) df_load))%list
    /\ dq_quarantine_sales (fst res) = dq_quarantine_sales db
    /\ dq_metrics (fst res) = dq_metrics db
    /\ meta_etl_batch_log (fst res) = meta_etl_batch_log db
    /\ (snd res = true -> j = (k + m)%nat).
Proof.
  revert k db. induction m as [|m IH]; intros k db.
  - exists k. rewrite Nat.sub_diag. cbn [seq load_chunks fst snd firstn].
    rewrite app_nil_r. repeat split; lia.
  - change (seq k (S m)) with (k :: seq (S k) m).
    cbn [load_chunks]. cbv zeta. rewrite chunk_rows.
    destruct (insert_staging_effect db
                (firstn chunk_size (skipn (k * chunk_size) df_load)))
      as (E1 & E2 & E3 & E4 & _).
    destruct (query db (InsertStaging _)) as [db1 ok]. cbn [fst snd] in *.
    destruct ok.
    + destruct (IH (S k) db1) as (j & Hj & F1 & F2 & F3 & F4 & F5).
      exists j. split; [lia|]. rewrite F1, F2, F3, F4, E1, E2, E3, E4.
      split.
      { rewrite <- app_assoc. f_equal. rewrite chunks_join. f_equal.
        assert (S k * chunk_size <= j * chunk_size)%nat
          by (apply Nat.mul_le_mono_r; lia).
        rewrite Nat.mul_succ_l in *. lia. }
      repeat split. intros H. apply F5 in H. lia.
    + exists k. rewrite Nat.sub_diag. cbn [fst snd firstn].
      rewrite E1, E2, E3, E4. repeat split; lia || discriminate.
Qed.

(** The whole loader: a whole number of chunks, and every row on
    success. *)
Lemma load_to_staging_progress (df : list CleanRow) (db : Database) :
  let res := load_to_staging accepts df db in
  (exists j,
      stg_retail_sales (fst res)
      = (stg_retail_sales db
           ++ firstn (j * chunk_size) (map staging_columns df))%list)
  /\ dq_quarantine_sales (fst res) = dq_quarantine_sales db
  /\ dq_metrics (fst res) = dq_metrics db
  /\ meta_etl_batch_log (fst res) = meta_etl_batch_log db
  /\ (snd res = true ->
      stg_retail_sales (fst res)
      = (stg_retail_sales db ++ map staging_columns df)%list).
Proof.
  unfold load_to_staging.
  set (l := map staging_columns df).
  set (total := ((List.length l + chunk_size - 1) / chunk_size)%nat).
  destruct (load_chunks_progress l total 0 db)
    as (j & Hj & F1 & F2 & F3 & F4 & F5).
  cbn [Nat.mul] in F1. rewrite Nat.sub_0_r in F1. cbn [skipn] in F1.
  cbv zeta.
  split; [exists j; exact F1|]. repeat split; try assumption.
  intros H. apply F5 in H. cbn [Nat.add] in H. subst j. rewrite F1. f_equal.
  apply firstn_all2.
  pose proof chunk_size_positive as Hc.
  pose proof (Nat.div_mod_eq (List.length l + chunk_size - 1) chunk_size) as Hd.
  pose proof (Nat.mod_upper_bound (List.length l + chunk_size - 1) chunk_size)
    as Hm.
  fold total in Hd. nia.
Qed.

(** X10. [load_to_staging] never rolls back: whatever the database
    rejects, the staging table ends up with its earlier rows followed by
    a whole number of chunks of 5000 rows of the frame, in the order of
    the frame; the other three tables are not touched; and when the
    loader reports success every row of the frame is there. *)
Theorem load_to_staging_keeps_whole_chunks (df : list CleanRow)
    (db : Database) :
  let res := load_to_staging accepts df db in
  (exists j,
      stg_retail_sales (fst res)
      = (stg_retail_sales db
           ++ firstn (j * chunk_size) (map staging_columns df))%list)
  /\ dq_quarantine_sales (fst res) = dq_quarantine_sales db
  /\ dq_metrics (fst res) = dq_metrics db
  /\ meta_etl_batch_log (fst res) = meta_etl_batch_log db
  /\ (snd res = true ->
      stg_retail_sales (fst res)
      = (stg_retail_sales db ++ map staging_columns df)%list).
Proof. exact (load_to_staging_progress df db). Qed.

(** With every chunk of 1 to 5000 rows executed, the loader succeeds and
    the table gains the frame. *)
Lemma load_to_staging_sends_rows (df : list CleanRow) (db : Database) :
  (forall d rows,
      (0 < List.length rows <= chunk_size)%nat ->
      accepts d (InsertStaging rows) = true) ->
  snd (load_to_staging accepts df db) = true
  /\ stg_retail_sales (fst (load_to_staging accepts df db))
     = (stg_retail_sales db ++ map staging_columns df)%list.
Proof.
  intros Hacc.
  assert (Hok : snd (load_to_staging accepts df db) = true).
  { unfold load_to_staging.
    set (l := map staging_columns df).
    set (total := ((List.length l + chunk_size - 1) / chunk_size)%nat).
    assert (Hb : (total * chunk_size < List.length l + chunk_size)%nat).
    { pose proof chunk_size_positive as Hc.
      pose proof (Nat.div_mod_eq (List.length l + chunk_size - 1) chunk_size)
        as Hd.
      fold total in Hd. nia. }
    replace total with (0 + total)%nat in Hb by reflexivity.
    clearbody total. revert Hb. generalize db. generalize 0%nat as k.
    induction total as [|m IH]; intros k d Hb; [reflexivity|].
    change (seq k (S m)) with (k :: seq (S k) m).
    cbn [load_chunks]. cbv zeta. rewrite chunk_rows.
    unfold run_sql_query. rewrite Hacc.
    - apply IH. lia.
    - rewrite length_firstn, length_skipn.
      pose proof chunk_size_positive. nia. }
  split; [exact Hok|]. now apply load_to_staging_progress.
Qed.

(** X11. The chunks [load_to_staging] sends hold between 1 and 5000
    rows: a database that executes every insertion of that size into the
    staging table gets the whole frame, in order, and the loader reports
    success.  On an empty frame nothing is sent. *)
Theorem load_to_staging_sends_bounded_chunks (df : list CleanRow)
    (db : Database) :
  (forall d rows,
      (0 < List.length rows <= chunk_size)%nat ->
      accepts d (InsertStaging rows) = true) ->
  snd (load_to_staging accepts df db) = true
  /\ stg_retail_sales (fst (load_to_staging accepts df db))
     = (stg_retail_sales db ++ map staging_columns df)%list
  /\ (df = [] -> load_to_staging accepts df db = (db, true)).
Proof.
  intros Hacc. destruct (load_to_staging_sends_rows df db Hacc) as [H1 H2].
  split; [exact H1|]. split; [exact H2|].
  intros ->. reflexivity.
Qed.

End LoaderFacts.

Section RowLoaderFacts.

Variable accepts : Database -> statement -> bool.

Local Notation "'query'" := (run_sql_query accepts).

(** The effect of an insertion into the quarantine table, and into the
    metrics table. *)
Lemma insert_quarantine_effect (db : Database) (e : QuarantineEntry) :
  let res := query db (InsertQuarantine e) in
  dq_quarantine_sales (fst res)
  = (dq_quarantine_sales db ++ (if snd res then [e] else []))%list
  /\ stg_retail_sales (fst res) = stg_retail_sales db
  /\ dq_metrics (fst res) = dq_metrics db
  /\ meta_etl_batch_log (fst res) = meta_etl_batch_log db
  /\ snd res = accepts db (InsertQuarantine e).
Proof.
  unfold run_sql_query.
  destruct (accepts db (InsertQuarantine e)); simpl;
    rewrite ?app_nil_r; repeat split.
Qed.

Lemma insert_metric_effect (db : Database) (m : Metric) :
  let res := query db (InsertMetric m) in
  dq_metrics (fst res)
  = (dq_metrics db ++ (if snd res then [m] else []))%list
  /\ stg_retail_sales (fst res) = stg_retail_sales db
  /\ dq_quarantine_sales (fst res) = dq_quarantine_sales db
  /\ meta_etl_batch_log (fst res) = meta_etl_batch_log db
  /\ snd res = accepts db (InsertMetric m).
Proof.
  unfold run_sql_query.
  destruct (accepts db (InsertMetric m)); simpl;
    rewrite ?app_nil_r; repeat split.
Qed.

Lemma insert_batch_log_effect (db : Database) (b : BatchRecord) :
  let res := query db (InsertBatchLog b) in
  meta_etl_batch_log (fst res)
  = (meta_etl_batch_log db ++ (if snd res then [b] else []))%list
  /\ stg_retail_sales (fst res) = stg_retail_sales db
  /\ dq_quarantine_sales (fst res) = dq_quarantine_sales db
  /\ dq_metrics (fst res) = dq_metrics db
  /\ snd res = accepts db (InsertBatchLog b).
Proof.
  unfold run_sql_query.
  destruct (accepts db (InsertBatchLog b)); simpl;
    rewrite ?app_nil_r; repeat split.
Qed.

(** The loop over the quarantine entries: the table gains the entries up
    to the first one rejected, in order, and nothing else changes. *)
Lemma load_quarantine_progress (t : DataQualityTracker) (db : Database) :
  let res := load_quarantine accepts t db in
  exists done rest,
    quarantine_records t = (done ++ rest)%list
    /\ dq_quarantine_sales (fst res) = (dq_quarantine_sales db ++ done)%list
    /\ stg_retail_sales (fst res) = stg_retail_sales db
    /\ dq_metrics (fst res) = dq_metrics db
    /\ meta_etl_batch_log (fst res) = meta_etl_batch_log db
    /\ (snd res = true -> rest = [])
    /\ (snd res = false ->
        exists e rest' d, rest = e :: rest'
                          /\ accepts d (InsertQuarantine e) = false).
Proof.
  unfold load_quarantine. generalize (quarantine_records t) as rows.
  intros rows. revert db.
  induction rows as [|e rows IH]; intros db; cbn [insert_each].
  - exists [], []. cbn [fst snd]. rewrite !app_nil_r.
    repeat (split; [reflexivity|]). intros H. discriminate H.
  - destruct (insert_quarantine_effect db e) as (E1 & E2 & E3 & E4 & E5).
    destruct (query db (InsertQuarantine e)) as [db1 ok]. cbn [fst snd] in *.
    destruct ok.
    + destruct (IH db1) as (done & rest & H0 & H1 & H2 & H3 & H4 & H5 & H6).
      exists (e :: done), rest.
      rewrite H1, H2, H3, H4, E1, E2, E3, E4, <- app_assoc. subst rows.
      repeat split; reflexivity || assumption.
    + exists [], (e :: rows). cbn [fst snd]. rewrite E1, E2, E3, E4, app_nil_r.
      repeat split; try discriminate. intros _. exists e, rows, db.
      split; [reflexivity | now rewrite <- E5].
Qed.

Lemma load_dq_metrics_progress (t : DataQualityTracker) (db : Database) :
  let res := load_dq_metrics accepts t db in
  exists done rest,
    metrics t = (done ++ rest)%list
    /\ dq_metrics (fst res) = (dq_metrics db ++ done)%list
    /\ stg_retail_sales (fst res) = stg_retail_sales db
    /\ dq_quarantine_sales (fst res) = dq_quarantine_sales db
    /\ meta_etl_batch_log (fst res) = meta_etl_batch_log db
    /\ (snd res = true -> rest = [])
    /\ (snd res = false ->
        exists m rest' d, rest = m :: rest'
                          /\ accepts d (InsertMetric m) = false).
Proof.
  unfold load_dq_metrics. generalize (metrics t) as rows.
  intros rows. revert db.
  induction rows as [|m rows IH]; intros db; cbn [insert_each].
  - exists [], []. cbn [fst snd]. rewrite !app_nil_r.
    repeat (split; [reflexivity|]). intros H. discriminate H.
  - destruct (insert_metric_effect db m) as (E1 & E2 & E3 & E4 & E5).
    destruct (query db (InsertMetric m)) as [db1 ok]. cbn [fst snd] in *.
    destruct ok.
    + destruct (IH db1) as (done & rest & H0 & H1 & H2 & H3 & H4 & H5 & H6).
      exists (m :: done), rest.
      rewrite H1, H2, H3, H4, E1, E2, E3, E4, <- app_assoc. subst rows.
      repeat split; reflexivity || assumption.
    + exists [], (m :: rows). cbn [fst snd]. rewrite E1, E2, E3, E4, app_nil_r.
      repeat split; try discriminate. intros _. exists m, rows, db.
      split; [reflexivity | now rewrite <- E5].
Qed.

(** X12. [load_quarantine] and [load_dq_metrics] insert row by row and
    stop at the first row the database rejects: the table gains, in
    order, the rows before that one and keeps them; the other tables are
    not touched; the loader reports success exactly when no row was
    rejected, and then every row of the tracker is in the table. *)
Theorem row_loaders_stop_at_first_rejection (t : DataQualityTracker)
    (db : Database) :
  (let res := load_quarantine accepts t db in
   exists done rest,
     quarantine_records t = (done ++ rest)%list
     /\ dq_quarantine_sales (fst res) = (dq_quarantine_sales db ++ done)%list
     /\ stg_retail_sales (fst res) = stg_retail_sales db
     /\ dq_metrics (fst res) = dq_metrics db
     /\ meta_etl_batch_log (fst res) = meta_etl_batch_log db
     /\ (snd res = true -> rest = [])
     /\ (snd res = false ->
         exists e rest' d, rest = e :: rest'
                           /\ accepts d (InsertQuarantine e) = false))
  /\ (let res := load_dq_metrics accepts t db in
      exists done rest,
        metrics t = (done ++ rest)%list
        /\ dq_metrics (fst res) = (dq_metrics db ++ done)%list
        /\ stg_retail_sales (fst res) = stg_retail_sales db
        /\ dq_quarantine_sales (fst res) = dq_quarantine_sales db
        /\ meta_etl_batch_log (fst res) = meta_etl_batch_log db
        /\ (snd res = true -> rest = [])
        /\ (snd res = false ->
            exists m rest' d, rest = m :: rest'
                              /\ accepts d (InsertMetric m) = false)).
Proof.
  split; [apply load_quarantine_progress | apply load_dq_metrics_progress].
Qed.

End RowLoaderFacts.

(** * Further properties of a run *)

Lemma database_ext (d1 d2 : Database) :
  stg_retail_sales d1 = stg_retail_sales d2 ->
  dq_quarantine_sales d1 = dq_quarantine_sales d2 ->
  dq_metrics d1 = dq_metrics d2 ->
  meta_etl_batch_log d1 = meta_etl_batch_log d2 ->
  d1 = d2.
Proof. destruct d1, d2; simpl; congruence. Qed.

Lemma read_csv_len (records : list RawRecord) :
  len (read_csv records) = len records.
Proof.
  unfold len. f_equal. rewrite <- (length_map fst), read_csv_index.
  apply length_seq.
Qed.

Section RunFacts.

Variable to_datetime_text : string -> option Z.
Variable to_numeric_text : string -> option Q.
Variable timestamp_str : Z -> string.
Variable accepts : Database -> statement -> bool.

Local Notation "'transform'" :=
  (transform_data to_datetime_text to_numeric_text timestamp_str).
Local Notation "'run'" :=
  (run_etl_pipeline to_datetime_text to_numeric_text timestamp_str accepts).
Local Notation "'attempt'" :=
  (try_block to_datetime_text to_numeric_text timestamp_str accepts).
Local Notation "'setup'" := (recreate_tables accepts).
Local Notation "'extracted'" := (extraction to_datetime_text).
Local Notation "'loaded'" := (loading accepts).

(** What the three loaders leave when the database executes every row
    insertion into the quarantine and metrics tables: both tables hold
    all the rows of the tracker, whatever became of the staging load, and
    the overall result is that of the staging load. *)
Lemma loading_row_tables (clean : list CleanRow) (t : DataQualityTracker)
    (db : Database) :
  (forall d e, accepts d (InsertQuarantine e) = true) ->
  (forall d m, accepts d (InsertMetric m) = true) ->
  dq_quarantine_sales (fst (loaded clean t db))
  = (dq_quarantine_sales db ++ quarantine_records t)%list
  /\ dq_metrics (fst (loaded clean t db))
     = (dq_metrics db ++ metrics t)%list
  /\ stg_retail_sales (fst (loaded clean t db))
     = stg_retail_sales (fst (load_to_staging accepts clean db))
  /\ meta_etl_batch_log (fst (loaded clean t db)) = meta_etl_batch_log db
  /\ snd (loaded clean t db) = snd (load_to_staging accepts clean db).
Proof.
  intros Hq Hm. unfold loading.
  destruct (load_to_staging_progress accepts clean db)
    as (_ & S2 & S3 & S4 & _).
  destruct (load_to_staging accepts clean db) as [db1 s1]. cbn [fst snd] in *.
  destruct (load_quarantine_progress accepts t db1)
    as (dq & rq & Q0 & Q1 & Q2 & Q3 & Q4 & Q5 & Q6).
  destruct (load_quarantine accepts t db1) as [db2 s2]. cbn [fst snd] in *.
  destruct (load_dq_metrics_progress accepts t db2)
    as (dm & rm & M0 & M1 & M2 & M3 & M4 & M5 & M6).
  destruct (load_dq_metrics accepts t db2) as [db3 s3]. cbn [fst snd] in *.
  assert (s2 = true).
  { destruct s2; [reflexivity|].
    destruct (Q6 eq_refl) as (e & r & d & _ & Hd). rewrite Hq in Hd.
    discriminate Hd. }
  assert (s3 = true).
  { destruct s3; [reflexivity|].
    destruct (M6 eq_refl) as (m & r & d & _ & Hd). rewrite Hm in Hd.
    discriminate Hd. }
  subst s2 s3. rewrite (Q5 eq_refl), app_nil_r in Q0.
  rewrite (M5 eq_refl), app_nil_r in M0. subst dq dm.
  rewrite M3, Q1, M1, Q3, M2, Q2, M4, Q4, S2, S3, S4, !andb_true_r.
  repeat split.
Qed.

Lemma extraction_after_refresh (records : list RawRecord) (mode : string) :
  extracted (Some records) mode empty_database = Some (read_csv records).
Proof.
  unfold extraction. destruct (String.eqb mode "incremental"); reflexivity.
Qed.

Lemma log_other_tables (batch st : string) (a b c : Z) (msg : option string)
    (db : Database) :
  let res := log_batch_execution accepts batch st a b c msg db in
  stg_retail_sales (fst res) = stg_retail_sales db
  /\ dq_quarantine_sales (fst res) = dq_quarantine_sales db
  /\ dq_metrics (fst res) = dq_metrics db.
Proof.
  unfold log_batch_execution.
  match goal with
  | |- context [run_sql_query accepts db (InsertBatchLog ?r)] =>
      destruct (insert_batch_log_effect accepts db r) as (_ & H1 & H2 & H3 & _)
  end.
  cbv zeta. auto.
Qed.

(** X13. What a successful run leaves.  On a database that executes
    every statement, a run over a file with at least one record whose
    transformation returns ends with [True], in either mode and whatever
    the database held before, and leaves exactly: in the staging table the
    rows returned, in order; in the quarantine and metrics tables the
    entries and metrics of the tracker, in order; in the batch log the one
    record of the batch, [SUCCESS], with the three counts. *)
Theorem successful_run_leaves_exactly_the_batch (records : list RawRecord)
    (mode batch : string) (db : Database) (clean : list CleanRow)
    (t' : DataQualityTracker) :
  (forall d s, accepts d s = true) ->
  records <> [] ->
  transform (read_csv records) (new_tracker batch) = Ok (clean, t') ->
  run true (Some records) mode batch db
  = (true,
     mkDatabase (map staging_columns clean) (quarantine_records t')
       (metrics t')
       [mkBatch batch "SUCCESS" (len records) (len clean)
          (len (quarantine_records t')) None]).
Proof.
  intros Hall Hne Ht.
  unfold run_etl_pipeline. rewrite try_block_phases.
  rewrite (setup_empties accepts db) by (intros; apply Hall).
  rewrite extraction_after_refresh.
  assert (Hl : (len (read_csv records) =? 0) = false).
  { rewrite read_csv_len. destruct records; [congruence|]. rewrite len_cons.
    pose proof (len_nonneg records). lia. }
  rewrite Hl, Ht, read_csv_len.
  destruct (loading_row_tables clean t' empty_database)
    as (L1 & L2 & L3 & L4 & L5); try (intros; apply Hall).
  destruct (load_to_staging_sends_rows accepts clean empty_database) as [P1 P2];
    [intros; apply Hall|].
  rewrite P1 in L5. rewrite P2 in L3. rewrite L5.
  unfold log_batch_execution, run_sql_query. rewrite Hall. cbn [fst snd].
  f_equal. apply database_ext; simpl; rewrite ?L1, ?L2, ?L3, ?L4; reflexivity.
Qed.

Lemma nonempty_file_has_rows (records : list RawRecord) :
  records <> [] -> (len (read_csv records) =? 0) = false.
Proof.
  intros Hne. rewrite read_csv_len.
  destruct records; [congruence|]. rewrite len_cons.
  pose proof (len_nonneg records). lia.
Qed.

(** What the record that closes a batch adds to the batch log. *)
Lemma log_batch_execution_adds (batch st : string) (a b c : Z)
    (msg : option string) (db : Database) (r : BatchRecord) :
  In r (meta_etl_batch_log
          (fst (log_batch_execution accepts batch st a b c msg db))) ->
  In r (meta_etl_batch_log db)
  \/ r = mkBatch batch st a b c
           (match msg with Some EmptyString => None | other => other end).
Proof.
  unfold log_batch_execution.
  match goal with
  | |- context [run_sql_query accepts db (InsertBatchLog ?x)] =>
      destruct (insert_batch_log_effect accepts db x) as (H1 & _)
  end.
  cbv zeta in H1. rewrite H1. intros H. apply in_app_or in H.
  destruct H as [H | H]; [now left|].
  destruct (snd (run_sql_query accepts db _)); [|destruct H].
  destruct H as [<- | []]. now right.
Qed.

(** X14. The quarantine and the metrics are loaded whatever became of
    the staging load.  On a database that executes the set-up and every
    insertion into the quarantine and metrics tables, a run whose
    transformation returns leaves all the quarantine entries and all the
    metrics in their tables; it returns what [load_to_staging] returned,
    the staging table is as that loader left it, and a record the batch
    log holds says [SUCCESS], or [FAILED] with the message
    [Loading failed], accordingly. *)
Theorem row_tables_loaded_whatever_staging_did (records : list RawRecord)
    (mode batch : string) (db : Database) (clean : list CleanRow)
    (t' : DataQualityTracker) :
  (forall d, accepts d RecreateStaging = true) ->
  (forall d, accepts d RecreateQuarantine = true) ->
  (forall d, accepts d RecreateMetrics = true) ->
  (forall d, accepts d RecreateBatchLog = true) ->
  (forall d e, accepts d (InsertQuarantine e) = true) ->
  (forall d m, accepts d (InsertMetric m) = true) ->
  records <> [] ->
  transform (read_csv records) (new_tracker batch) = Ok (clean, t') ->
  let res := run true (Some records) mode batch db in
  let staged := load_to_staging accepts clean empty_database in
  dq_quarantine_sales (snd res) = quarantine_records t'
  /\ dq_metrics (snd res) = metrics t'
  /\ stg_retail_sales (snd res) = stg_retail_sales (fst staged)
  /\ fst res = snd staged
  /\ Forall (fun b =>
               if snd staged then status b = "SUCCESS"
               else status b = "FAILED"
                    /\ error_message b = Some "Loading failed")
       (meta_etl_batch_log (snd res)).
Proof.
  intros D1 D2 D3 D4 Hq Hm Hne Ht. cbv zeta.
  unfold run_etl_pipeline. rewrite try_block_phases.
  rewrite (setup_empties accepts db D1 D2 D3 D4).
  rewrite extraction_after_refresh, (nonempty_file_has_rows records Hne), Ht.
  destruct (loading_row_tables clean t' empty_database Hq Hm)
    as (L1 & L2 & L3 & L4 & L5).
  rewrite L5.
  destruct (snd (load_to_staging accepts clean empty_database)).
  - cbv iota beta.
    match goal with
    | |- context [log_batch_execution accepts ?b ?s ?x ?y ?z ?m ?d] =>
        destruct (log_other_tables b s x y z m d) as (O1 & O2 & O3);
        pose proof (log_batch_execution_adds b s x y z m d) as O4
    end.
    cbn [fst snd]. rewrite O1, O2, O3, L1, L2, L3.
    repeat (split; [reflexivity|]).
    apply Forall_forall. intros r Hr. apply O4 in Hr.
    rewrite L4 in Hr. destruct Hr as [[] | ->]. reflexivity.
  - cbv iota beta.
    match goal with
    | |- context [log_batch_execution accepts ?b ?s ?x ?y ?z ?m ?d] =>
        destruct (log_other_tables b s x y z m d) as (O1 & O2 & O3);
        pose proof (log_batch_execution_adds b s x y z m d) as O4;
        destruct (log_batch_execution accepts b s x y z m d) as [db1 ok]
    end.
    cbn [fst snd] in *. rewrite O1, O2, O3, L1, L2, L3.
    repeat (split; [reflexivity|]).
    apply Forall_forall. intros r Hr. apply O4 in Hr.
    rewrite L4 in Hr. destruct Hr as [[] | ->]. split; reflexivity.
Qed.

(** X15. A run over a file without records.  On a database that
    executes the set-up and the insertion into the batch log, a run over a
    file that holds no record returns [True] and leaves the three data
    tables empty and the one record [SUCCESS_NO_DATA] with zero counts;
    over a file that holds a record, no run, in either mode, leaves a
    record with that status. *)
Theorem run_without_rows (records : list RawRecord) (mode batch : string)
    (db : Database) :
  (forall d, accepts d RecreateStaging = true) ->
  (forall d, accepts d RecreateQuarantine = true) ->
  (forall d, accepts d RecreateMetrics = true) ->
  (forall d, accepts d RecreateBatchLog = true) ->
  (forall d b, accepts d (InsertBatchLog b) = true) ->
  let res := run true (Some records) mode batch db in
  (records = [] ->
   res = (true,
          mkDatabase [] [] []
            [mkBatch batch "SUCCESS_NO_DATA" 0 0 0
               (Some "No new data to process")]))
  /\ (records <> [] ->
      Forall (fun b => status b <> "SUCCESS_NO_DATA")
        (meta_etl_batch_log (snd res))).
Proof.
  intros D1 D2 D3 D4 Hlog. cbv zeta. split.
  - intros ->. unfold run_etl_pipeline. rewrite try_block_phases.
    rewrite (setup_empties accepts db D1 D2 D3 D4).
    rewrite extraction_after_refresh.
    unfold log_batch_execution, run_sql_query. rewrite Hlog. reflexivity.
  - intros Hne.
    destruct (run_connected to_datetime_text to_numeric_text timestamp_str
                accepts (Some records) mode batch db)
      as (b & db1 & Hrun & Hdb1 & _ & Hcase).
    rewrite Hrun.
    destruct (insert_batch_log_effect accepts db1 b) as (E & _).
    cbv zeta in E. rewrite E, Hdb1.
    rewrite (setup_empties accepts db D1 D2 D3 D4) in *.
    apply Forall_forall. intros r Hr. cbn [meta_etl_batch_log empty_database
      app] in Hr.
    destruct (snd (run_sql_query accepts db1 (InsertBatchLog b)));
      [|destruct Hr].
    destruct Hr as [<- | []].
    destruct Hcase as [(_ & _ & _ & _ & _ & df & Hx & Hl)
                      | [(_ & Hs & _) | (_ & Hs & _)]].
    + rewrite extraction_after_refresh in Hx. injection Hx as <-.
      pose proof (nonempty_file_has_rows records Hne) as Hz.
      rewrite Hl in Hz. discriminate Hz.
    + rewrite Hs. discriminate.
    + rewrite Hs. discriminate.
Qed.

(** X16. A run that fails before the loaders are reached loads nothing.
    On a database that executes the set-up, if the exception that leaves
    the [try] block is not the one for a failed load, then the run returns
    [False], the staging, quarantine and metrics tables are left empty,
    and a record the batch log holds is the [FAILED] record of the batch
    with zero counts and the text of the exception. *)
Theorem failure_before_loading_loads_nothing
    (csv : option (list RawRecord)) (mode batch : string) (db : Database)
    (e : string) :
  (forall d, accepts d RecreateStaging = true) ->
  (forall d, accepts d RecreateQuarantine = true) ->
  (forall d, accepts d RecreateMetrics = true) ->
  (forall d, accepts d RecreateBatchLog = true) ->
  escapes to_datetime_text to_numeric_text timestamp_str accepts
    csv mode batch db e ->
  e <> "Loading failed" ->
  let res := run true csv mode batch db in
  fst res = false
  /\ stg_retail_sales (snd res) = []
  /\ dq_quarantine_sales (snd res) = []
  /\ dq_metrics (snd res) = []
  /\ Forall (fun b => b = mkBatch batch "FAILED" 0 0 0 (Some e))
       (meta_etl_batch_log (snd res)).
Proof.
  intros D1 D2 D3 D4 He Hnl. cbv zeta.
  pose proof (escapes_message _ _ _ _ _ _ _ _ _ He) as Hmsg.
  assert (Ha : attempt csv mode batch db = (empty_database, Raise e)).
  { unfold escapes in He. rewrite try_block_phases in *.
    rewrite (setup_empties accepts db D1 D2 D3 D4) in *.
    destruct (extracted csv mode empty_database) as [df|].
    - destruct (len df =? 0); [discriminate He|].
      destruct (transform df (new_tracker batch)) as [[clean t]|e'].
      + destruct (snd (loaded clean t empty_database)); [discriminate He|].
        cbn [snd] in He. injection He as <-. now elim Hnl.
      + cbn [snd] in He. injection He as <-. reflexivity.
    - cbn [snd] in He. injection He as <-. reflexivity. }
  unfold run_etl_pipeline. rewrite Ha.
  match goal with
  | |- context [log_batch_execution accepts ?b ?s ?x ?y ?z ?m ?d] =>
      destruct (log_other_tables b s x y z m d) as (O1 & O2 & O3);
      pose proof (log_batch_execution_adds b s x y z m d) as O4;
      destruct (log_batch_execution accepts b s x y z m d) as [db1 ok]
  end.
  cbn [fst snd] in *. rewrite O1, O2, O3.
  repeat (split; [reflexivity|]).
  apply Forall_forall. intros r Hr. apply O4 in Hr.
  destruct Hr as [[] | ->]. destruct e; [now elim Hmsg | reflexivity].
Qed.

(** X17. When [run_etl_pipeline] returns [True]: exactly when the
    connection is made, the extraction gives a frame, and the frame is
    empty or else its transformation returns and the three loaders all
    succeed.  Whether the database accepted the record for the batch log
    plays no part. *)
Theorem run_returns_true_exactly_when (connects : bool)
    (csv : option (list RawRecord)) (mode batch : string) (db : Database) :
  fst (run connects csv mode batch db) = true
  <-> connects = true
      /\ exists df,
          extracted csv mode (setup db) = Some df
          /\ (len df = 0
              \/ (len df <> 0
                  /\ exists clean t,
                      transform df (new_tracker batch) = Ok (clean, t)
                      /\ snd (loaded clean t (setup db)) = true)).
Proof.
  destruct connects; [|split; [discriminate | intros [H _]; discriminate H]].
  unfold run_etl_pipeline. rewrite try_block_phases.
  destruct (extracted csv mode (setup db)) as [df|].
  - destruct (len df =? 0) eqn:El.
    + cbn [fst]. split; [|reflexivity]. intros _. split; [reflexivity|].
      exists df. split; [reflexivity|]. left. lia.
    + destruct (transform df (new_tracker batch)) as [[clean t]|e'] eqn:Et.
      * destruct (snd (loaded clean t (setup db))) eqn:Els.
        -- cbn [fst]. split; [|reflexivity]. intros _. split; [reflexivity|].
           exists df. split; [reflexivity|]. right. split; [lia|].
           exists clean, t. split; [exact Et | exact Els].
        -- destruct (log_batch_execution _ _ _ _ _ _ _ _). cbn [fst].
           split; [discriminate|].
           intros (_ & df' & Hx & [Hl | (_ & c & t0 & Ht & Hs)]).
           ++ injection Hx as <-. lia.
           ++ injection Hx as <-. rewrite Et in Ht. injection Ht as <- <-.
              rewrite Els in Hs. discriminate Hs.
      * destruct (log_batch_execution _ _ _ _ _ _ _ _). cbn [fst].
        split; [discriminate|].
        intros (_ & df' & Hx & [Hl | (_ & c & t0 & Ht & _)]).
        -- injection Hx as <-. lia.
        -- injection Hx as <-. rewrite Et in Ht. discriminate Ht.
  - destruct (log_batch_execution _ _ _ _ _ _ _ _). cbn [fst].
    split; [discriminate|]. intros (_ & df' & Hx & _). discriminate Hx.
Qed.

End RunFacts.

(** ** The incremental mode *)

Lemma sql_max_Some (values : list (option Z)) (m : Z) :
  sql_max values = Some m ->
  In (Some m) values /\ forall v, In (Some v) values -> v <= m.
Proof.
  revert m. induction values as [|[a|] values IH]; intros m;
    cbn [sql_max]; [discriminate| |].
  - destruct (sql_max values) as [b|] eqn:E.
    + intros H. injection H as <-. destruct (IH b eq_refl) as [Hin Hmax].
      split.
      * destruct (Z.max_spec a b) as [[_ ->] | [_ ->]];
          [right; exact Hin | left; reflexivity].
      * intros v [Hv | Hv]; [injection Hv as ->; lia|].
        apply Hmax in Hv. lia.
    + intros H. injection H as <-. split; [left; reflexivity|].
      intros v [Hv | Hv]; [injection Hv as ->; lia|].
      exfalso. clear IH. induction values as [|[c|] values IH];
        cbn [sql_max] in E; [destruct Hv| |].
      * destruct (sql_max values); discriminate E.
      * destruct Hv as [Hv | Hv]; [discriminate Hv | auto].
  - intros H. destruct (IH m H) as [Hin Hmax]. split; [right; exact Hin|].
    intros v [Hv | Hv]; [discriminate Hv | auto].
Qed.

Lemma joined_with_success (db : Database) (stg : StagedRow) :
  existsb
    (fun entry =>
       String.eqb (stg_batch_id stg) (log_batch_id entry)
       && String.eqb (status entry) "SUCCESS")
    (meta_etl_batch_log db) = true
  <-> logged_as_success db stg.
Proof.
  unfold logged_as_success. rewrite existsb_exists.
  split; intros (entry & Hin & H); exists entry; (split; [exact Hin|]).
  - apply andb_true_iff in H. destruct H as [H1 H2].
    apply String.eqb_eq in H1, H2. auto.
  - destruct H as [H1 H2]. rewrite H1, H2, !String.eqb_refl. reflexivity.
Qed.

(** X18. The timestamp [get_last_successful_batch_timestamp] returns is
    the invoice date of a staged row whose batch the log records under
    [SUCCESS], and no such row carries a later one; rows of batches that
    are not logged, or logged under another status, do not count. *)
Theorem last_timestamp_is_latest_successful (db : Database) (last : Z) :
  get_last_successful_batch_timestamp db = Some last ->
  (exists stg,
      In stg (stg_retail_sales db) /\ logged_as_success db stg
      /\ stg_invoice_date stg = Some last)
  /\ (forall stg when,
         In stg (stg_retail_sales db) -> logged_as_success db stg ->
         stg_invoice_date stg = Some when -> when <= last).
Proof.
  unfold get_last_successful_batch_timestamp. intros H.
  apply sql_max_Some in H. destruct H as [Hin Hmax]. split.
  - apply in_map_iff in Hin. destruct Hin as (stg & Hd & Hs).
    apply filter_In in Hs. destruct Hs as [Hs Hj].
    exists stg. split; [exact Hs|]. split; [|exact Hd].
    now apply joined_with_success.
  - intros stg when Hs Hj Hd. apply Hmax. rewrite <- Hd.
    apply in_map, filter_In. split; [exact Hs|].
    now apply joined_with_success.
Qed.

Section IncrementalFacts.

Variable to_datetime_text : string -> option Z.
Variable to_numeric_text : string -> option Q.
Variable timestamp_str : Z -> string.

Local Notation "'transform'" :=
  (transform_data to_datetime_text to_numeric_text timestamp_str).
Local Notation "'incremental'" := (extract_data_incremental to_datetime_text).
Local Notation "'date_of'" := (to_datetime to_datetime_text).

(** X19. What [extract_data_incremental] returns.  Without a file it
    returns nothing, with or without a timestamp; without a timestamp it
    returns what [extract_data] returns, with or without a file; with a
    file and a timestamp it returns, under their labels of the file
    and in the order of the file, exactly the records whose date parses to
    a moment strictly after the timestamp, each with the parsed moment in
    place of the text. *)
Theorem incremental_extraction_selects_newer (records : list RawRecord)
    (last : Z) :
  (forall last_batch_date, incremental None last_batch_date = None)
  /\ (forall csv, incremental csv None = extract_data csv)
  /\ exists df,
      incremental (Some records) (Some last) = Some df
      /\ (forall i r,
             In (i, r) df
             <-> exists r0 when,
                 In (i, r0) (read_csv records)
                 /\ date_of (InvoiceDate r0) = Some when
                 /\ last < when
                 /\ r = with_InvoiceDate r0 (DStamp when))
      /\ StronglySorted lt (map fst df)
      /\ len df <= len records.
Proof.
  split; [reflexivity|]. split; [intros [file|]; reflexivity|].
  unfold extract_data_incremental. eexists. split; [reflexivity|].
  split; [|split].
  - intros i r. rewrite filter_In, in_map_iff. split.
    + intros [([i0 r0] & Hr & Hin) Hn]. cbn [fst snd] in Hr.
      injection Hr as -> <-. cbn [snd with_InvoiceDate InvoiceDate] in Hn.
      destruct (date_of (InvoiceDate r0)) as [when|] eqn:Ed;
        cbn [stamp newer_than] in Hn; [|discriminate Hn].
      exists r0, when. split; [exact Hin|]. split; [exact Ed|].
      split; [lia | reflexivity].
    + intros (r0 & when & Hin & Hd & Hl & ->). split.
      * exists (i, r0). cbn [fst snd]. rewrite Hd. split; [reflexivity|exact Hin].
      * cbn [snd with_InvoiceDate InvoiceDate newer_than]. lia.
  - apply sorted_filter. rewrite map_map. cbn [fst].
    change (fun x : nat * RawRecord => fst x) with (@fst nat RawRecord).
    rewrite read_csv_index. apply sorted_seq.
  - rewrite <- (read_csv_len records). unfold len.
    match goal with
    | |- Z.of_nat (List.length (filter ?p ?l)) <= _ =>
        pose proof (filter_length_le p l) as Hle; rewrite length_map in Hle
    end.
    lia.
Qed.

(** X20. The transformation of an incrementally extracted frame.  The
    rows that [extract_data_incremental] returns for a timestamp carry the
    parsed moment as their date, so [transform_data] drops none of them for
    its date: it adds no metric of the rule [remove_unparseable_dates], and
    every row it returns is dated strictly after the timestamp. *)
Theorem incremental_rows_are_dated (csv : option (list RawRecord))
    (last : Z) (df : DataFrame) (t t' : DataQualityTracker)
    (clean : list CleanRow) :
  incremental csv (Some last) = Some df ->
  transform df t = Ok (clean, t') ->
  Forall (fun row =>
            exists when,
              invoice_date (typed row) = Some when /\ last < when
              /\ InvoiceDate (raw (typed row)) = DStamp when)
    clean
  /\ (forall m,
         In m (metrics t') ->
         metric_rule_name m = "remove_unparseable_dates" ->
         In m (metrics t)).
Proof.
  intros Hx Ht.
  pose proof (extract_data_incremental_newer to_datetime_text csv last df Hx)
    as Hnew.
  rewrite Forall_forall in Hnew.
  destruct (clean_rows_origin _ _ _ _ _ _ _ Ht) as (cast & Hc & -> & ->).
  split.
  - apply Forall_forall. intros row Hin. apply in_map_iff in Hin.
    destruct Hin as (r & <- & Hr). cbn [typed finish_row].
    apply after_critical_member in Hr. destruct Hr as (Hr & _).
    destruct (cast_rows_origin _ _ _ _ Hc Hr) as (a & Ha & Hrow).
    apply cast_row_columns in Hrow. destruct Hrow as (_ & Hraw & Hdate).
    unfold parsed, dated in Ha. apply keep_In in Ha. destruct Ha as [Ha _].
    apply in_map_iff in Ha. destruct Ha as (x & <- & Hx').
    cbn [fst snd] in Hraw, Hdate.
    destruct (Hnew x Hx') as (when & Hd & Hl).
    exists when. rewrite Hdate, Hraw, Hd. repeat split. exact Hl.
  - intros m Hin Hname. cbn [snd transform_outcome metrics] in Hin.
    apply in_app_or in Hin. destruct Hin as [Hin | Hin]; [exact Hin|].
    exfalso. unfold rule_stages in Hin. cbn [flat_map] in Hin.
    assert (Hnone : mask_sum unparseable (dated to_datetime_text df) = 0).
    { unfold mask_sum, dated.
      destruct (filter unparseable _) as [|a rest] eqn:Ef; [reflexivity|].
      assert (Ha : In a (a :: rest)) by (left; reflexivity).
      rewrite <- Ef in Ha. apply filter_In in Ha. destruct Ha as [Ha Hu].
      apply in_map_iff in Ha. destruct Ha as (x & <- & Hx').
      destruct (Hnew x Hx') as (when & Hd & _).
      unfold unparseable in Hu. cbn [snd] in Hu. rewrite Hd in Hu.
      discriminate Hu. }
    unfold stage_metric in Hin. cbn [rejected] in Hin. rewrite Hnone in Hin.
    cbn [Z.gtb Z.compare app] in Hin.
    repeat match type of Hin with
           | In _ (_ ++ _) => apply in_app_or in Hin; destruct Hin as [Hin | Hin]
           | In _ (if ?c then _ else _) => destruct c
           | In _ [_] => destruct Hin as [<- | []]; discriminate Hname
           | In _ [] => destruct Hin
           end.
Qed.

End IncrementalFacts.

(** ** The orchestrating script *)

Lemma run_files_progress (sql_files : list (string * bool))
    (committed : list string) :
  exists done rest,
    sql_files = (done ++ rest)%list
    /\ fst (RunFullPipeline.run_files sql_files committed)
       = (committed ++ map fst done)%list
    /\ Forall (fun f => snd f = true) done
    /\ (snd (RunFullPipeline.run_files sql_files committed) = true
        -> rest = [])
    /\ (snd (RunFullPipeline.run_files sql_files committed) = false
        -> exists name rest', rest = (name, false) :: rest').
Proof.
  revert committed.
  induction sql_files as [|[name executes] sql_files IH]; intros committed.
  - exists [], []. cbn. rewrite app_nil_r.
    repeat split; auto. intros H. discriminate H.
  - cbn [RunFullPipeline.run_files]. destruct executes.
    + destruct (IH (committed ++ [name])%list)
        as (done & rest & H0 & H1 & H2 & H3 & H4).
      exists ((name, true) :: done), rest. subst sql_files.
      rewrite H1, <- app_assoc. repeat split; auto.
    + exists [], ((name, false) :: sql_files). cbn. rewrite app_nil_r.
      repeat split; auto; [intros H; discriminate H | eauto].
Qed.

Lemma run_folders_progress (folders : list RunFullPipeline.folder)
    (committed : list string) :
  exists done rest,
    migration_files folders = (done ++ rest)%list
    /\ fst (RunFullPipeline.run_folders folders committed)
       = (committed ++ map fst done)%list
    /\ Forall (fun f => snd f = true) done
    /\ (snd (RunFullPipeline.run_folders folders committed) = true
        -> rest = [])
    /\ (snd (RunFullPipeline.run_folders folders committed) = false
        -> exists name rest', rest = (name, false) :: rest').
Proof.
  revert committed.
  induction folders as [|[sql_files|] folders IH]; intros committed.
  - exists [], []. cbn. rewrite app_nil_r.
    repeat split; auto. intros H. discriminate H.
  - cbn [RunFullPipeline.run_folders migration_files flat_map].
    destruct (run_files_progress sql_files committed)
      as (d1 & r1 & H0 & H1 & H2 & H3 & H4).
    destruct (RunFullPipeline.run_files sql_files committed)
      as [committed1 finished]. cbn [fst snd] in *.
    destruct finished.
    + rewrite (H3 eq_refl), app_nil_r in H0. subst sql_files committed1.
      destruct (IH (committed ++ map fst d1)%list)
        as (d2 & r2 & G0 & G1 & G2 & G3 & G4).
      exists (d1 ++ d2)%list, r2. fold (migration_files folders).
      rewrite G0, G1, map_app, !app_assoc.
      repeat split; auto. apply Forall_app. auto.
    + destruct (H4 eq_refl) as (name & rest' & ->).
      exists d1, ((name, false) :: rest' ++ migration_files folders)%list.
      cbn [fst snd]. fold (migration_files folders). subst sql_files.
      rewrite <- app_assoc. repeat split; auto;
        [intros H; discriminate H | eauto].
  - cbn [RunFullPipeline.run_folders migration_files flat_map app].
    apply IH.
Qed.

(** X21. [run_sql_migrations] commits the migration files, folder by
    folder and in sorted order, up to the first one the database does not
    execute, and nothing after it: a folder that is absent is passed over,
    a file that fails ends the loop with the exception, and the files
    committed before it stay committed. *)
Theorem migrations_stop_at_first_failure
    (dim_tables fact_tables materialized_views : RunFullPipeline.folder) :
  let res :=
    RunFullPipeline.run_sql_migrations dim_tables fact_tables
      materialized_views in
  exists done rest,
    migration_files [dim_tables; fact_tables; materialized_views]
    = (done ++ rest)%list
    /\ fst res = map fst done
    /\ Forall (fun f => snd f = true) done
    /\ (snd res = true -> rest = [])
    /\ (snd res = false -> exists name rest', rest = (name, false) :: rest').
Proof.
  exact (run_folders_progress [dim_tables; fact_tables; materialized_views] []).
Qed.

Lemma migrations_finish_iff
    (dim_tables fact_tables materialized_views : RunFullPipeline.folder) :
  snd (RunFullPipeline.run_sql_migrations dim_tables fact_tables
         materialized_views) = true
  <-> Forall (fun f => snd f = true)
        (migration_files [dim_tables; fact_tables; materialized_views]).
Proof.
  destruct (run_folders_progress
              [dim_tables; fact_tables; materialized_views] [])
    as (done & rest & H0 & _ & H2 & H3 & H4).
  fold (RunFullPipeline.run_sql_migrations dim_tables fact_tables
          materialized_views) in H3, H4.
  rewrite H0. split.
  - intros H. rewrite (H3 H), app_nil_r. exact H2.
  - intros H.
    destruct (snd (RunFullPipeline.run_sql_migrations _ _ _));
      [reflexivity|].
    destruct (H4 eq_refl) as (name & rest' & ->).
    apply Forall_app in H. destruct H as [_ H].
    apply Forall_inv in H. discriminate H.
Qed.

(** X22. When the full pipeline reports success.  [main] returns [True],
    and the script leaves with status 0, exactly when the staging load
    left with status 0, the connection and both status checks went
    through, and every migration file was executed; the exit status of the
    test suite changes neither the value returned nor the files
    committed. *)
Theorem full_pipeline_succeeds_exactly_when (etl_exit_status : Z)
    (connects status_before : bool)
    (dim_tables fact_tables materialized_views : RunFullPipeline.folder)
    (status_after : bool) (tests_exit_status : Z) :
  let result :=
    RunFullPipeline.main etl_exit_status connects status_before
      dim_tables fact_tables materialized_views status_after
      tests_exit_status in
  (fst result = true
   <-> etl_exit_status = 0 /\ connects = true /\ status_before = true
       /\ Forall (fun f => snd f = true)
            (migration_files [dim_tables; fact_tables; materialized_views])
       /\ status_after = true)
  /\ (sys_exit_status (fst result) = 0 <-> fst result = true)
  /\ (forall other,
         RunFullPipeline.main etl_exit_status connects status_before
           dim_tables fact_tables materialized_views status_after other
         = result).
Proof.
  cbv zeta. split; [|split].
  - rewrite <- migrations_finish_iff. unfold RunFullPipeline.main, run_command.
    destruct (etl_exit_status =? 0) eqn:E; cbn [negb];
      [apply Z.eqb_eq in E | apply Z.eqb_neq in E].
    + destruct connects, status_before; cbn [negb fst];
        try (split; [discriminate | intros (_ & H1 & H2 & _); discriminate]).
      destruct (RunFullPipeline.run_sql_migrations _ _ _)
        as [committed finished].
      destruct finished, status_after; cbn [negb fst snd];
        try (split; [discriminate
                    | intros (_ & _ & _ & H1 & H2); discriminate]).
      tauto.
    + cbn [fst]. split; [discriminate | intros (H & _); contradiction].
  - destruct (fst _); cbn; split; auto; discriminate.
  - intros other. unfold RunFullPipeline.main.
    destruct (negb (run_command etl_exit_status)); [reflexivity|].
    destruct (negb connects); [reflexivity|].
    destruct (negb status_before); [reflexivity|].
    destruct (RunFullPipeline.run_sql_migrations _ _ _) as [c f].
    destruct (negb f); [reflexivity|].
    destruct (negb status_after); reflexivity.
Qed.

(** * The further properties at sample runs *)

(** X1, on the sample frame. *)
Lemma returned_rows_pass_every_rule_witness :
  exists clean t',
    Sample.transformed = Ok (clean, t')
    /\ List.length clean = 2%nat
    /\ Forall (fun row =>
                 (exists when, invoice_date (typed row) = Some when)
                 /\ InvoiceNo (raw (typed row)) <> None
                 /\ StockCode (raw (typed row)) <> None
                 /\ quantity (typed row) <> 0
                 /\ (0 <= unit_price (typed row))%Q
                 /\ ((unit_price (typed row) <= 10000)%Q
                     \/ 100 <= Z.abs (quantity (typed row)))
                 /\ line_total (typed row)
                    = (inject_Z (quantity (typed row))
                       * unit_price (typed row))%Q)
         clean.
Proof.
  eexists. eexists. split; [vm_compute; reflexivity|].
  split; [reflexivity|].
  exact (returned_rows_pass_every_rule Sample.dates Sample.numbers
           Sample.print_time Sample.frame (new_tracker Sample.batch) _ _
           eq_refl).
Defined.

(** X2, on the sample frame, whose last record repeats the second. *)
Lemma returned_rows_differ_witness :
  exists clean t',
    Sample.transformed = Ok (clean, t')
    /\ ForallOrdPairs (fun a b => row_eqb (typed a) (typed b) = false) clean.
Proof.
  eexists. eexists. split; [vm_compute; reflexivity|].
  exact (returned_rows_differ Sample.dates Sample.numbers
           Sample.print_time Sample.frame (new_tracker Sample.batch) _ _
           eq_refl).
Defined.

(** X3, on the sample frame. *)
Lemma returned_rows_follow_input_witness :
  StronglySorted lt (map fst Sample.frame)
  /\ exists clean t',
      Sample.transformed = Ok (clean, t')
      /\ map (fun row => index (typed row)) clean = [0%nat; 1%nat]
      /\ StronglySorted lt (map (fun row => index (typed row)) clean)
      /\ Forall (fun row => In (index (typed row), raw (typed row))
                              Sample.frame) clean.
Proof.
  assert (Hs : StronglySorted lt (map fst Sample.frame)).
  { unfold Sample.frame. rewrite read_csv_index. apply sorted_seq. }
  split; [exact Hs|].
  eexists. eexists. split; [vm_compute; reflexivity|].
  split; [reflexivity|].
  exact (returned_rows_follow_input Sample.dates Sample.numbers
           Sample.print_time Sample.frame (new_tracker Sample.batch) _ _
           Hs eq_refl).
Defined.

(** X4, on the sample frame. *)
Lemma all_null_rule_never_fires_witness :
  exists clean t',
    Sample.transformed = Ok (clean, t')
    /\ exists cast ms,
        cast_frame Sample.numbers (parsed Sample.dates Sample.frame) = Ok cast
        /\ after_all_null cast = after_negative cast
        /\ metrics t' = (metrics (new_tracker Sample.batch) ++ ms)%list
        /\ Forall (fun m => metric_rule_name m <> "remove_all_null_rows") ms.
Proof.
  eexists. eexists. split; [vm_compute; reflexivity|].
  exact (all_null_rule_never_fires Sample.dates Sample.numbers
           Sample.print_time Sample.frame (new_tracker Sample.batch) _ _
           eq_refl).
Defined.

(** X6, on the sample frame. *)
Lemma flags_exclude_one_another_witness :
  exists clean t',
    Sample.transformed = Ok (clean, t')
    /\ map is_valid_sale clean = [false; true]
    /\ Forall (fun row =>
                 (is_valid_sale row = true ->
                  is_cancellation row = false /\ is_return row = false
                  /\ is_adjustment row = false /\ 0 < quantity (typed row))
                 /\ (is_adjustment row = true ->
                     is_guest_purchase row = true
                     /\ is_cancellation row = false
                     /\ is_return row = false
                     /\ (unit_price (typed row) == 0)%Q
                     /\ quantity (typed row) < 0)
                 /\ (quantity (typed row) < 0
                     <-> is_return row = true \/ is_adjustment row = true)
                 /\ (is_return row = true -> is_adjustment row = false))
         clean.
Proof.
  eexists. eexists. split; [vm_compute; reflexivity|].
  split; [reflexivity|].
  exact (flags_exclude_one_another Sample.dates Sample.numbers
           Sample.print_time Sample.frame (new_tracker Sample.batch) _ _
           eq_refl).
Defined.

(** X7, on the sample frame. *)
Lemma outputs_carry_the_batch_witness :
  exists clean t',
    Sample.transformed = Ok (clean, t')
    /\ batch_id t' = Sample.batch
    /\ Forall (fun row => row_batch_id row = Sample.batch
                          /\ source_file row = "online_retail.csv") clean
    /\ exists ms qs,
        metrics t' = (metrics (new_tracker Sample.batch) ++ ms)%list
        /\ quarantine_records t'
           = (quarantine_records (new_tracker Sample.batch) ++ qs)%list
        /\ Forall (fun m => metric_batch_id m = Sample.batch) ms
        /\ Forall (fun e => quarantine_batch_id e = Sample.batch) qs.
Proof.
  eexists. eexists. split; [vm_compute; reflexivity|].
  exact (outputs_carry_the_batch Sample.dates Sample.numbers
           Sample.print_time Sample.frame (new_tracker Sample.batch) _ _
           eq_refl).
Defined.

(** X8, on a frame whose description has white space around it. *)
Lemma returned_text_is_trimmed_witness :
  exists clean t',
    transform_data Sample.dates Sample.numbers Sample.print_time
      (read_csv Scenario.file) (new_tracker Sample.batch) = Ok (clean, t')
    /\ map description clean
       = ["CREAM CUPID HEARTS COAT HANGER"; "baking set 9 piece"]
    /\ Forall (fun row =>
                 trimmed (invoice_no row) /\ trimmed (stock_code row)
                 /\ trimmed (description row) /\ trimmed (country row))
         clean.
Proof.
  eexists. eexists. split; [vm_compute; reflexivity|].
  split; [reflexivity|].
  exact (returned_text_is_trimmed Sample.dates Sample.numbers
           Sample.print_time (read_csv Scenario.file)
           (new_tracker Sample.batch) _ _ eq_refl).
Defined.

(** X9, on a frame with a record without country. *)
Lemma missing_text_is_replaced_witness :
  exists clean t',
    transform_data Sample.dates Sample.numbers Sample.print_time
      (read_csv Scenario.file) (new_tracker Sample.batch) = Ok (clean, t')
    /\ map country clean = ["United Kingdom"; "Unknown"]
    /\ Forall (fun row =>
                 (Description (raw (typed row)) = None ->
                  description row = "UNKNOWN PRODUCT")
                 /\ (Country (raw (typed row)) = None ->
                     country row = "Unknown"))
         clean.
Proof.
  eexists. eexists. split; [vm_compute; reflexivity|].
  split; [reflexivity|].
  exact (missing_text_is_replaced Sample.dates Sample.numbers
           Sample.print_time (read_csv Scenario.file)
           (new_tracker Sample.batch) _ _ eq_refl).
Defined.

(** X11, on the rows of the sample frame. *)
Lemma load_to_staging_sends_bounded_chunks_witness :
  (forall d rows,
      (0 < List.length rows <= chunk_size)%nat ->
      Sample.always d (InsertStaging rows) = true)
  /\ exists clean t',
      Sample.transformed = Ok (clean, t')
      /\ snd (load_to_staging Sample.always clean Sample.earlier) = true
      /\ stg_retail_sales (fst (load_to_staging Sample.always clean
                                  Sample.earlier))
         = (stg_retail_sales Sample.earlier ++ map staging_columns clean)%list.
Proof.
  assert (Hacc : forall d rows,
             (0 < List.length rows <= chunk_size)%nat ->
             Sample.always d (InsertStaging rows) = true)
    by (intros d rows _; reflexivity).
  split; [exact Hacc|].
  eexists. eexists. split; [vm_compute; reflexivity|].
  match goal with
  | |- snd (load_to_staging _ ?clean _) = _ /\ _ =>
      destruct (load_to_staging_sends_bounded_chunks Sample.always clean
                  Sample.earlier Hacc) as (H1 & H2 & _)
  end.
  split; [exact H1 | exact H2].
Defined.

(** X13, on the sample run. *)
Lemma successful_run_leaves_exactly_the_batch_witness :
  (forall d s, Sample.always d s = true)
  /\ exists clean t',
      Sample.transformed = Ok (clean, t')
      /\ Sample.full_run
         = (true,
            mkDatabase (map staging_columns clean) (quarantine_records t')
              (metrics t')
              [mkBatch Sample.batch "SUCCESS" 6 2 2 None]).
Proof.
  assert (Hall : forall d s, Sample.always d s = true)
    by (intros d s; reflexivity).
  split; [exact Hall|].
  eexists. eexists. split; [vm_compute; reflexivity|].
  assert (Hne : [Sample.cancellation; Sample.sale; Sample.zero_quantity;
                 Sample.overpriced; Sample.undated; Sample.sale] <> [])
    by discriminate.
  exact (successful_run_leaves_exactly_the_batch Sample.dates Sample.numbers
           Sample.print_time Sample.always _ "full" Sample.batch
           Sample.earlier _ _ Hall Hne eq_refl).
Defined.

(** X14, on a database that rejects the staging rows: the run fails, and
    the two quarantine entries and the metrics are in their tables all the
    same. *)
Lemma row_tables_loaded_whatever_staging_did_witness :
  exists clean t',
    Sample.transformed = Ok (clean, t')
    /\ let res :=
         run_etl_pipeline Sample.dates Sample.numbers Sample.print_time
           Scenario.rejects_staging true
           (Some [Sample.cancellation; Sample.sale; Sample.zero_quantity;
                  Sample.overpriced; Sample.undated; Sample.sale])
           "full" Sample.batch Sample.earlier in
       fst res = false
       /\ List.length (dq_quarantine_sales (snd res)) = 2%nat
       /\ dq_quarantine_sales (snd res) = quarantine_records t'
       /\ dq_metrics (snd res) = metrics t'
       /\ stg_retail_sales (snd res) = []
       /\ map status (meta_etl_batch_log (snd res)) = ["FAILED"].
Proof.
  eexists. eexists. split; [vm_compute; reflexivity|].
  assert (Hne : [Sample.cancellation; Sample.sale; Sample.zero_quantity;
                 Sample.overpriced; Sample.undated; Sample.sale] <> [])
    by discriminate.
  destruct (row_tables_loaded_whatever_staging_did Sample.dates
              Sample.numbers Sample.print_time Scenario.rejects_staging
              _ "full" Sample.batch Sample.earlier _ _
              (fun _ => eq_refl) (fun _ => eq_refl) (fun _ => eq_refl)
              (fun _ => eq_refl) (fun _ _ => eq_refl) (fun _ _ => eq_refl)
              Hne eq_refl)
    as (H1 & H2 & _).
  cbv zeta.
  split; [vm_compute; reflexivity|]. split; [vm_compute; reflexivity|].
  split; [exact H1|]. split; [exact H2|].
  split; vm_compute; reflexivity.
Defined.

(** X15, on an incremental run over a file without records. *)
Lemma run_without_rows_witness :
  (forall d b, Sample.always d (InsertBatchLog b) = true)
  /\ run_etl_pipeline Sample.dates Sample.numbers Sample.print_time
       Sample.always true (Some []) "incremental" Sample.batch Sample.earlier
     = (true,
        mkDatabase [] [] []
          [mkBatch Sample.batch "SUCCESS_NO_DATA" 0 0 0
             (Some "No new data to process")]).
Proof.
  assert (Hlog : forall d b, Sample.always d (InsertBatchLog b) = true)
    by (intros d b; reflexivity).
  split; [exact Hlog|].
  destruct (run_without_rows Sample.dates Sample.numbers Sample.print_time
              Sample.always [] "incremental" Sample.batch Sample.earlier
              (fun _ => eq_refl) (fun _ => eq_refl) (fun _ => eq_refl)
              (fun _ => eq_refl) Hlog) as [H _].
  exact (H eq_refl).
Defined.

(** X16, on a run whose source file is absent. *)
Lemma failure_before_loading_loads_nothing_witness :
  escapes Sample.dates Sample.numbers Sample.print_time Sample.always
    None "full" Sample.batch Sample.earlier "Extraction failed"
  /\ "Extraction failed" <> "Loading failed"
  /\ let res :=
       run_etl_pipeline Sample.dates Sample.numbers Sample.print_time
         Sample.always true None "full" Sample.batch Sample.earlier in
     fst res = false
     /\ stg_retail_sales (snd res) = []
     /\ dq_quarantine_sales (snd res) = []
     /\ dq_metrics (snd res) = []
     /\ Forall (fun b => b = mkBatch Sample.batch "FAILED" 0 0 0
                               (Some "Extraction failed"))
          (meta_etl_batch_log (snd res)).
Proof.
  assert (He : escapes Sample.dates Sample.numbers Sample.print_time
                 Sample.always None "full" Sample.batch Sample.earlier
                 "Extraction failed") by reflexivity.
  assert (Hn : "Extraction failed" <> "Loading failed") by discriminate.
  split; [exact He|]. split; [exact Hn|].
  exact (failure_before_loading_loads_nothing Sample.dates Sample.numbers
           Sample.print_time Sample.always None "full" Sample.batch
           Sample.earlier "Extraction failed"
           (fun _ => eq_refl) (fun _ => eq_refl) (fun _ => eq_refl)
           (fun _ => eq_refl) He Hn).
Defined.

(** X18, on the database the earlier batch left. *)
Lemma last_timestamp_is_latest_successful_witness :
  get_last_successful_batch_timestamp Sample.earlier = Some 1291191960
  /\ (exists stg,
         In stg (stg_retail_sales Sample.earlier)
         /\ logged_as_success Sample.earlier stg
         /\ stg_invoice_date stg = Some 1291191960)
  /\ (forall stg when,
         In stg (stg_retail_sales Sample.earlier) ->
         logged_as_success Sample.earlier stg ->
         stg_invoice_date stg = Some when -> when <= 1291191960).
Proof.
  split; [reflexivity|].
  exact (last_timestamp_is_latest_successful Sample.earlier 1291191960
           eq_refl).
Defined.

(** X20, on a file that holds the sale loaded earlier and a newer one. *)
Lemma incremental_rows_are_dated_witness :
  extract_data_incremental Sample.dates (Some Scenario.file)
    (Some 1291191960) = Some Scenario.newer_frame
  /\ exists clean t',
      transform_data Sample.dates Sample.numbers Sample.print_time
        Scenario.newer_frame (new_tracker Sample.batch) = Ok (clean, t')
      /\ List.length clean = 1%nat
      /\ Forall (fun row =>
                   exists when,
                     invoice_date (typed row) = Some when
                     /\ 1291191960 < when
                     /\ InvoiceDate (raw (typed row)) = DStamp when)
           clean
      /\ (forall m,
             In m (metrics t') ->
             metric_rule_name m = "remove_unparseable_dates" ->
             In m (metrics (new_tracker Sample.batch))).
Proof.
  assert (Hx : extract_data_incremental Sample.dates (Some Scenario.file)
                 (Some 1291191960) = Some Scenario.newer_frame)
    by reflexivity.
  split; [exact Hx|].
  eexists. eexists. split; [vm_compute; reflexivity|].
  split; [reflexivity|].
  exact (incremental_rows_are_dated Sample.dates Sample.numbers
           Sample.print_time (Some Scenario.file) 1291191960
           Scenario.newer_frame (new_tracker Sample.batch) _ _ Hx eq_refl).
Defined.
